(** * Gestore Appuntamenti: a verified model of [app.py]

    The development embeds the appointment entity [Appuntamento] and the
    controller [GestoreAppuntamenti] of [app.py], together with the parts of
    the Python library they call ([str.strip], [int], [datetime],
    [timedelta]), and proves the properties of the specification on them.

    Conventions.
    - A Python [str] is a Rocq [string]; a character stands for a code point
      below 256, the range on which [str.strip] and [int] are modelled.
    - A Python exception is a value of [exn]; a computation that may raise
      returns [res A].
    - Methods of the controller run in the state monad [M] over [World]:
      the attributes of the window object, the content of [SAVE_FILE], the
      message boxes shown so far and the allocator of object identities.
    - What the user and the file system do is an argument of the callback:
      the reply to a yes/no box, the selection of the list box, the outcome
      of a write.
    - [datetime.fromisoformat] accepts different strings in different
      versions of Python: the program is embedded over any parser that
      reads back what [isoformat] writes and returns only [datetime] values
      (the class [Fromisoformat]); the grammar Python documents for the
      versions 3.7 to 3.10 is an instance, with which the examples are
      evaluated.

    Organisation: the program and the library ([PyStr], [PyInt],
    [PyDatetime], [Appuntamento], [GestoreAppuntamenti]); the notions of the
    statements ([Notions], [MoreNotions]); the lemmas; the claims
    ([Claims]); further properties of the code ([Extras]). *)

From Stdlib Require Import ZArith Lia Ascii String.
From stdpp Require Import base option list sorting gmap strings.

Local Open Scope Z_scope.

(** ** Exceptions and results *)

Inductive exn :=
| KeyError | TypeError | ValueError | AttributeError
| OverflowError | IndexError | OSError.

Inductive res (A : Type) :=
| Ret (a : A)
| Raise (e : exn).
Arguments Ret {A} a.
Arguments Raise {A} e.

Definition res_bind {A B} (m : res A) (k : A -> res B) : res B :=
  match m with
  | Ret a => k a
  | Raise e => Raise e
  end.

Declare Scope res_scope.
Delimit Scope res_scope with res.
Notation "x <- m ; k" := (res_bind m (fun x => k))
  (at level 20, m at level 100, k at level 200, right associativity)
  : res_scope.
Local Open Scope res_scope.

Definition is_Ret {A} (r : res A) : bool :=
  match r with Ret _ => true | Raise _ => false end.

Definition raises {A} (r : res A) : Prop := exists e, r = Raise e.

(** ** Python strings *)

Module PyStr.

(** [str.isspace] on one character: the code points below 256 that Python
    treats as whitespace. *)
Definition isspace (c : ascii) : bool :=
  let n := Z.of_N (Ascii.N_of_ascii c) in
  ((9 <=? n) && (n <=? 13)) || ((28 <=? n) && (n <=? 32))
  || (n =? 133) || (n =? 160).

Fixpoint lstrip (s : string) : string :=
  match s with
  | EmptyString => EmptyString
  | String c s' => if isspace c then lstrip s' else s
  end.

Fixpoint rstrip (s : string) : string :=
  match s with
  | EmptyString => EmptyString
  | String c s' =>
      match rstrip s' with
      | EmptyString => if isspace c then EmptyString else String c EmptyString
      | r => String c r
      end
  end.

(** [s.strip()] *)
Definition strip (s : string) : string := rstrip (lstrip s).

(** Value of a decimal digit character. *)
Definition digit (c : ascii) : option Z :=
  let n := Z.of_N (Ascii.N_of_ascii c) in
  if (48 <=? n) && (n <=? 57) then Some (n - 48) else None.

Definition digit_char (d : Z) : ascii :=
  Ascii.ascii_of_N (Z.to_N (48 + d `mod` 10)).

(** [s.split(sep)] for a one-character separator. *)
Fixpoint split (sep : ascii) (s : string) : list string :=
  match s with
  | EmptyString => [EmptyString]
  | String c s' =>
      if Ascii.eqb c sep then EmptyString :: split sep s'
      else match split sep s' with
           | [] => [String c EmptyString]
           | p :: ps => String c p :: ps
           end
  end.

(** The [w] low decimal digits of [n], most significant first. *)
Fixpoint zfill (w : nat) (n : Z) : string :=
  match w with
  | O => EmptyString
  | S w' => zfill w' (n `div` 10) +:+ String (digit_char n) EmptyString
  end.

(** Number of decimal digits of a non-negative [n] (at least one). *)
Fixpoint ndigits_fuel (fuel : nat) (n : Z) : nat :=
  match fuel with
  | O => 1%nat
  | S f => if n <? 10 then 1%nat else S (ndigits_fuel f (n `div` 10))
  end.
Definition ndigits (n : Z) : nat := ndigits_fuel (Z.to_nat (Z.log2 n)) n.

(** ["%0wd" % n] *)
Definition fmt_d (w : nat) (n : Z) : string :=
  if (0 <=? n) && (n <? 10 ^ Z.of_nat w) then zfill w n
  else if 0 <=? n then zfill (ndigits n) n
  else String "-" (zfill (Nat.max (w - 1) (ndigits (- n))) (- n)).

(** Reads exactly [w] decimal digits at the head of [s]. *)
Fixpoint read_digits (w : nat) (acc : Z) (s : string) : option (Z * string) :=
  match w with
  | O => Some (acc, s)
  | S w' =>
      match s with
      | EmptyString => None
      | String c s' =>
          match digit c with
          | Some d => read_digits w' (10 * acc + d) s'
          | None => None
          end
      end
  end.

End PyStr.

(** ** Python values, as [json.load] produces them *)

(** A float is not-a-number, an infinity, or [m * 2^e]. *)
Inductive pyfloat :=
| FNan
| FInf (negative : bool)
| FFinite (m e : Z).

#[warning="-register-all"] Inductive pyval :=
| PNone
| PBool (b : bool)
| PInt (z : Z)
| PFloat (f : pyfloat)
| PStr (s : string)
| PList (l : list pyval)
| PDict (m : gmap string pyval).

Module PyInt.

(** CPython's default bound on the number of digits of a decimal string
    converted to [int] ([sys.get_int_max_str_digits()]). *)
Definition max_str_digits : nat := 4300.

(** The digits after the first one: [digit ("_"? digit)*].  [n] counts the
    digits read. *)
Fixpoint scan (s : string) (acc : Z) (n : nat) : option (Z * nat) :=
  match s with
  | EmptyString => Some (acc, n)
  | String c s' =>
      match PyStr.digit c with
      | Some d => scan s' (10 * acc + d) (S n)
      | None =>
          if Ascii.eqb c "_" then
            match s' with
            | EmptyString => None
            | String c2 s'' =>
                match PyStr.digit c2 with
                | Some d => scan s'' (10 * acc + d) (S n)
                | None => None
                end
            end
          else None
      end
  end.

Definition unsigned (s : string) : option Z :=
  match s with
  | EmptyString => None
  | String c s' =>
      match PyStr.digit c with
      | Some d =>
          match scan s' d 1 with
          | Some (v, n) => if (n <=? max_str_digits)%nat then Some v else None
          | None => None
          end
      | None => None
      end
  end.

(** What [int] skips around a numeral: the ASCII whitespace and, among the
    code points from 128 to 255, the Unicode spaces U+0085 and U+00A0.
    ([str.strip] also removes U+001C to U+001F; [int] does not.) *)
Definition isspace (c : ascii) : bool :=
  let n := Z.of_N (Ascii.N_of_ascii c) in
  ((9 <=? n) && (n <=? 13)) || (n =? 32) || (n =? 133) || (n =? 160).

Fixpoint lskip (s : string) : string :=
  match s with
  | EmptyString => EmptyString
  | String c s' => if isspace c then lskip s' else s
  end.

Fixpoint rskip (s : string) : string :=
  match s with
  | EmptyString => EmptyString
  | String c s' =>
      match rskip s' with
      | EmptyString => if isspace c then EmptyString else String c EmptyString
      | r => String c r
      end
  end.

(** [int(s)] for a string [s], base 10: surrounding whitespace, an optional
    sign, digits with single underscores between them. *)
Definition of_str (s : string) : res Z :=
  let t := rskip (lskip s) in
  let r :=
    match t with
    | String "+" u => unsigned u
    | String "-" u => Z.opp <$> unsigned u
    | _ => unsigned t
    end in
  match r with
  | Some v => Ret v
  | None => Raise ValueError
  end.

(** [int(f)] for a float: truncation towards zero. *)
Definition of_float (f : pyfloat) : res Z :=
  match f with
  | FNan => Raise ValueError
  | FInf _ => Raise OverflowError
  | FFinite m e =>
      Ret (if 0 <=? e then m * 2 ^ e else Z.quot m (2 ^ (- e)))
  end.

(** [int(x)] *)
Definition int (x : pyval) : res Z :=
  match x with
  | PInt z => Ret z
  | PBool b => Ret (if b then 1 else 0)
  | PFloat f => of_float f
  | PStr s => of_str s
  | PNone | PList _ | PDict _ => Raise TypeError
  end.

End PyInt.


(** ** [datetime] and [timedelta]

    The calendar functions, the arithmetic and the comparison follow the
    reference implementation of the module [datetime] of CPython. *)

Module PyDatetime.

Definition MINYEAR : Z := 1.
Definition MAXYEAR : Z := 9999.
Definition _MAXORDINAL : Z := 3652059.

Definition _is_leap (year : Z) : bool :=
  (year `mod` 4 =? 0) && (negb (year `mod` 100 =? 0) || (year `mod` 400 =? 0)).

Definition _days_before_year (year : Z) : Z :=
  let y := year - 1 in
  y * 365 + y `div` 4 - y `div` 100 + y `div` 400.

Definition _DAYS_IN_MONTH : list Z :=
  [-1; 31; 28; 31; 30; 31; 30; 31; 31; 30; 31; 30; 31].

Definition _DAYS_BEFORE_MONTH : list Z :=
  [-1; 0; 31; 59; 90; 120; 151; 181; 212; 243; 273; 304; 334].

(** [table[i]] for a table of integers. *)
Definition item (table : list Z) (i : Z) : Z := nth (Z.to_nat i) table (-1).

Definition _days_in_month (year month : Z) : Z :=
  if (month =? 2) && _is_leap year then 29 else item _DAYS_IN_MONTH month.

Definition _days_before_month (year month : Z) : Z :=
  item _DAYS_BEFORE_MONTH month
  + (if (2 <? month) && _is_leap year then 1 else 0).

Definition _ymd2ord (year month day : Z) : Z :=
  _days_before_year year + _days_before_month year month + day.

Definition _DI400Y : Z := _days_before_year 401.
Definition _DI100Y : Z := _days_before_year 101.
Definition _DI4Y : Z := _days_before_year 5.

Definition _ord2ymd (n : Z) : Z * Z * Z :=
  let n := n - 1 in
  let n400 := n `div` _DI400Y in
  let n := n `mod` _DI400Y in
  let year := n400 * 400 + 1 in
  let n100 := n `div` _DI100Y in
  let n := n `mod` _DI100Y in
  let n4 := n `div` _DI4Y in
  let n := n `mod` _DI4Y in
  let n1 := n `div` 365 in
  let n := n `mod` 365 in
  let year := year + n100 * 100 + n4 * 4 + n1 in
  if (n1 =? 4) || (n100 =? 4) then (year - 1, 12, 31)
  else
    let leapyear := (n1 =? 3) && (negb (n4 =? 24) || (n100 =? 3)) in
    let month := Z.shiftr (n + 50) 5 in
    let preceding :=
      item _DAYS_BEFORE_MONTH month
      + (if (2 <? month) && leapyear then 1 else 0) in
    if n <? preceding then
      let month := month - 1 in
      let preceding :=
        preceding
        - (item _DAYS_IN_MONTH month
           + (if (month =? 2) && leapyear then 1 else 0)) in
      (year, month, n - preceding + 1)
    else (year, month, n - preceding + 1).

(** A [date], as the calendar widget returns it. *)
Record date := Date { d_year : Z; d_month : Z; d_day : Z }.

(** A [datetime].  [tzinfo] is [None] for a naive value and the UTC offset
    in microseconds for an aware one. *)
Record datetime := Datetime {
  year : Z; month : Z; day : Z;
  hour : Z; minute : Z; second : Z; microsecond : Z;
  tzinfo : option Z
}.

Definition _check_date_fields (y m d : Z) : bool :=
  (MINYEAR <=? y) && (y <=? MAXYEAR) && (1 <=? m) && (m <=? 12)
  && (1 <=? d) && (d <=? _days_in_month y m).

Definition _check_time_fields (hh mm ss us : Z) : bool :=
  (0 <=? hh) && (hh <=? 23) && (0 <=? mm) && (mm <=? 59)
  && (0 <=? ss) && (ss <=? 59) && (0 <=? us) && (us <=? 999999).

(** An offset a [timezone] accepts: strictly between -24 h and 24 h. *)
Definition _check_utc_offset (tz : option Z) : bool :=
  match tz with
  | None => true
  | Some off => (-86400000000 <? off) && (off <? 86400000000)
  end.

(** The fields of a [datetime] object are always in range. *)
Definition valid (dt : datetime) : bool :=
  _check_date_fields (year dt) (month dt) (day dt)
  && _check_time_fields (hour dt) (minute dt) (second dt) (microsecond dt)
  && _check_utc_offset (tzinfo dt).

(** [datetime(year, month, day, hour, minute, second, microsecond, tzinfo)] *)
Definition new (y m d hh mm ss us : Z) (tz : option Z) : res datetime :=
  if _check_date_fields y m d && _check_time_fields hh mm ss us
  then Ret (Datetime y m d hh mm ss us tz)
  else Raise ValueError.

Definition toordinal (dt : datetime) : Z :=
  _ymd2ord (year dt) (month dt) (day dt).

(** *** [timedelta] *)

Record timedelta := Timedelta {
  days : Z; seconds : Z; microseconds : Z
}.

(** [timedelta(days, seconds, microseconds)] on integers: normalisation
    and range check. *)
Definition td_new (d s us : Z) : res timedelta :=
  let s := s + us `div` 1000000 in
  let us := us `mod` 1000000 in
  let d := d + s `div` 86400 in
  let s := s `mod` 86400 in
  if Z.abs d >? 999999999 then Raise OverflowError
  else Ret (Timedelta d s us).

(** [timedelta(minutes=m)] *)
Definition td_minutes (m : Z) : res timedelta := td_new 0 (m * 60) 0.

Definition td_add (a b : timedelta) : res timedelta :=
  td_new (days a + days b) (seconds a + seconds b)
         (microseconds a + microseconds b).

(** [dt + td] *)
Definition add (dt : datetime) (td : timedelta) : res datetime :=
  delta <- td_new (toordinal dt)
                  (hour dt * 3600 + minute dt * 60 + second dt)
                  (microsecond dt);
  delta <- td_add delta td;
  let hh := seconds delta `div` 3600 in
  let rem := seconds delta `mod` 3600 in
  let mm := rem `div` 60 in
  let ss := rem `mod` 60 in
  if (0 <? days delta) && (days delta <=? _MAXORDINAL) then
    let '(y, m, d) := _ord2ymd (days delta) in
    Ret (Datetime y m d hh mm ss (microseconds delta) (tzinfo dt))
  else Raise OverflowError.

(** *** Comparison *)

(** Comparison of two tuples of integers of the same length. *)
Fixpoint tuple_cmp (a b : list Z) : comparison :=
  match a, b with
  | x :: a', y :: b' =>
      match x ?= y with
      | Eq => tuple_cmp a' b'
      | c => c
      end
  | [], [] => Eq
  | [], _ :: _ => Lt
  | _ :: _, [] => Gt
  end.

Definition fields (dt : datetime) : list Z :=
  [year dt; month dt; day dt; hour dt; minute dt; second dt; microsecond dt].

(** Microseconds from the start of day 0 of the proleptic calendar to the
    local time of [dt]. *)
Definition local_us (dt : datetime) : Z :=
  (toordinal dt * 86400 + hour dt * 3600 + minute dt * 60 + second dt)
  * 1000000 + microsecond dt.

(** [datetime._cmp]: naive values, and aware values with one offset,
    compare field by field; aware values with different offsets compare
    through the difference of their UTC instants; a naive and an aware
    value do not compare. *)
Definition _cmp (a b : datetime) : res comparison :=
  match tzinfo a, tzinfo b with
  | None, None => Ret (tuple_cmp (fields a) (fields b))
  | Some oa, Some ob =>
      if oa =? ob then Ret (tuple_cmp (fields a) (fields b))
      else Ret ((local_us a - local_us b + ob - oa) ?= 0)
  | _, _ => Raise TypeError
  end.

(** [a < b] *)
Definition lt (a b : datetime) : res bool :=
  c <- _cmp a b; Ret (match c with Lt => true | _ => false end).

(** [a <= b] *)
Definition le (a b : datetime) : res bool :=
  c <- _cmp a b; Ret (match c with Gt => false | _ => true end).

(** [a > b] *)
Definition gt (a b : datetime) : res bool :=
  c <- _cmp a b; Ret (match c with Gt => true | _ => false end).


(** *** Formatting *)

(** [dt.strftime("%H:%M")] *)
Definition strftime_HM (dt : datetime) : string :=
  PyStr.fmt_d 2 (hour dt) +:+ ":" +:+ PyStr.fmt_d 2 (minute dt).

(** [dt.strftime("%d/%m %H:%M")] *)
Definition strftime_dm_HM (dt : datetime) : string :=
  PyStr.fmt_d 2 (day dt) +:+ "/" +:+ PyStr.fmt_d 2 (month dt) +:+ " "
  +:+ strftime_HM dt.

Definition _format_offset (off : option Z) : string :=
  match off with
  | None => ""
  | Some o =>
      let sign := if o <? 0 then "-" else "+" in
      let a := Z.abs o in
      let hh := a `div` 3600000000 in
      let r := a `mod` 3600000000 in
      let mm := r `div` 60000000 in
      let ss := r `mod` 60000000 in
      sign +:+ PyStr.fmt_d 2 hh +:+ ":" +:+ PyStr.fmt_d 2 mm
      +:+ (if ss =? 0 then ""
           else ":" +:+ PyStr.fmt_d 2 (ss `div` 1000000)
                +:+ (if ss `mod` 1000000 =? 0 then ""
                     else "." +:+ PyStr.fmt_d 6 (ss `mod` 1000000)))
  end.

(** [dt.isoformat()] *)
Definition isoformat (dt : datetime) : string :=
  PyStr.fmt_d 4 (year dt) +:+ "-" +:+ PyStr.fmt_d 2 (month dt) +:+ "-"
  +:+ PyStr.fmt_d 2 (day dt) +:+ "T"
  +:+ PyStr.fmt_d 2 (hour dt) +:+ ":" +:+ PyStr.fmt_d 2 (minute dt) +:+ ":"
  +:+ PyStr.fmt_d 2 (second dt)
  +:+ (if microsecond dt =? 0 then ""
       else "." +:+ PyStr.fmt_d 6 (microsecond dt))
  +:+ _format_offset (tzinfo dt).

(** *** Parsing

    Which strings [datetime.fromisoformat] accepts depends on the version
    of Python: the versions 3.7 to 3.10 document the grammar
    [YYYY-MM-DD[*HH[:MM[:SS[.fff[fff]]]][+HH:MM[:SS[.ffffff]]]]], where [*]
    is any one character, and accept some strings outside it; the versions
    from 3.11 on accept most forms of ISO 8601.  The program is therefore
    embedded over any parser with the two properties every version has
    ([Fromisoformat], below): it reads back what [isoformat] writes, and
    what it returns is a [datetime].  The documented grammar, which follows,
    is one such parser ([documented]). *)

(** [HH[:MM[:SS[.fff[fff]]]]], the whole string. *)
Definition _parse_hh_mm_ss_ff (s : string) : option (Z * Z * Z * Z) :=
  match PyStr.read_digits 2 0 s with
  | Some (hh, EmptyString) => Some (hh, 0, 0, 0)
  | Some (hh, String ":" r1) =>
      match PyStr.read_digits 2 0 r1 with
      | Some (mm, EmptyString) => Some (hh, mm, 0, 0)
      | Some (mm, String ":" r2) =>
          match PyStr.read_digits 2 0 r2 with
          | Some (ss, EmptyString) => Some (hh, mm, ss, 0)
          | Some (ss, String "." f) =>
              if (String.length f =? 3)%nat then
                match PyStr.read_digits 3 0 f with
                | Some (ms, EmptyString) => Some (hh, mm, ss, ms * 1000)
                | _ => None
                end
              else if (String.length f =? 6)%nat then
                match PyStr.read_digits 6 0 f with
                | Some (us, EmptyString) => Some (hh, mm, ss, us)
                | _ => None
                end
              else None
          | _ => None
          end
      | _ => None
      end
  | _ => None
  end.

(** Splits a time string at its first ["+"] or ["-"]. *)
Fixpoint split_offset (s : string) : string * option (bool * string) :=
  match s with
  | EmptyString => (EmptyString, None)
  | String c s' =>
      if Ascii.eqb c "+" then (EmptyString, Some (false, s'))
      else if Ascii.eqb c "-" then (EmptyString, Some (true, s'))
      else let '(t, z) := split_offset s' in (String c t, z)
  end.

Definition _parse_offset (negative : bool) (s : string) : option Z :=
  let n := String.length s in
  if (n =? 5)%nat || (n =? 8)%nat || (n =? 15)%nat then
    match _parse_hh_mm_ss_ff s with
    | Some (hh, mm, ss, us) =>
        let off := (hh * 3600 + mm * 60 + ss) * 1000000 + us in
        let off := if negative then - off else off in
        if _check_utc_offset (Some off) then Some off else None
    | None => None
    end
  else None.

Definition _parse_isoformat_time (s : string)
  : option (Z * Z * Z * Z * option Z) :=
  let '(t, z) := split_offset s in
  match _parse_hh_mm_ss_ff t with
  | Some (hh, mm, ss, us) =>
      match z with
      | None => Some (hh, mm, ss, us, None)
      | Some (negative, zs) =>
          match _parse_offset negative zs with
          | Some off => Some (hh, mm, ss, us, Some off)
          | None => None
          end
      end
  | None => None
  end.

Definition _parse_isoformat_date (s : string) : option (Z * Z * Z * string) :=
  match PyStr.read_digits 4 0 s with
  | Some (y, String "-" r1) =>
      match PyStr.read_digits 2 0 r1 with
      | Some (m, String "-" r2) =>
          match PyStr.read_digits 2 0 r2 with
          | Some (d, rest) => Some (y, m, d, rest)
          | None => None
          end
      | _ => None
      end
  | _ => None
  end.

Definition fromisoformat_documented (s : string) : res datetime :=
  match _parse_isoformat_date s with
  | Some (y, m, d, EmptyString) => new y m d 0 0 0 0 None
  | Some (y, m, d, String _ t) =>
      match _parse_isoformat_time t with
      | Some (hh, mm, ss, us, tz) => new y m d hh mm ss us tz
      | None => Raise ValueError
      end
  | None => Raise ValueError
  end.

(** [datetime.fromisoformat] on a string, in some version of Python. *)
Class Fromisoformat := {
  fromisoformat_str : string -> res datetime;
  fromisoformat_str_isoformat :
    forall dt, valid dt = true -> fromisoformat_str (isoformat dt) = Ret dt;
  fromisoformat_str_valid :
    forall s dt, fromisoformat_str s = Ret dt -> valid dt = true
}.

(** [datetime.fromisoformat(x)] *)
Definition fromisoformat `{Fromisoformat} (x : pyval) : res datetime :=
  match x with
  | PStr s => fromisoformat_str s
  | _ => Raise TypeError
  end.

End PyDatetime.

(** ** The appointment entity *)

Module Appuntamento.

Import PyDatetime.

(** The attributes of an [Appuntamento] object. *)
Record t := Make {
  titolo : string;
  data_ora : datetime;
  durata : Z
}.

(** [titolo.strip()] on an arbitrary object: only a [str] has the method. *)
Definition strip_attr (x : pyval) : res string :=
  match x with
  | PStr s => Ret (PyStr.strip s)
  | _ => Raise AttributeError
  end.

(** [Appuntamento(titolo, data_ora, durata_min)] *)
Definition __init__ (titolo : pyval) (data_ora : datetime)
    (durata_min : pyval) : res t :=
  titolo <- strip_attr titolo;
  durata <- PyInt.int durata_min;
  Ret (Make titolo data_ora durata).

(** The property [fine]: the computed end. *)
Definition fine (self : t) : res datetime :=
  td <- td_minutes (durata self);
  add (data_ora self) td.

Definition to_dict (self : t) : pyval :=
  PDict (<["titolo" := PStr (titolo self)]>
         (<["data_ora" := PStr (isoformat (data_ora self))]>
          (<["durata" := PInt (durata self)]> ∅))).

(** [d[key]] for a string [key]. *)
Definition getitem (d : pyval) (key : string) : res pyval :=
  match d with
  | PDict m =>
      match m !! key with
      | Some v => Ret v
      | None => Raise KeyError
      end
  | _ => Raise TypeError
  end.

Definition from_dict `{Fromisoformat} (d : pyval) : res t :=
  titolo <- getitem d "titolo";
  data_ora <- getitem d "data_ora";
  data_ora <- fromisoformat data_ora;
  durata <- getitem d "durata";
  durata <- PyInt.int durata;
  __init__ titolo data_ora (PInt durata).

(** The values [__str__] interpolates into the row of the list box:
    title, start as ["%d/%m %H:%M"], end as ["%H:%M"], duration. *)
Record label := Label {
  l_titolo : string;
  l_start : string;
  l_end : string;
  l_durata : Z
}.

Definition __str__ (self : t) : res label :=
  let start := strftime_dm_HM (data_ora self) in
  e <- fine self;
  Ret (Label (titolo self) start (strftime_HM e) (durata self)).

End Appuntamento.

(** ** The controller *)

Module GestoreAppuntamenti.

Import PyDatetime.

(** An [Appuntamento] object in the heap: its identity and its
    attributes.  The class defines no [__eq__], so two objects are the same
    element of the list only if they have the same identity. *)
Record obj := Obj { oid : nat; self : Appuntamento.t }.

(** The message boxes of the window, with the values their text
    interpolates. *)
Inductive dialog :=
| ErrCompila                       (* showerror: "Compila tutti i campi!" *)
| ErrDurata                        (* showerror: "La durata deve essere un intero positivo." *)
| ErrDataOra                       (* showerror: "Formato data/ora non valido." *)
| AskSovrapposizione (titolo quando : string)   (* askyesno: conflict *)
| InfoSeleziona                    (* showinfo: "Seleziona un appuntamento da cancellare." *)
| AskCancellare (titolo : string)  (* askyesno: confirm deletion *)
| AvvisoCaricamento (e : exn).     (* showwarning: "Impossibile caricare i dati" *)

(** The texts of the status bar. *)
Inductive status_text :=
| Pronto
| AggiuntaAnnullata
| Aggiunto
| Cancellato
| ErroreSalvataggio (e : exn).

(** What [SAVE_FILE] holds: no file, a file that cannot be opened or
    decoded by [json.load], or the decoded value. *)
Inductive file_state :=
| Missing
| Unreadable (e : exn)
| Content (data : pyval).

(** How the file system answers a write: success, or an exception that
    leaves the file in some state. *)
Inductive write_result :=
| Written
| WriteFails (e : exn) (after : file_state).

Record World := {
  appuntamenti : list obj;   (* self.appuntamenti *)
  lst : list Appuntamento.label;   (* rows of self.lst *)
  status : status_text;      (* text of self.status *)
  ent_title : string;
  cal_date : date;
  cmb_time : string;
  ent_duration : string;
  disk : file_state;         (* SAVE_FILE *)
  shown : list dialog;       (* message boxes shown so far, oldest first *)
  next_id : nat              (* identities below it are taken *)
}.

Definition set_appuntamenti (l : list obj) (w : World) : World :=
  {| appuntamenti := l; lst := lst w; status := status w;
     ent_title := ent_title w; cal_date := cal_date w;
     cmb_time := cmb_time w; ent_duration := ent_duration w;
     disk := disk w; shown := shown w; next_id := next_id w |}.

Definition set_lst (r : list Appuntamento.label) (w : World) : World :=
  {| appuntamenti := appuntamenti w; lst := r; status := status w;
     ent_title := ent_title w; cal_date := cal_date w;
     cmb_time := cmb_time w; ent_duration := ent_duration w;
     disk := disk w; shown := shown w; next_id := next_id w |}.

Definition set_status (s : status_text) (w : World) : World :=
  {| appuntamenti := appuntamenti w; lst := lst w; status := s;
     ent_title := ent_title w; cal_date := cal_date w;
     cmb_time := cmb_time w; ent_duration := ent_duration w;
     disk := disk w; shown := shown w; next_id := next_id w |}.

Definition set_form (title : string) (d : date) (time duration : string)
    (w : World) : World :=
  {| appuntamenti := appuntamenti w; lst := lst w; status := status w;
     ent_title := title; cal_date := d;
     cmb_time := time; ent_duration := duration;
     disk := disk w; shown := shown w; next_id := next_id w |}.

Definition set_disk (f : file_state) (w : World) : World :=
  {| appuntamenti := appuntamenti w; lst := lst w; status := status w;
     ent_title := ent_title w; cal_date := cal_date w;
     cmb_time := cmb_time w; ent_duration := ent_duration w;
     disk := f; shown := shown w; next_id := next_id w |}.

Definition add_shown (d : dialog) (w : World) : World :=
  {| appuntamenti := appuntamenti w; lst := lst w; status := status w;
     ent_title := ent_title w; cal_date := cal_date w;
     cmb_time := cmb_time w; ent_duration := ent_duration w;
     disk := disk w; shown := shown w ++ [d]; next_id := next_id w |}.

Definition bump_id (w : World) : World :=
  {| appuntamenti := appuntamenti w; lst := lst w; status := status w;
     ent_title := ent_title w; cal_date := cal_date w;
     cmb_time := cmb_time w; ent_duration := ent_duration w;
     disk := disk w; shown := shown w; next_id := S (next_id w) |}.

(** *** The monad of the methods: state and exceptions *)

Definition M (A : Type) : Type := World -> res A * World.

Definition ret {A} (a : A) : M A := fun w => (Ret a, w).
Definition raise {A} (e : exn) : M A := fun w => (Raise e, w).
Definition bind {A B} (m : M A) (k : A -> M B) : M B :=
  fun w =>
    match m w with
    | (Ret a, w') => k a w'
    | (Raise e, w') => (Raise e, w')
    end.
Definition get : M World := fun w => (Ret w, w).
Definition modify (f : World -> World) : M unit := fun w => (Ret tt, f w).
Definition lift {A} (r : res A) : M A := fun w => (r, w).

(** [try: m  except Exception as e: h e] *)
Definition try_except {A} (m : M A) (h : exn -> M A) : M A :=
  fun w =>
    match m w with
    | (Ret a, w') => (Ret a, w')
    | (Raise e, w') => h e w'
    end.

Declare Scope m_scope.
Delimit Scope m_scope with M.
Notation "x <- m ; k" := (bind m (fun x => k))
  (at level 20, m at level 100, k at level 200, right associativity)
  : m_scope.
Notation "m ;; k" := (bind m (fun _ => k))
  (at level 100, k at level 200, right associativity) : m_scope.
Local Open Scope m_scope.

Definition show (d : dialog) : M unit := modify (add_shown d).

(** [messagebox.askyesno]: the box is shown and the user's reply
    returned. *)
Definition askyesno (d : dialog) (reply : bool) : M bool :=
  show d;; ret reply.

(** Allocation of an object: a fresh identity. *)
Definition alloc (a : Appuntamento.t) : M obj :=
  w <- get;
  modify bump_id;;
  ret (Obj (next_id w) a).

(** *** Logic *)

(** [range(0, stop, step)] for a positive [step]. *)
Definition range_step (stop step : Z) : list Z :=
  (fun i => i * step) <$> seqZ 0 ((stop + step - 1) `div` step).

Definition _time_slots (step_minutes : Z) : list string :=
  h ← seqZ 0 24;
  m ← range_step 60 step_minutes;
  [PyStr.fmt_d 2 h +:+ ":" +:+ PyStr.fmt_d 2 m].

(** [duration = int(duration_str)], then [raise ValueError] unless it is
    positive. *)
Definition parse_duration (duration_str : string) : res Z :=
  (duration <- PyInt.of_str duration_str;
   if duration <=? 0 then Raise ValueError else Ret duration)%res.

(** [hh, mm = map(int, time_str.split(":"))] and the [datetime] of the
    start. *)
Definition parse_start (d : date) (time_str : string) : res datetime :=
  match PyStr.split ":" time_str with
  | [a; b] =>
      (hh <- PyInt.of_str a;
       mm <- PyInt.of_str b;
       PyDatetime.new (d_year d) (d_month d) (d_day d) hh mm 0 0 None)%res
  | _ => Raise ValueError
  end.

Definition _parse_form : M (option obj) :=
  w <- get;
  let title := PyStr.strip (ent_title w) in
  let time_str := PyStr.strip (cmb_time w) in
  let duration_str := PyStr.strip (ent_duration w) in
  if (String.eqb title "" || String.eqb time_str ""
      || String.eqb duration_str "")%bool then
    show ErrCompila;; ret None
  else
    match parse_duration duration_str with
    | Raise ValueError => show ErrDurata;; ret None
    | Raise e => raise e
    | Ret duration =>
        match parse_start (cal_date w) time_str with
        | Raise _ => show ErrDataOra;; ret None
        | Ret start_dt =>
            a <- lift (Appuntamento.__init__ (PStr title) start_dt
                         (PInt duration));
            ap <- alloc a;
            ret (Some ap)
        end
    end.

(** The test of the loop of [_find_overlap]:
    [(new_ap.data_ora < ap.fine) and (new_ap.fine > ap.data_ora)]. *)
Definition overlaps (new_ap ap : Appuntamento.t) : res bool :=
  (ap_fine <- Appuntamento.fine ap;
   b <- lt (Appuntamento.data_ora new_ap) ap_fine;
   if b then
     new_fine <- Appuntamento.fine new_ap;
     gt new_fine (Appuntamento.data_ora ap)
   else Ret false)%res.

Fixpoint find_overlap_in (new_ap : Appuntamento.t) (l : list obj)
  : res (option obj) :=
  match l with
  | [] => Ret None
  | ap :: l' =>
      (b <- overlaps new_ap (self ap);
       if b then Ret (Some ap) else find_overlap_in new_ap l')%res
  end.

Definition _find_overlap (new_ap : obj) : M (option obj) :=
  w <- get;
  lift (find_overlap_in (self new_ap) (appuntamenti w)).

(** [list.sort(key=lambda a: a.data_ora)]: the stable sort, comparing keys
    with [<].  Where a comparison raises, the model leaves the order of
    the list as it was (Python leaves it unspecified). *)
Fixpoint insert_by_start (x : obj) (l : list obj) : res (list obj) :=
  match l with
  | [] => Ret [x]
  | y :: l' =>
      (b <- lt (Appuntamento.data_ora (self y))
               (Appuntamento.data_ora (self x));
       if b then
         r <- insert_by_start x l'; Ret (y :: r)
       else Ret (x :: y :: l'))%res
  end.

Fixpoint sort_by_start (l : list obj) : res (list obj) :=
  match l with
  | [] => Ret []
  | x :: l' => (r <- sort_by_start l'; insert_by_start x r)%res
  end.

(** [for ap in l: self.lst.insert(tk.END, str(ap))] *)
Fixpoint fill_lst (l : list obj) : M unit :=
  match l with
  | [] => ret tt
  | ap :: l' =>
      row <- lift (Appuntamento.__str__ (self ap));
      modify (fun w => set_lst (lst w ++ [row]) w);;
      fill_lst l'
  end.

Definition _refresh_list : M unit :=
  w <- get;
  sorted <- lift (sort_by_start (appuntamenti w));
  modify (set_appuntamenti sorted);;
  modify (set_lst []);;
  fill_lst sorted.

Definition _clear_form : M unit :=
  modify (fun w => set_form "" (cal_date w) "" "" w).

(** *** Persistence *)

(** [with open(SAVE_FILE, "w") as f: json.dump(data, f)] *)
Definition write_file (data : pyval) (wr : write_result) : M unit :=
  match wr with
  | Written => modify (set_disk (Content data))
  | WriteFails e after => modify (set_disk after);; raise e
  end.

Definition _save (wr : write_result) : M unit :=
  try_except
    (w <- get;
     let data := (fun ap => Appuntamento.to_dict (self ap)) <$> appuntamenti w in
     write_file (PList data) wr)
    (fun e => modify (set_status (ErroreSalvataggio e))).

(** [for d in data]: the elements of a list, the keys of a dict, the
    characters of a string; other values are not iterable.  (The order of
    the keys plays no role: [from_dict] raises on the first.) *)
Definition iter (data : pyval) : res (list pyval) :=
  match data with
  | PList l => Ret l
  | PDict m => Ret ((fun kv => PStr (fst kv)) <$> map_to_list m)
  | PStr s => Ret ((fun c => PStr (String c "")) <$> list_ascii_of_string s)
  | _ => Raise TypeError
  end.

(** [[Appuntamento.from_dict(d) for d in data]] *)
Fixpoint load_all `{Fromisoformat} (l : list pyval) : M (list obj) :=
  match l with
  | [] => ret []
  | d :: l' =>
      a <- lift (Appuntamento.from_dict d);
      ap <- alloc a;
      r <- load_all l';
      ret (ap :: r)
  end.

Definition _load `{Fromisoformat} : M unit :=
  w <- get;
  match disk w with
  | Missing => ret tt
  | Unreadable e => show (AvvisoCaricamento e)
  | Content data =>
      try_except
        (l <- lift (iter data);
         aps <- load_all l;
         modify (set_appuntamenti aps))
        (fun e => show (AvvisoCaricamento e))
  end.

(** *** Callbacks *)

(** [yes] is the user's reply to the overlap question, if it is asked;
    [wr] the outcome of the write of [_save]. *)
Definition _add_appointment (yes : bool) (wr : write_result) : M unit :=
  ap <- _parse_form;
  match ap with
  | None => ret tt
  | Some ap =>
      conflict <- _find_overlap ap;
      go <- match conflict with
            | Some c =>
                askyesno
                  (AskSovrapposizione
                     (Appuntamento.titolo (self c))
                     (strftime_dm_HM (Appuntamento.data_ora (self c))))
                  yes
            | None => ret true
            end;
      if go : bool then
        modify (fun w => set_appuntamenti (appuntamenti w ++ [ap]) w);;
        _refresh_list;;
        _clear_form;;
        _save wr;;
        modify (set_status Aggiunto)
      else
        modify (set_status AggiuntaAnnullata)
  end.

(** [sel] is [self.lst.curselection()], the positions of the selected
    rows; [yes] the user's reply to the confirmation. *)
Definition _delete_selected (sel : list nat) (yes : bool)
    (wr : write_result) : M unit :=
  match sel with
  | [] => show InfoSeleziona
  | idx :: _ =>
      w <- get;
      match appuntamenti w !! idx with
      | None => raise IndexError
      | Some ap =>
          go <- askyesno (AskCancellare (Appuntamento.titolo (self ap))) yes;
          if go : bool then
            modify (fun w => set_appuntamenti (delete idx (appuntamenti w)) w);;
            _refresh_list;;
            _save wr;;
            modify (set_status Cancellato)
          else ret tt
      end
  end.

Definition _on_close (wr : write_result) : M unit := _save wr.

(** The window as [_build_ui] leaves it, before [_load]: no appointment,
    an empty form showing today's date, the status ["Pronto."]. *)
Definition built (today : date) (on_disk : file_state) : World :=
  {| appuntamenti := []; lst := []; status := Pronto;
     ent_title := ""; cal_date := today; cmb_time := ""; ent_duration := "";
     disk := on_disk; shown := []; next_id := 0 |}.

(** [GestoreAppuntamenti()] *)
Definition __init__ `{Fromisoformat} (today : date) (on_disk : file_state)
  : res unit * World :=
  (_load;; _refresh_list) (built today on_disk).

(** *** The event loop *)

Inductive event :=
| Edit (title : string) (d : date) (time duration : string)
| ClickAdd (yes : bool) (wr : write_result)
| ClickDelete (sel : list nat) (yes : bool) (wr : write_result)
| Close (wr : write_result).

(** Tk reports an exception of a callback and goes on: the state is the
    one the callback left. *)
Definition handle (ev : event) (w : World) : World :=
  match ev with
  | Edit title d time duration => set_form title d time duration w
  | ClickAdd yes wr => snd (_add_appointment yes wr w)
  | ClickDelete sel yes wr => snd (_delete_selected sel yes wr w)
  | Close wr => snd (_on_close wr w)
  end.

(** The states of a running window. *)
Inductive reachable `{Fromisoformat} : World -> Prop :=
| reach_init today on_disk w :
    __init__ today on_disk = (Ret tt, w) -> reachable w
| reach_step ev w :
    reachable w -> reachable (handle ev w).

End GestoreAppuntamenti.

(** * Notions of the statements

    The functions above are the program.  What follows names the notions the
    statements about it are written with. *)

Module Notions.
Import PyStr PyDatetime GestoreAppuntamenti.

(** Characters that are neither ["+"] nor ["-"]. *)
Fixpoint nosign (s : string) : Prop :=
  match s with
  | EmptyString => True
  | String c s' => Ascii.eqb c "+" = false /\ Ascii.eqb c "-" = false /\ nosign s'
  end.

(** The fraction of a second in [isoformat]: absent when it is zero. *)
Definition fmt_frac (us : Z) : string :=
  if us =? 0 then "" else "." +:+ zfill 6 us.

(** The 29th of February, as a number of days. *)
Definition leap_day (y : Z) : Z := if _is_leap y then 1 else 0.

(** The month and the day of [_ord2ymd], from the day of the year [n]
    (counted from 0) and the leap flag. *)
Definition month_day (leapyear : bool) (n : Z) : Z * Z :=
  let month := Z.shiftr (n + 50) 5 in
  let preceding :=
    item _DAYS_BEFORE_MONTH month
    + (if (2 <? month) && leapyear then 1 else 0) in
  if n <? preceding then
    let month := month - 1 in
    let preceding :=
      preceding
      - (item _DAYS_IN_MONTH month
         + (if (month =? 2) && leapyear then 1 else 0)) in
    (month, n - preceding + 1)
  else (month, n - preceding + 1).

(** The check that [month_day] returns a month and a day in range that
    make up the day of the year again. *)
Definition month_day_ok (leapyear : bool) (n : Z) : bool :=
  let '(m, d) := month_day leapyear n in
  (1 <=? m) && (m <=? 12) && (1 <=? d)
  && (d <=? (if (m =? 2) && leapyear then 29 else item _DAYS_IN_MONTH m))
  && (item _DAYS_BEFORE_MONTH m + (if (2 <? m) && leapyear then 1 else 0) + d
      =? n + 1).

(** [month_day_ok] on [fuel] days of the year from [n] on. *)
Fixpoint all_days (leapyear : bool) (fuel : nat) (n : Z) : bool :=
  match fuel with
  | O => true
  | S f => month_day_ok leapyear n && all_days leapyear f (n + 1)
  end.

(** Whether a value carries a UTC offset. *)
Definition aware (dt : datetime) : bool :=
  match tzinfo dt with Some _ => true | None => false end.

(** The position of a value on the time line: its UTC instant when it is
    aware, its local time when it is naive. *)
Definition instant (dt : datetime) : Z :=
  local_us dt - default 0 (tzinfo dt).

(** The key of the sort. *)
Definition start (x : obj) : datetime := Appuntamento.data_ora (self x).

(** [x] is not after [y]: Python's [x.data_ora <= y.data_ora]. *)
Definition by_start (x y : obj) : Prop := le (start x) (start y) = Ret true.

(** A valid start of kind [k] (aware or naive). *)
Definition good (k : bool) (x : obj) : Prop :=
  valid (start x) = true /\ aware (start x) = k.

(** The part of [_add_appointment] after the decision to add [ap]. *)
Definition commit_add (wr : write_result) : M unit :=
  (_refresh_list;; _clear_form;; _save wr;; modify (set_status Aggiunto))%M.

(** The part of [_delete_selected] after the confirmation. *)
Definition commit_delete (wr : write_result) : M unit :=
  (_refresh_list;; _save wr;; modify (set_status Cancellato))%M.

(** The question of [_add_appointment] about the conflict [c]. *)
Definition ask_overlap (c : obj) : dialog :=
  AskSovrapposizione (Appuntamento.titolo (self c))
    (strftime_dm_HM (Appuntamento.data_ora (self c))).

(** The first test of [_parse_form]: a field is blank. *)
Definition form_empty (w : World) : bool :=
  (String.eqb (PyStr.strip (ent_title w)) ""
   || String.eqb (PyStr.strip (cmb_time w)) ""
   || String.eqb (PyStr.strip (ent_duration w)) "")%bool.

(** The title carries no surrounding whitespace. *)
Definition trimmed (x : obj) : Prop :=
  PyStr.strip (Appuntamento.titolo (self x)) = Appuntamento.titolo (self x).

(** What every state of a running window satisfies. *)
Record inv (w : World) : Prop := {
  inv_kind : exists k, Forall (good k) (appuntamenti w);
  inv_sorted : StronglySorted by_start (appuntamenti w);
  inv_trimmed : Forall trimmed (appuntamenti w);
  inv_nodup : NoDup (oid <$> appuntamenti w);
  inv_fresh : Forall (fun x => (oid x < next_id w)%nat) (appuntamenti w)
}.

(** What makes a time of the combo box well formed: trimmed, not empty,
    two integers in range around one colon. *)
Definition slot_ok (t : string) : bool :=
  String.eqb (PyStr.strip t) t && negb (String.eqb t "")
  && match PyStr.split ":" t with
     | [a; b] =>
         match PyInt.of_str a, PyInt.of_str b with
         | Ret hh, Ret mm => _check_time_fields hh mm 0 0
         | _, _ => false
         end
     | _ => false
     end.

(** Sample data: times of 15 March 2024. *)
Definition at_time (hh mm : Z) : datetime := Datetime 2024 3 15 hh mm 0 0 None.
Definition today : date := Date 2024 3 15.

(** The appointment of the end-to-end example of the specification. *)
Definition dentist : Appuntamento.t := Appuntamento.Make "Dentist" (at_time 9 0) 30.

(** Submitting the form: the user fills it in and presses the button,
    declining any overlap. *)
Definition submit (title time duration : string) (w : World) : World :=
  handle (ClickAdd false Written) (handle (Edit title today time duration) w).

(** Three one-hour appointments, entered as 10:00, 08:00, 09:00. *)
Definition three : list (string * string * string) :=
  [("ten", "10:00", "60"); ("eight", "08:00", "60"); ("nine", "09:00", "60")]%string.

Definition submit_all (l : list (string * string * string)) (w : World) : World :=
  foldl (fun w '(title, time, duration) => submit title time duration w) w l.

(** The window started without a file. *)
Definition empty_window `{Fromisoformat} : World :=
  snd (__init__ today Missing).

(** A state in which the slot 09:00-10:00 is taken and the form asks for
    09:30-10:30. *)
Definition busy_window `{Fromisoformat} : World :=
  handle (Edit "D" today "09:30" "60") (submit_all three empty_window).

(** Pressing the button on the form filled in for one of today's times;
    [yes] answers the question about an overlap, if it is asked. *)
Definition press `{Fromisoformat} (yes : bool) (title : string) (d : date)
    (time duration : string) (w : World) : World :=
  handle (ClickAdd yes Written) (handle (Edit title d time duration) w).

(** A window whose list is, in order, A (09:00, one hour), Long (12:00, an
    end beyond the year 9999) and X (13:00, one hour), and whose form asks
    for 13:30, one hour.  A and Long are added without conflict; C (09:30,
    ten hours) and X are forced in through their conflict with A and with C;
    C is deleted again. *)
Definition long_window `{Fromisoformat} : World :=
  handle (Edit "D" today "13:30" "60")
    (handle (ClickDelete [1%nat] true Written)
       (press true "X" today "13:00" "60"
          (press true "C" today "09:30" "600"
             (press false "Long" today "12:00" "9999999999"
                (press false "A" today "09:00" "60" empty_window))))).


(** The empty window with the form filled in for the dentist. *)
Definition filled_window `{Fromisoformat} : World :=
  handle (Edit "  Dentist " today "09:00" "30") empty_window.

(** Content that [_load] cannot turn into appointments: a value that is not
    iterable, or one element that [from_dict] rejects. *)
Definition undecodable `{Fromisoformat} (data : pyval) : Prop :=
  raises (iter data)
  \/ exists l d, iter data = Ret l /\ d ∈ l /\ raises (Appuntamento.from_dict d).

(** A record as the specification wants it: the three fields, a string, an
    ISO date-time string and an integer. *)
Definition spec_record_ok `{Fromisoformat} (d : pyval) : Prop :=
  exists m t s n,
    d = PDict m
    /\ m !! "titolo" = Some (PStr t)
    /\ m !! "data_ora" = Some (PStr s)
    /\ m !! "durata" = Some (PInt n)
    /\ is_Ret (fromisoformat_str s) = true.

(** A decimal digit, ["0"] to ["9"]. *)
Definition decimal (c : ascii) : Prop :=
  48 <= Z.of_N (Ascii.N_of_ascii c) <= 57.

(** A character that [int] ignores around a numeral: tab, line feed,
    vertical tab, form feed, carriage return, space, next line (U+0085) and
    no-break space (U+00A0). *)
Definition blank (c : ascii) : Prop :=
  let n := Z.of_N (Ascii.N_of_ascii c) in
  9 <= n <= 13 \/ n = 32 \/ n = 133 \/ n = 160.

Fixpoint blanks (s : string) : Prop :=
  match s with
  | EmptyString => True
  | String c s' => blank c /\ blanks s'
  end.

(** What may follow the first digit of a numeral: [n] more digits, each
    preceded by at most one underscore. *)
Inductive digits_tail : string -> nat -> Prop :=
| tail_end : digits_tail EmptyString 0
| tail_digit c s n :
    decimal c -> digits_tail s n -> digits_tail (String c s) (S n)
| tail_under c s n :
    decimal c -> digits_tail s n ->
    digits_tail (String "_" (String c s)) (S n).

(** A run of [n] digits with single underscores between them. *)
Definition digits (s : string) (n : nat) : Prop :=
  exists c s' m, s = String c s' /\ decimal c /\ digits_tail s' m /\ n = S m.

(** A decimal numeral: blanks, an optional sign, at most 4300 digits with
    single underscores between them, blanks. *)
Definition numeral (s : string) : Prop :=
  exists pre sign body post n,
    s = pre +:+ sign +:+ body +:+ post
    /\ blanks pre /\ blanks post
    /\ (sign = EmptyString \/ sign = "+"%string \/ sign = "-"%string)
    /\ digits body n /\ (n <= 4300)%nat.

(** The values of the field [durata] that give a duration: an integer, a
    boolean, a finite float, a decimal numeral. *)
Definition durata_accepted (x : pyval) : Prop :=
  match x with
  | PInt _ | PBool _ => True
  | PFloat (FFinite _ _) => True
  | PFloat _ => False
  | PStr s => numeral s
  | PNone | PList _ | PDict _ => False
  end.

(** A record that gives an appointment: a mapping with the three fields, the
    title a string, the start a string that [fromisoformat] parses, the
    duration a value as above. *)
Definition record_accepted `{Fromisoformat} (d : pyval) : Prop :=
  exists m t s x,
    d = PDict m
    /\ m !! "titolo" = Some (PStr t)
    /\ m !! "data_ora" = Some (PStr s)
    /\ m !! "durata" = Some x
    /\ is_Ret (fromisoformat_str s) = true
    /\ durata_accepted x.

(** The record of the dentist with a duration field of any value. *)
Definition record (durata : pyval) : pyval :=
  PDict (<["titolo" := PStr "Dentist"]>
         (<["data_ora" := PStr "2024-03-15T09:00:00"]>
          (<["durata" := durata]> ∅))).

End Notions.

(** * Notions of the further properties

    The notions below serve the properties proved after the claims: the
    end of an appointment as a day and a time of day, intervals on the time
    line, the rows of the list box, the content of the file. *)

Module MoreNotions.
Import PyStr PyDatetime GestoreAppuntamenti Notions.

(** The seconds since midnight. *)
Definition time_of_day (dt : datetime) : Z :=
  hour dt * 3600 + minute dt * 60 + second dt.

(** The seconds from the start of day 0 to the end of an appointment. *)
Definition end_seconds (a : Appuntamento.t) : Z :=
  toordinal (Appuntamento.data_ora a) * 86400
  + time_of_day (Appuntamento.data_ora a) + Appuntamento.durata a * 60.

(** The number of the day on which an appointment ends. *)
Definition end_day (a : Appuntamento.t) : Z := end_seconds a `div` 86400.

(** Two appointments, as half-open intervals of the time line, meet. *)
Definition interval_overlap (a b : Appuntamento.t) : Prop :=
  instant (Appuntamento.data_ora a)
  < instant (Appuntamento.data_ora b) + Appuntamento.durata b * 60000000
  /\ instant (Appuntamento.data_ora b)
     < instant (Appuntamento.data_ora a) + Appuntamento.durata a * 60000000.

(** No two objects of the list meet. *)
Definition conflict_free (l : list obj) : Prop :=
  forall x y, x ∈ l -> y ∈ l -> oid x <> oid y ->
              ~ interval_overlap (self x) (self y).

(** What the form checks: a title and a positive duration. *)
Definition validated (x : obj) : Prop :=
  Appuntamento.titolo (self x) <> EmptyString /\ 0 < Appuntamento.durata (self x).

(** [row] is the row of the list box for [x]. *)
Definition row_of (row : Appuntamento.label) (x : obj) : Prop :=
  Appuntamento.__str__ (self x) = Ret row.

(** The rows of the list box are those of the first appointments of the
    list, in order. *)
Definition rows_ok (w : World) : Prop :=
  exists l1 l2, appuntamenti w = l1 ++ l2 /\ Forall2 row_of (lst w) l1.

(** What a successful [_save] leaves in the file. *)
Definition saved (l : list obj) : file_state :=
  Content (PList ((fun ap => Appuntamento.to_dict (self ap)) <$> l)).

(** Two lists hold appointments with the same attributes, in order. *)
Definition same_attributes (l1 l2 : list obj) : Prop :=
  self <$> l1 = self <$> l2.

(** The events other than an addition forced through a conflict. *)
Definition unforced (ev : event) : Prop :=
  match ev with
  | ClickAdd true _ => False
  | _ => True
  end.

(** The text of a slot of the combo box. *)
Definition slot_text (h m : Z) : string :=
  fmt_d 2 h +:+ ":" +:+ fmt_d 2 m.

(** A slot is read back by [_parse_form] as its hour and minute. *)
Definition slot_reads (h m : Z) : bool :=
  String.eqb (strip (slot_text h m)) (slot_text h m)
  && negb (String.eqb (slot_text h m) "")
  && match split ":" (slot_text h m) with
     | [a; b] =>
         match PyInt.of_str a, PyInt.of_str b with
         | Ret hh, Ret mm => (hh =? h) && (mm =? m)
         | _, _ => false
         end
     | _ => false
     end.

(** [slot_reads] on the minutes from [m] on, and on the hours from [h] on. *)
Fixpoint minutes_read (fuel : nat) (h m : Z) : bool :=
  match fuel with
  | O => true
  | S f => slot_reads h m && minutes_read f h (m + 1)
  end.

Fixpoint hours_read (fuel : nat) (h : Z) : bool :=
  match fuel with
  | O => true
  | S f => minutes_read 60 h 0 && hours_read f (h + 1)
  end.

(** An appointment the form can produce whose end is beyond the calendar. *)
Definition endless_window `{Fromisoformat} : World :=
  handle (ClickAdd false Written)
    (handle (Edit "Last" (Date 9999 12 31) "23:30" "60") empty_window).

End MoreNotions.

(** * Tactics *)

Module Tactics.
Import PyDatetime GestoreAppuntamenti.

(** Linear arithmetic with division and remainder by constants. *)
Ltac dlia := Z.div_mod_to_equations; lia.

(** Evaluates the look-ups in the tables of the calendar. *)
Ltac eval_items :=
  repeat match goal with
    | |- context [item ?t ?k] =>
        let v := eval vm_compute in (item t k) in change (item t k) with v
    | H : context [item ?t ?k] |- _ =>
        let v := eval vm_compute in (item t k) in change (item t k) with v in H
    end.

(** Unfolds the operations of the monad [M]. *)
Ltac mred :=
  cbv [bind ret raise get modify lift show askyesno try_except alloc].

(** Replaces a closed term by its value. *)
Ltac eval_term t :=
  let v := eval vm_compute in t in
  let E := fresh "E" in
  assert (E : t = v) by (vm_compute; reflexivity);
  rewrite E; clear E.

End Tactics.

(** * Lemmas *)

#[local] Arguments String.append !_ _ / : simpl nomatch.

(** ** Strings: [strip] is idempotent; reading digits inverts [zfill] *)

Module PyStrFacts.
Import Tactics PyStr.

Lemma rstrip_cons_nonspace c s :
  isspace c = false -> rstrip (String c s) = String c (rstrip s).
Proof. intros H. simpl. rewrite H. now destruct (rstrip s). Qed.

Lemma rstrip_idemp s : rstrip (rstrip s) = rstrip s.
Proof.
  induction s as [|c s IH]; [reflexivity|].
  simpl. destruct (rstrip s) as [|c' r] eqn:E.
  - destruct (isspace c) eqn:Hc; [reflexivity|]. simpl. now rewrite Hc.
  - change (rstrip (String c (String c' r)) = String c (String c' r)).
    simpl in IH |- *. now destruct (rstrip r); rewrite IH.
Qed.

Lemma lstrip_head s :
  lstrip s = EmptyString \/
  exists c r, lstrip s = String c r /\ isspace c = false.
Proof.
  induction s as [|c s IH]; [now left|].
  simpl. destruct (isspace c) eqn:Hc; [exact IH|]. right. eauto.
Qed.

Lemma strip_idemp s : strip (strip s) = strip s.
Proof.
  unfold strip. destruct (lstrip_head s) as [->|(c & r & -> & Hc)].
  - reflexivity.
  - rewrite (rstrip_cons_nonspace _ _ Hc). simpl lstrip. rewrite Hc.
    rewrite <- (rstrip_cons_nonspace _ _ Hc). apply rstrip_idemp.
Qed.

Lemma digit_digit_char d : digit (digit_char d) = Some (d `mod` 10).
Proof.
  unfold digit_char.
  assert (H : 0 <= d `mod` 10 < 10) by (apply Z.mod_pos_bound; lia).
  assert (C : d `mod` 10 = 0 \/ d `mod` 10 = 1 \/ d `mod` 10 = 2 \/
              d `mod` 10 = 3 \/ d `mod` 10 = 4 \/ d `mod` 10 = 5 \/
              d `mod` 10 = 6 \/ d `mod` 10 = 7 \/ d `mod` 10 = 8 \/
              d `mod` 10 = 9) by lia.
  repeat destruct C as [C|C]; rewrite C; reflexivity.
Qed.

Lemma read_digits_snoc w acc s :
  read_digits (S w) acc s =
  match read_digits w acc s with
  | Some (v, String c s') =>
      match digit c with
      | Some d => Some (10 * v + d, s')
      | None => None
      end
  | _ => None
  end.
Proof.
  revert acc s. induction w as [|w IH]; intros acc s.
  - simpl. destruct s as [|c s]; [reflexivity|]. now destruct (digit c).
  - change (read_digits (S (S w)) acc s) with
      (match s with
       | EmptyString => None
       | String c s' =>
           match digit c with
           | Some d => read_digits (S w) (10 * acc + d) s'
           | None => None
           end
       end).
    destruct s as [|c s]; [reflexivity|]. simpl read_digits at 2.
    destruct (digit c) as [d|]; [apply IH | reflexivity].
Qed.

Lemma append_assoc (a b c : string) : (a +:+ b) +:+ c = a +:+ (b +:+ c).
Proof. induction a as [|x a IH]; simpl; [reflexivity | now f_equal]. Qed.

Lemma append_empty_r (a : string) : a +:+ "" = a.
Proof. induction a as [|x a IH]; simpl; [reflexivity | now f_equal]. Qed.

Lemma read_zfill w : forall n acc rest,
  0 <= n < 10 ^ Z.of_nat w ->
  read_digits w acc (zfill w n +:+ rest) = Some (acc * 10 ^ Z.of_nat w + n, rest).
Proof.
  induction w as [|w IH]; intros n acc rest Hn.
  - simpl in *. f_equal. f_equal. lia.
  - rewrite read_digits_snoc. cbn [zfill]. rewrite append_assoc. cbn [String.append].
    rewrite Nat2Z.inj_succ, Z.pow_succ_r in * by lia.
    rewrite IH by (split; [apply Z.div_pos; lia | apply Z.div_lt_upper_bound; lia]).
    rewrite digit_digit_char. f_equal. f_equal.
    pose proof (Z.div_mod n 10 ltac:(lia)). lia.
Qed.

Lemma read_zfill_all w n :
  0 <= n < 10 ^ Z.of_nat w ->
  read_digits w 0 (zfill w n) = Some (n, EmptyString).
Proof.
  intros H. rewrite <- (append_empty_r (zfill w n)).
  rewrite read_zfill by exact H. reflexivity.
Qed.

Lemma length_append (a b : string) :
  String.length (a +:+ b) = (String.length a + String.length b)%nat.
Proof. induction a as [|x a IH]; simpl; [reflexivity | now f_equal]. Qed.

Lemma length_zfill w n : String.length (zfill w n) = w.
Proof.
  revert n. induction w as [|w IH]; intros n; [reflexivity|].
  simpl. rewrite length_append, IH. simpl. lia.
Qed.

Lemma fmt_d_in_range w n :
  0 <= n < 10 ^ Z.of_nat w -> fmt_d w n = zfill w n.
Proof.
  intros [H1 H2]. unfold fmt_d.
  destruct (Z.leb_spec 0 n); [|lia]. destruct (Z.ltb_spec n (10 ^ Z.of_nat w)); [|lia].
  reflexivity.
Qed.

End PyStrFacts.

(** ** [fromisoformat] inverts [isoformat] *)

Module IsoFacts.
Import Tactics PyStr PyDatetime Notions PyStrFacts.

Lemma read_zfill0 w n rest :
  0 <= n < 10 ^ Z.of_nat w ->
  read_digits w 0 (zfill w n +:+ rest) = Some (n, rest).
Proof. intros H. rewrite read_zfill by exact H. reflexivity. Qed.

Lemma app1 c s : String c "" +:+ s = String c s.
Proof. reflexivity. Qed.

Lemma nosign_app a b : nosign a -> nosign b -> nosign (a +:+ b).
Proof. induction a as [|c a IH]; simpl; [auto | intuition]. Qed.

Lemma digit_char_nosign d :
  Ascii.eqb (digit_char d) "+" = false /\ Ascii.eqb (digit_char d) "-" = false.
Proof.
  unfold digit_char.
  assert (H : 0 <= d `mod` 10 < 10) by (apply Z.mod_pos_bound; lia).
  assert (C : d `mod` 10 = 0 \/ d `mod` 10 = 1 \/ d `mod` 10 = 2 \/
              d `mod` 10 = 3 \/ d `mod` 10 = 4 \/ d `mod` 10 = 5 \/
              d `mod` 10 = 6 \/ d `mod` 10 = 7 \/ d `mod` 10 = 8 \/
              d `mod` 10 = 9) by lia.
  repeat destruct C as [C|C]; rewrite C; split; reflexivity.
Qed.

Lemma nosign_zfill w n : nosign (zfill w n).
Proof.
  revert n. induction w as [|w IH]; intros n; simpl; [exact I|].
  apply nosign_app; [apply IH|]. simpl. pose proof (digit_char_nosign n). tauto.
Qed.

Lemma split_offset_nosign a b :
  nosign a ->
  split_offset (a +:+ b) =
  let '(t, z) := split_offset b in (a +:+ t, z).
Proof.
  induction a as [|c a IH]; intros H; simpl.
  - now destruct (split_offset b).
  - destruct H as (H1 & H2 & H3). rewrite H1, H2, (IH H3).
    now destruct (split_offset b).
Qed.

Lemma parse_hms hh mm ss us :
  0 <= hh < 100 -> 0 <= mm < 100 -> 0 <= ss < 100 -> 0 <= us < 1000000 ->
  _parse_hh_mm_ss_ff
    (zfill 2 hh +:+ ":" +:+ zfill 2 mm +:+ ":" +:+ zfill 2 ss +:+ fmt_frac us)
  = Some (hh, mm, ss, us).
Proof.
  intros Hh Hm Hs Hu. unfold _parse_hh_mm_ss_ff.
  rewrite read_zfill0 by (simpl; lia). rewrite app1; cbv beta iota.
  rewrite read_zfill0 by (simpl; lia). rewrite app1; cbv beta iota.
  rewrite read_zfill0 by (simpl; lia).
  unfold fmt_frac. destruct (Z.eqb_spec us 0) as [->|Hne]; [reflexivity|].
  rewrite app1; cbv beta iota. rewrite length_zfill. simpl Nat.eqb. cbv beta iota.
  rewrite read_zfill_all by (simpl; lia). reflexivity.
Qed.

Lemma parse_hm hh mm :
  0 <= hh < 100 -> 0 <= mm < 100 ->
  _parse_hh_mm_ss_ff (zfill 2 hh +:+ ":" +:+ zfill 2 mm) = Some (hh, mm, 0, 0).
Proof.
  intros Hh Hm. unfold _parse_hh_mm_ss_ff.
  rewrite read_zfill0 by (simpl; lia). rewrite app1; cbv beta iota.
  rewrite read_zfill_all by (simpl; lia). reflexivity.
Qed.

Lemma nosign_hms hh mm ss us :
  nosign (zfill 2 hh +:+ ":" +:+ zfill 2 mm +:+ ":" +:+ zfill 2 ss +:+ fmt_frac us).
Proof.
  repeat (apply nosign_app; [first [apply nosign_zfill | simpl; tauto]|]).
  unfold fmt_frac. destruct (us =? 0); [exact I|].
  apply nosign_app; [simpl; tauto | apply nosign_zfill].
Qed.

Lemma valid_fields dt :
  valid dt = true ->
  (1 <= year dt <= 9999 /\ 1 <= month dt <= 12
   /\ 1 <= day dt <= _days_in_month (year dt) (month dt))
  /\ (0 <= hour dt <= 23 /\ 0 <= minute dt <= 59 /\ 0 <= second dt <= 59
      /\ 0 <= microsecond dt <= 999999)
  /\ (forall o, tzinfo dt = Some o -> -86400000000 < o < 86400000000).
Proof.
  unfold valid, _check_date_fields, _check_time_fields, _check_utc_offset,
    MINYEAR, MAXYEAR.
  intros H. repeat (apply andb_prop in H; destruct H as [H ?]).
  split; [|split].
  - lia.
  - lia.
  - intros o Ho. rewrite Ho in *. lia.
Qed.

Lemma days_in_month_le y m : _days_in_month y m <= 31.
Proof.
  unfold _days_in_month. destruct ((m =? 2) && _is_leap y); [lia|].
  unfold item, _DAYS_IN_MONTH.
  destruct (Z.to_nat m) as [|[|[|[|[|[|[|[|[|[|[|[|[|k]]]]]]]]]]]]]; simpl; try lia.
  destruct k; simpl; lia.
Qed.

Lemma parse_offset_format o :
  -86400000000 < o < 86400000000 ->
  exists (neg : bool) (rest : string),
    _format_offset (Some o) = String (if neg then "-"%char else "+"%char) rest
    /\ _parse_offset neg rest = Some o.
Proof.
  intros Ho. unfold _format_offset.
  set (a := Z.abs o).
  set (H := a `div` 3600000000). set (r := a `mod` 3600000000).
  set (M := r `div` 60000000). set (ss := r `mod` 60000000).
  assert (Ha : 0 <= a < 86400000000) by (subst a; lia).
  assert (HH : 0 <= H < 24) by (subst H; dlia).
  assert (Hr : 0 <= r < 3600000000) by (subst r; dlia).
  assert (HM : 0 <= M < 60) by (subst M; dlia).
  assert (Hss : 0 <= ss < 60000000) by (subst ss; dlia).
  assert (HS : 0 <= ss `div` 1000000 < 60) by dlia.
  assert (HU : 0 <= ss `mod` 1000000 < 1000000) by dlia.
  assert (Hsum : (H * 3600 + M * 60 + ss `div` 1000000) * 1000000
                 + ss `mod` 1000000 = a) by (subst H M ss; dlia).
  exists (o <? 0).
  rewrite !fmt_d_in_range by (simpl; lia).
  eexists. split.
  { destruct (o <? 0); rewrite app1; reflexivity. }
  unfold _parse_offset.
  destruct (Z.eqb_spec ss 0) as [E0|Hne].
  - rewrite (append_empty_r (zfill 2 M)).
    rewrite !length_append, !length_zfill. simpl orb. cbv beta iota.
    rewrite parse_hm by lia.
    rewrite E0 in Hsum. cbv beta iota.
    replace ((H * 3600 + M * 60 + 0) * 1000000 + 0) with a by dlia.
    assert (Hoff : (if o <? 0 then - a else a) = o)
      by (subst a; destruct (Z.ltb_spec o 0); lia).
    rewrite Hoff. unfold _check_utc_offset.
    destruct (Z.ltb_spec (-86400000000) o); [|lia].
    destruct (Z.ltb_spec o 86400000000); [|lia]. reflexivity.
  - fold (fmt_frac (ss `mod` 1000000)).
    assert (Hlen : let n := String.length
              (zfill 2 H +:+ ":" +:+ zfill 2 M +:+ ":"
               +:+ zfill 2 (ss `div` 1000000) +:+ fmt_frac (ss `mod` 1000000)) in
            ((n =? 5) || (n =? 8) || (n =? 15))%nat = true).
    { cbv zeta. rewrite !length_append, !length_zfill. unfold fmt_frac.
      destruct (ss `mod` 1000000 =? 0); [reflexivity|].
      rewrite !length_append, !length_zfill. reflexivity. }
    cbv zeta in Hlen. rewrite Hlen. rewrite parse_hms by lia.
    cbv beta iota. rewrite Hsum.
    assert (Hoff : (if o <? 0 then - a else a) = o)
      by (subst a; destruct (Z.ltb_spec o 0); lia).
    rewrite Hoff. unfold _check_utc_offset.
    destruct (Z.ltb_spec (-86400000000) o); [|lia].
    destruct (Z.ltb_spec o 86400000000); [|lia]. reflexivity.
Qed.

Lemma parse_time_format hh mm ss us tz :
  0 <= hh < 100 -> 0 <= mm < 100 -> 0 <= ss < 100 -> 0 <= us < 1000000 ->
  (forall o, tz = Some o -> -86400000000 < o < 86400000000) ->
  _parse_isoformat_time
    ((zfill 2 hh +:+ ":" +:+ zfill 2 mm +:+ ":" +:+ zfill 2 ss +:+ fmt_frac us)
     +:+ _format_offset tz)
  = Some (hh, mm, ss, us, tz).
Proof.
  intros Hh Hm Hs Hu Htz. unfold _parse_isoformat_time.
  rewrite split_offset_nosign by apply nosign_hms.
  destruct tz as [o|].
  - destruct (parse_offset_format o (Htz o eq_refl)) as (neg & rest & -> & Hp).
    assert (E : split_offset (String (if neg then "-"%char else "+"%char) rest)
                = (EmptyString, Some (neg, rest))) by (now destruct neg).
    rewrite E. rewrite append_empty_r, parse_hms by assumption.
    now rewrite Hp.
  - simpl _format_offset. cbn [split_offset].
    rewrite append_empty_r, parse_hms by assumption. reflexivity.
Qed.

(** The documented grammar reads back what [isoformat] writes. *)
Lemma documented_isoformat dt :
  valid dt = true -> fromisoformat_documented (isoformat dt) = Ret dt.
Proof.
  intros Hv. destruct (valid_fields dt Hv) as ((Hy & Hm & Hd) & (Hh & Hmi & Hs & Hu) & Htz).
  pose proof (days_in_month_le (year dt) (month dt)) as Hdim.
  unfold isoformat. rewrite !fmt_d_in_range by (simpl; lia).
  unfold fromisoformat_documented, _parse_isoformat_date.
  rewrite read_zfill0 by (simpl; lia). rewrite app1; cbv beta iota.
  rewrite read_zfill0 by (simpl; lia). rewrite app1; cbv beta iota.
  rewrite read_zfill0 by (simpl; lia). rewrite app1; cbv beta iota.
  fold (fmt_frac (microsecond dt)).
  rewrite <- !append_assoc. rewrite !append_assoc.
  replace (zfill 2 (hour dt) +:+ ":" +:+ zfill 2 (minute dt) +:+ ":"
           +:+ zfill 2 (second dt) +:+ fmt_frac (microsecond dt)
           +:+ _format_offset (tzinfo dt))
    with ((zfill 2 (hour dt) +:+ ":" +:+ zfill 2 (minute dt) +:+ ":"
           +:+ zfill 2 (second dt) +:+ fmt_frac (microsecond dt))
           +:+ _format_offset (tzinfo dt))
    by (now rewrite !append_assoc).
  rewrite parse_time_format by (try lia; exact Htz).
  unfold new. 
  unfold valid in Hv. apply andb_prop in Hv. destruct Hv as [Hv _].
  rewrite Hv. now destruct dt.
Qed.

End IsoFacts.

(** ** The calendar: the order of dates is the order of their ordinals *)

Module CalendarFacts.
Import Tactics PyDatetime Notions IsoFacts.

Lemma days_before_year_succ y :
  _days_before_year (y + 1) = _days_before_year y + 365 + leap_day y.
Proof.
  unfold _days_before_year, leap_day, _is_leap.
  replace (y + 1 - 1) with y by lia.
  destruct (Z.eqb_spec (y `mod` 4) 0), (Z.eqb_spec (y `mod` 100) 0),
    (Z.eqb_spec (y `mod` 400) 0); simpl; dlia.
Qed.

Lemma days_before_year_mono y y' :
  y <= y' -> _days_before_year y <= _days_before_year y'.
Proof. unfold _days_before_year. intros H. dlia. Qed.

Lemma month_cases m :
  1 <= m <= 12 ->
  m = 1 \/ m = 2 \/ m = 3 \/ m = 4 \/ m = 5 \/ m = 6 \/ m = 7 \/ m = 8 \/
  m = 9 \/ m = 10 \/ m = 11 \/ m = 12.
Proof. lia. Qed.

(** The day of the year of a valid date lies within the year. *)
Lemma day_of_year_bound y m d :
  1 <= m <= 12 -> 1 <= d <= _days_in_month y m ->
  1 <= _days_before_month y m + d <= 365 + leap_day y.
Proof.
  intros Hm Hd. unfold _days_before_month, _days_in_month, leap_day in *.
  destruct (month_cases m Hm) as [H|H]; repeat (destruct H as [H|H]);
    subst m; destruct (_is_leap y); simpl in *; eval_items; lia.
Qed.

Lemma day_of_year_month_lt y m1 d1 m2 d2 :
  1 <= m1 -> m1 < m2 -> m2 <= 12 ->
  d1 <= _days_in_month y m1 -> 1 <= d2 ->
  _days_before_month y m1 + d1 < _days_before_month y m2 + d2.
Proof.
  intros H1 H12 H2 Hd1 Hd2.
  unfold _days_before_month, _days_in_month in *.
  destruct (month_cases m1 ltac:(lia)) as [H|H]; repeat (destruct H as [H|H]);
    subst m1;
    (destruct (month_cases m2 ltac:(lia)) as [H|H]; repeat (destruct H as [H|H]);
     subst m2; try lia; destruct (_is_leap y); simpl in *; eval_items; lia).
Qed.

Lemma ymd2ord_year_lt y1 m1 d1 y2 m2 d2 :
  1 <= m1 <= 12 -> 1 <= d1 <= _days_in_month y1 m1 ->
  1 <= m2 <= 12 -> 1 <= d2 <= _days_in_month y2 m2 ->
  y1 < y2 -> _ymd2ord y1 m1 d1 < _ymd2ord y2 m2 d2.
Proof.
  intros Hm1 Hd1 Hm2 Hd2 Hy. unfold _ymd2ord.
  pose proof (day_of_year_bound y1 m1 d1 Hm1 Hd1).
  pose proof (day_of_year_bound y2 m2 d2 Hm2 Hd2).
  pose proof (days_before_year_succ y1).
  pose proof (days_before_year_mono (y1 + 1) y2 ltac:(lia)).
  lia.
Qed.

(** On valid values the comparison of the tuples of fields is the
    comparison of the positions on the time line. *)
Lemma tuple_cmp_local_us a b :
  valid a = true -> valid b = true ->
  tuple_cmp (fields a) (fields b) = (local_us a ?= local_us b).
Proof.
  intros Ha Hb.
  destruct (valid_fields a Ha) as ((Hy1 & Hm1 & Hd1) & (Hh1 & Hmi1 & Hs1 & Hu1) & _).
  destruct (valid_fields b Hb) as ((Hy2 & Hm2 & Hd2) & (Hh2 & Hmi2 & Hs2 & Hu2) & _).
  unfold fields, local_us, toordinal. cbn [tuple_cmp].
  pose proof (ymd2ord_year_lt (year a) (month a) (day a) (year b) (month b) (day b)
                Hm1 Hd1 Hm2 Hd2) as Hlt.
  pose proof (ymd2ord_year_lt (year b) (month b) (day b) (year a) (month a) (day a)
                Hm2 Hd2 Hm1 Hd1) as Hgt.
  symmetry.
  destruct (Z.compare_spec (year a) (year b)) as [Ey|Ly|Ly];
    [|apply Z.compare_lt_iff; specialize (Hlt Ly); lia
     |apply Z.compare_gt_iff; specialize (Hgt Ly); lia].
  clear Hlt Hgt. unfold _ymd2ord. rewrite Ey in *.
  pose proof (day_of_year_month_lt (year b) (month a) (day a) (month b) (day b)) as Hlt.
  pose proof (day_of_year_month_lt (year b) (month b) (day b) (month a) (day a)) as Hgt.
  destruct (Z.compare_spec (month a) (month b)) as [Em|Lm|Lm];
    [|apply Z.compare_lt_iff; specialize (Hlt ltac:(lia) Lm ltac:(lia) ltac:(lia) ltac:(lia)); lia
     |apply Z.compare_gt_iff; specialize (Hgt ltac:(lia) Lm ltac:(lia) ltac:(lia) ltac:(lia)); lia].
  clear Hlt Hgt. rewrite Em in *.
  destruct (Z.compare_spec (day a) (day b)) as [Ed|Ld|Ld];
    [|apply Z.compare_lt_iff; lia|apply Z.compare_gt_iff; lia].
  destruct (Z.compare_spec (hour a) (hour b)) as [Eh|Lh|Lh];
    [|apply Z.compare_lt_iff; lia|apply Z.compare_gt_iff; lia].
  destruct (Z.compare_spec (minute a) (minute b)) as [Emi|Lmi|Lmi];
    [|apply Z.compare_lt_iff; lia|apply Z.compare_gt_iff; lia].
  destruct (Z.compare_spec (second a) (second b)) as [Es|Ls|Ls];
    [|apply Z.compare_lt_iff; lia|apply Z.compare_gt_iff; lia].
  destruct (Z.compare_spec (microsecond a) (microsecond b)) as [Eu|Lu|Lu];
    [|apply Z.compare_lt_iff; lia|apply Z.compare_gt_iff; lia].
  apply Z.compare_eq_iff. lia.
Qed.

End CalendarFacts.

(** ** Comparison of [datetime] values through instants *)

Module OrderFacts.
Import Tactics PyDatetime Notions IsoFacts CalendarFacts.

Lemma cmp_instant a b :
  valid a = true -> valid b = true -> aware a = aware b ->
  _cmp a b = Ret (instant a ?= instant b).
Proof.
  intros Ha Hb Hk. unfold _cmp, instant, aware in *.
  pose proof (tuple_cmp_local_us a b Ha Hb) as Ht.
  rewrite Ht.
  destruct (tzinfo a) as [oa|], (tzinfo b) as [ob|]; try discriminate;
    simpl.
  - destruct (Z.eqb_spec oa ob) as [->|Hne]; f_equal.
    + destruct (Z.compare_spec (local_us a) (local_us b));
        symmetry; [apply Z.compare_eq_iff | apply Z.compare_lt_iff
                  | apply Z.compare_gt_iff]; lia.
    + destruct (Z.compare_spec (local_us a - local_us b + ob - oa) 0);
        symmetry; [apply Z.compare_eq_iff | apply Z.compare_lt_iff
                  | apply Z.compare_gt_iff]; lia.
  - rewrite !Z.sub_0_r. reflexivity.
Qed.

Lemma cmp_Ret_kind a b c : _cmp a b = Ret c -> aware a = aware b.
Proof.
  unfold _cmp, aware. destruct (tzinfo a), (tzinfo b); simpl; congruence.
Qed.

Lemma cmp_mixed a b : aware a <> aware b -> _cmp a b = Raise TypeError.
Proof.
  unfold _cmp, aware. destruct (tzinfo a), (tzinfo b); simpl; congruence.
Qed.

Lemma lt_instant a b :
  valid a = true -> valid b = true -> aware a = aware b ->
  lt a b = Ret (instant a <? instant b).
Proof.
  intros Ha Hb Hk. unfold lt. rewrite cmp_instant by assumption. simpl.
  unfold Z.ltb. now destruct (instant a ?= instant b).
Qed.

Lemma le_instant a b :
  valid a = true -> valid b = true -> aware a = aware b ->
  le a b = Ret (instant a <=? instant b).
Proof.
  intros Ha Hb Hk. unfold le. rewrite cmp_instant by assumption. simpl.
  unfold Z.leb. now destruct (instant a ?= instant b).
Qed.




End OrderFacts.

(** ** [_ord2ymd] inverts [_ymd2ord]; the end of an appointment *)

Module FineFacts.
Import Tactics PyDatetime Notions IsoFacts CalendarFacts OrderFacts.

Lemma gt_instant a b :
  valid a = true -> valid b = true -> aware a = aware b ->
  gt a b = Ret (instant b <? instant a).
Proof.
  intros Ha Hb Hk. unfold gt. rewrite cmp_instant by assumption. simpl.
  rewrite Z.ltb_antisym. unfold Z.leb. now destruct (instant a ?= instant b).
Qed.

Lemma all_days_spec leapyear fuel : forall n k,
  all_days leapyear fuel n = true -> n <= k < n + Z.of_nat fuel ->
  month_day_ok leapyear k = true.
Proof.
  induction fuel as [|f IH]; intros n k H Hk; [lia|].
  simpl in H. apply andb_prop in H. destruct H as [H1 H2].
  destruct (Z.eq_dec k n) as [->|Hne]; [exact H1|].
  apply (IH (n + 1)); [exact H2|lia].
Qed.

Lemma month_day_year leapyear n :
  0 <= n < 365 -> month_day_ok leapyear n = true.
Proof.
  intros Hn. apply (all_days_spec leapyear 365 0); [|lia].
  destruct leapyear; vm_compute; reflexivity.
Qed.

Lemma ord2ymd_spec n :
  1 <= n ->
  let '(y, m, d) := _ord2ymd n in
  1 <= y /\ 1 <= m <= 12 /\ 1 <= d <= _days_in_month y m
  /\ _ymd2ord y m d = n.
Proof.
  intros Hn. unfold _ord2ymd.
  change _DI400Y with 146097. change _DI100Y with 36524. change _DI4Y with 1461.
  set (n0 := n - 1).
  set (q400 := n0 `div` 146097). set (r400 := n0 `mod` 146097).
  set (q100 := r400 `div` 36524). set (r100 := r400 `mod` 36524).
  set (q4 := r100 `div` 1461). set (r4 := r100 `mod` 1461).
  set (q1 := r4 `div` 365). set (r1 := r4 `mod` 365).
  assert (H400 : n0 = 146097 * q400 + r400 /\ 0 <= r400 < 146097 /\ 0 <= q400)
    by (subst q400 r400 n0; dlia).
  assert (H100 : r400 = 36524 * q100 + r100 /\ 0 <= r100 < 36524 /\ 0 <= q100 <= 4)
    by (subst q100 r100; dlia).
  assert (H4 : r100 = 1461 * q4 + r4 /\ 0 <= r4 < 1461 /\ 0 <= q4 <= 24)
    by (subst q4 r4; dlia).
  assert (H1 : r4 = 365 * q1 + r1 /\ 0 <= r1 < 365 /\ 0 <= q1 <= 4)
    by (subst q1 r1; dlia).
  assert (Hn0 : n0 = n - 1) by reflexivity.
  clearbody n0 q400 r400 q100 r100 q4 r4 q1 r1.
  set (year := q400 * 400 + 1 + q100 * 100 + q4 * 4 + q1).
  destruct ((q1 =? 4) || (q100 =? 4)) eqn:Ex.
  - (* the last day of a leap year *)
    assert (Hleap : _is_leap (year - 1) = true).
    { unfold _is_leap. apply orb_prop in Ex.
      destruct Ex as [E|E]; apply Z.eqb_eq in E.
      - assert (q100 <> 4) by lia.
        destruct (Z.eqb_spec ((year - 1) `mod` 4) 0) as [_|Hm]; [|subst year; dlia].
        destruct (Z.eqb_spec ((year - 1) `mod` 100) 0) as [Hm|_]; [|reflexivity].
        destruct (Z.eqb_spec ((year - 1) `mod` 400) 0) as [_|Hm']; [reflexivity|].
        subst year; dlia.
      - destruct (Z.eqb_spec ((year - 1) `mod` 4) 0) as [_|Hm]; [|subst year; dlia].
        destruct (Z.eqb_spec ((year - 1) `mod` 400) 0) as [_|Hm']; [|subst year; dlia].
        now rewrite orb_true_r. }
    unfold _ymd2ord, _days_in_month, _days_before_month. rewrite Hleap.
    simpl (12 =? 2). simpl (2 <? 12). cbn [andb]. eval_items.
    split; [subst year; lia|]. split; [lia|]. split; [lia|].
    unfold _days_before_year. apply orb_prop in Ex.
    change (if (2 <? 12) && true then 1 else 0) with 1.
    destruct Ex as [E|E]; apply Z.eqb_eq in E; subst year; dlia.
  - apply orb_false_elim in Ex. destruct Ex as [E1 E100].
    apply Z.eqb_neq in E1, E100.
    set (leapyear := (q1 =? 3) && (negb (q4 =? 24) || (q100 =? 3))).
    assert (Hleap : _is_leap year = leapyear).
    { unfold _is_leap, leapyear.
      destruct (Z.eqb_spec q1 3), (Z.eqb_spec q4 24), (Z.eqb_spec q100 3);
        cbn [andb orb negb];
        destruct (Z.eqb_spec (year `mod` 4) 0),
                 (Z.eqb_spec (year `mod` 100) 0),
                 (Z.eqb_spec (year `mod` 400) 0);
        cbn [andb orb negb]; try reflexivity; exfalso; subst year; dlia. }
    pose proof (month_day_year leapyear r1 ltac:(lia)) as Hmd.
    unfold month_day_ok in Hmd.
    assert (Heq :
      (let month := Z.shiftr (r1 + 50) 5 in
       let preceding :=
         item _DAYS_BEFORE_MONTH month
         + (if (2 <? month) && leapyear then 1 else 0) in
       if r1 <? preceding then
         let month0 := month - 1 in
         let preceding0 :=
           preceding
           - (item _DAYS_IN_MONTH month0
              + (if (month0 =? 2) && leapyear then 1 else 0)) in
         (year, month0, r1 - preceding0 + 1)
       else (year, month, r1 - preceding + 1))
      = (year, fst (month_day leapyear r1), snd (month_day leapyear r1))).
    { unfold month_day. cbv zeta.
      now destruct (r1 <? _). }
    cbv zeta in Heq |- *. rewrite Heq. clear Heq.
    destruct (month_day leapyear r1) as [m d]. cbn [fst snd].
    repeat (apply andb_prop in Hmd; destruct Hmd as [Hmd ?]).
    unfold _ymd2ord, _days_in_month, _days_before_month. rewrite Hleap.
    split; [subst year; lia|]. split; [lia|]. split; [lia|].
    assert (Hdby : _days_before_year year
                   = 146097 * q400 + 36524 * q100 + 1461 * q4 + 365 * q1).
    { unfold _days_before_year. subst year. dlia. }
    rewrite Hdby. lia.
Qed.

Lemma ymd2ord_year_bound y m d :
  1 <= m <= 12 -> 1 <= d <= _days_in_month y m ->
  _ymd2ord y m d <= _MAXORDINAL -> y <= 9999.
Proof.
  intros Hm Hd Ho. destruct (Z_le_gt_dec y 9999) as [|Hy]; [assumption|exfalso].
  pose proof (day_of_year_bound y m d Hm Hd).
  pose proof (days_before_year_mono 10000 y ltac:(lia)) as Hmono.
  change (_days_before_year 10000) with 3652059 in Hmono.
  unfold _ymd2ord, _MAXORDINAL in Ho. lia.
Qed.

(** The end of an appointment: where it exists it is a valid value of the
    kind of the start, [durata] minutes later on the time line. *)
Lemma fine_spec a e :
  valid (Appuntamento.data_ora a) = true ->
  Appuntamento.fine a = Ret e ->
  valid e = true
  /\ tzinfo e = tzinfo (Appuntamento.data_ora a)
  /\ local_us e = local_us (Appuntamento.data_ora a)
                  + Appuntamento.durata a * 60000000.
Proof.
  intros Hv. destruct (valid_fields _ Hv) as ((Hy & Hm & Hd) & (Hh & Hmi & Hs & Hu) & Htz).
  set (s := Appuntamento.data_ora a) in *. set (mins := Appuntamento.durata a).
  unfold Appuntamento.fine, td_minutes, td_new. fold s mins.
  change (0 `div` 1000000) with 0. change (0 `mod` 1000000) with 0.
  rewrite Z.add_0_r, Z.add_0_l.
  destruct (Z.abs ((mins * 60) `div` 86400) >? 999999999); [discriminate|].
  cbn [res_bind]. unfold add, td_new, td_add, td_new.
  assert (Hus : microsecond s `div` 1000000 = 0 /\ microsecond s `mod` 1000000 = microsecond s)
    by dlia.
  destruct Hus as [Hus1 Hus2]. rewrite Hus1, Hus2, Z.add_0_r.
  set (secs := hour s * 3600 + minute s * 60 + second s).
  assert (Hsecs : secs `div` 86400 = 0 /\ secs `mod` 86400 = secs) by (subst secs; dlia).
  destruct Hsecs as [Hs1 Hs2]. rewrite Hs1, Hs2, Z.add_0_r.
  assert (Hord : 1 <= toordinal s <= _MAXORDINAL).
  { unfold toordinal, _ymd2ord, _MAXORDINAL.
    pose proof (day_of_year_bound _ _ _ Hm Hd).
    pose proof (days_before_year_mono 1 (year s) ltac:(lia)) as H1.
    pose proof (days_before_year_mono (year s + 1) 10000 ltac:(lia)) as H2.
    pose proof (days_before_year_succ (year s)) as H3.
    change (_days_before_year 1) with 0 in H1.
    change (_days_before_year 10000) with 3652059 in H2. lia. }
  destruct (Z.abs (toordinal s) >? 999999999) eqn:Eabs;
    [unfold _MAXORDINAL in Hord; lia|].
  cbn [res_bind days seconds microseconds].
  rewrite Z.add_0_r, Hus1, Hus2, Z.add_0_r.
  set (total := secs + (mins * 60) `mod` 86400).
  set (dd := toordinal s + (mins * 60) `div` 86400 + total `div` 86400).
  destruct (Z.abs dd >? 999999999); [discriminate|].
  cbn [res_bind days seconds microseconds].
  destruct ((0 <? dd) && (dd <=? _MAXORDINAL)) eqn:Er; [|discriminate].
  apply andb_prop in Er. destruct Er as [Er1 Er2].
  apply Z.ltb_lt in Er1. apply Z.leb_le in Er2.
  pose proof (ord2ymd_spec dd ltac:(lia)) as Hspec.
  destruct (_ord2ymd dd) as [[y m] d].
  destruct Hspec as (Hy1 & Hm1 & Hd1 & Ho).
  intros [= <-].
  pose proof (ymd2ord_year_bound y m d Hm1 Hd1 ltac:(lia)) as Hy2.
  set (rest := total `mod` 86400).
  assert (Hrest : 0 <= rest < 86400) by (subst rest; dlia).
  split; [|split].
  - unfold valid, _check_date_fields, _check_time_fields, MINYEAR, MAXYEAR.
    cbn [year month day hour minute second microsecond tzinfo].
    assert (Ht : 0 <= rest `div` 3600 <= 23
                 /\ 0 <= (rest `mod` 3600) `div` 60 <= 59
                 /\ 0 <= (rest `mod` 3600) `mod` 60 <= 59) by dlia.
    assert (Hz : _check_utc_offset (tzinfo s) = true).
    { unfold valid in Hv. apply andb_prop in Hv. tauto. }
    rewrite Hz.
    repeat (apply andb_true_intro; split); try apply Z.leb_le; try lia.
  - reflexivity.
  - unfold local_us, toordinal.
    cbn [year month day hour minute second microsecond]. rewrite Ho.
    fold (toordinal s). fold secs.
    assert (rest `div` 3600 * 3600 + (rest `mod` 3600) `div` 60 * 60
            + (rest `mod` 3600) `mod` 60 = rest) by dlia.
    assert (dd * 86400 + rest = toordinal s * 86400 + secs + mins * 60)
      by (subst dd rest total; dlia).
    lia.
Qed.

Lemma fine_instant a e :
  valid (Appuntamento.data_ora a) = true ->
  Appuntamento.fine a = Ret e ->
  valid e = true
  /\ aware e = aware (Appuntamento.data_ora a)
  /\ instant e = instant (Appuntamento.data_ora a)
                 + Appuntamento.durata a * 60000000.
Proof.
  intros Hv He. destruct (fine_spec a e Hv He) as (H1 & H2 & H3).
  unfold aware, instant. rewrite H2, H3. split; [exact H1|]. split; [reflexivity|lia].
Qed.

End FineFacts.

(** ** The entity: [to_dict], [from_dict], [fine] *)

Module AppuntamentoFacts.
Import Tactics PyDatetime Appuntamento Notions PyStrFacts IsoFacts.

Section WithParser.
Context `{iso : Fromisoformat}.

Lemma to_dict_lookup (a : t) :
  getitem (to_dict a) "titolo" = Ret (PStr (titolo a))
  /\ getitem (to_dict a) "data_ora" = Ret (PStr (isoformat (data_ora a)))
  /\ getitem (to_dict a) "durata" = Ret (PInt (durata a)).
Proof.
  unfold getitem, to_dict. repeat split.
Qed.

Lemma from_dict_to_dict (a : t) :
  valid (data_ora a) = true ->
  from_dict (to_dict a) = Ret (Make (PyStr.strip (titolo a)) (data_ora a) (durata a)).
Proof.
  intros Hv. unfold from_dict.
  destruct (to_dict_lookup a) as (-> & -> & ->). simpl.
  rewrite fromisoformat_str_isoformat by exact Hv. reflexivity.
Qed.

(** What [from_dict] does, read off its definition. *)
Lemma from_dict_Ret d a :
  from_dict d = Ret a <->
  exists m t s x dt n,
    d = PDict m /\ m !! "titolo" = Some (PStr t)
    /\ m !! "data_ora" = Some (PStr s) /\ m !! "durata" = Some x
    /\ fromisoformat_str s = Ret dt /\ PyInt.int x = Ret n
    /\ a = Make (PyStr.strip t) dt n.
Proof.
  unfold from_dict, getitem, __init__. split.
  - destruct d as [| | | | |l|m]; try discriminate. 
    destruct (m !! "titolo") as [vt|] eqn:Et; [|discriminate].
    destruct (m !! "data_ora") as [vs|] eqn:Ed; [|discriminate]. simpl.
    destruct vs as [| | | |s| |]; try discriminate. simpl.
    destruct (fromisoformat_str s) as [dt|] eqn:Es; [|discriminate]. simpl.
    destruct (m !! "durata") as [x|] eqn:Ex; [|discriminate]. simpl.
    destruct (PyInt.int x) as [n|] eqn:En; [|discriminate]. simpl.
    destruct vt as [| | | |t| |]; try discriminate. simpl.
    intros [= <-]. exists m, t, s, x, dt, n. auto 10.
  - intros (m & t & s & x & dt & n & -> & -> & -> & -> & Hs & Hn & ->). simpl.
    rewrite Hs. simpl. rewrite Hn. reflexivity.
Qed.

(** The title of a deserialized appointment is trimmed. *)
Lemma from_dict_trimmed d a :
  from_dict d = Ret a -> PyStr.strip (titolo a) = titolo a.
Proof.
  intros H. apply from_dict_Ret in H.
  destruct H as (m & t & s & x & dt & n & _ & _ & _ & _ & _ & _ & ->).
  apply strip_idemp.
Qed.

Lemma init_trimmed t0 dt x a :
  __init__ t0 dt x = Ret a -> PyStr.strip (titolo a) = titolo a.
Proof.
  unfold __init__, strip_attr. destruct t0; try discriminate. simpl.
  destruct (PyInt.int x); [|discriminate]. simpl. intros [= <-]. apply strip_idemp.
Qed.

Lemma new_valid y m d hh mm ss us tz dt :
  PyDatetime.new y m d hh mm ss us tz = Ret dt ->
  _check_utc_offset tz = true ->
  valid dt = true /\ tzinfo dt = tz.
Proof.
  unfold new, valid.
  destruct (_check_date_fields y m d && _check_time_fields hh mm ss us) eqn:E;
    [|discriminate].
  intros [= <-] Htz. simpl. apply andb_prop in E. destruct E as [-> ->].
  now rewrite Htz.
Qed.

Lemma parse_offset_range neg s o :
  _parse_offset neg s = Some o -> _check_utc_offset (Some o) = true.
Proof.
  unfold _parse_offset. destruct (_ || _)%bool; [|discriminate].
  destruct (_parse_hh_mm_ss_ff s) as [[[[hh mm] ss] us]|]; [|discriminate].
  destruct (_check_utc_offset _) eqn:E; [|discriminate]. now intros [= <-].
Qed.

Lemma documented_valid s dt :
  fromisoformat_documented s = Ret dt -> valid dt = true.
Proof.
  unfold fromisoformat_documented.
  destruct (_parse_isoformat_date s) as [[[[y m] d] rest]|]; [|discriminate].
  destruct rest as [|c t].
  - intros H. now apply new_valid in H.
  - destruct (_parse_isoformat_time t) as [[[[[hh mm] ss] us] tz]|] eqn:E; [|discriminate].
    intros H. apply new_valid in H; [tauto|].
    unfold _parse_isoformat_time in E. destruct (split_offset t) as [t' z].
    destruct (_parse_hh_mm_ss_ff t') as [[[[hh' mm'] ss'] us']|]; [|discriminate].
    destruct z as [[neg zs]|]; [|now inversion E].
    destruct (_parse_offset neg zs) as [off|] eqn:Eo; [|discriminate].
    inversion E; subst. eapply parse_offset_range; eauto.
Qed.

Lemma from_dict_valid d a :
  from_dict d = Ret a -> valid (data_ora a) = true.
Proof.
  intros H. apply from_dict_Ret in H.
  destruct H as (m & t & s & x & dt & n & _ & _ & _ & _ & Hs & _ & ->).
  simpl. eapply fromisoformat_str_valid; eauto.
Qed.

(** [fine] keeps the kind (naive or aware) of the start. *)
Lemma fine_tzinfo a e : fine a = Ret e -> tzinfo e = tzinfo (data_ora a).
Proof.
  unfold fine, add. destruct (td_minutes (durata a)) as [td|]; [|discriminate]. simpl.
  destruct (td_new _ _ _) as [d1|]; [|discriminate]. simpl.
  destruct (td_add d1 td) as [d2|]; [|discriminate]. simpl.
  destruct (_ && _)%bool; [|discriminate].
  destruct (_ord2ymd (days d2)) as [[y m] d]. now intros [= <-].
Qed.

End WithParser.

(** The documented grammar is a parser with the two properties. *)
Definition documented : Fromisoformat :=
  {| fromisoformat_str := fromisoformat_documented;
     fromisoformat_str_isoformat := documented_isoformat;
     fromisoformat_str_valid := documented_valid |}.

End AppuntamentoFacts.

(** ** The sort of [_refresh_list] *)

Module SortFacts.
Import Tactics PyDatetime GestoreAppuntamenti Notions OrderFacts.

Lemma by_start_instant k x y :
  good k x -> good k y ->
  by_start x y <-> instant (start x) <= instant (start y).
Proof.
  intros [Hx Kx] [Hy Ky]. unfold by_start.
  rewrite le_instant by congruence.
  split; [intros [= H]; lia | intros H; f_equal; lia].
Qed.

Lemma insert_perm x l l' :
  insert_by_start x l = Ret l' -> x :: l ≡ₚ l'.
Proof.
  revert l'. induction l as [|y l IH]; intros l'; simpl.
  - now intros [= <-].
  - fold (start y) (start x).
    destruct (lt (start y) (start x)) as [[]|]; simpl; try discriminate.
    + destruct (insert_by_start x l) as [r|]; [|discriminate]. simpl.
      intros [= <-]. rewrite <- (IH r eq_refl). apply Permutation_swap.
    + now intros [= <-].
Qed.

Lemma sort_perm l l' : sort_by_start l = Ret l' -> l ≡ₚ l'.
Proof.
  revert l'. induction l as [|x l IH]; intros l'; simpl.
  - now intros [= <-].
  - destruct (sort_by_start l) as [r|]; [|discriminate]. simpl.
    intros H. apply insert_perm in H. now rewrite (IH r eq_refl).
Qed.

Lemma insert_sorted k x l :
  good k x -> Forall (good k) l -> StronglySorted by_start l ->
  exists l', insert_by_start x l = Ret l' /\ StronglySorted by_start l'.
Proof.
  intros Hx. induction l as [|y l IH]; intros Hl Hs; simpl.
  - eexists; split; [reflexivity|]. repeat constructor.
  - apply Forall_cons in Hl. destruct Hl as [Hy Hl].
    apply StronglySorted_cons in Hs. destruct Hs as [Hyl Hs].
    fold (start y) (start x).
    destruct Hx as [Vx Kx], Hy as [Vy Ky].
    rewrite lt_instant by congruence. simpl.
    destruct (Z.ltb_spec (instant (start y)) (instant (start x))) as [Hlt|Hge].
    + destruct (IH Hl Hs) as (r & Hr & Hsr). rewrite Hr. simpl.
      eexists; split; [reflexivity|]. apply StronglySorted_cons. split; [|exact Hsr].
      rewrite <- (insert_perm _ _ _ Hr). constructor; [|exact Hyl].
      apply (by_start_instant k); [split; assumption..|]. lia.
    + eexists; split; [reflexivity|].
      apply StronglySorted_cons. split.
      * constructor.
        { apply (by_start_instant k); [split; assumption..|]. lia. }
        { rewrite Forall_forall in Hyl, Hl |- *. intros z Hz.
          specialize (Hyl z Hz). specialize (Hl z Hz).
          apply (by_start_instant k) in Hyl; [|split; assumption|assumption].
          apply (by_start_instant k); [split; assumption|assumption|]. lia. }
      * apply StronglySorted_cons. auto.
Qed.

(** On valid starts of one kind the sort returns, and its result is sorted
    and a permutation of the list. *)
Lemma sort_sorted k l :
  Forall (good k) l ->
  exists l', sort_by_start l = Ret l' /\ StronglySorted by_start l' /\ l ≡ₚ l'.
Proof.
  induction l as [|x l IH]; intros Hl; simpl.
  - exists []. repeat constructor.
  - apply Forall_cons in Hl. destruct Hl as [Hx Hl].
    destruct (IH Hl) as (r & Hr & Hsr & Hp). rewrite Hr. simpl.
    assert (Hgr : Forall (good k) r) by (now rewrite <- Hp).
    destruct (insert_sorted k x r Hx Hgr Hsr) as (l' & Hi & Hs').
    exists l'. split; [exact Hi|]. split; [exact Hs'|].
    rewrite <- (insert_perm _ _ _ Hi). now constructor.
Qed.

End SortFacts.

(** ** The methods of the controller, one by one *)

Module GestoreFacts.
Import Tactics PyDatetime GestoreAppuntamenti Notions OrderFacts SortFacts
  AppuntamentoFacts PyStrFacts.

(** *** [_save] *)

Lemma save_spec wr w :
  _save wr w =
  (Ret tt,
   match wr with
   | Written =>
       set_disk (Content (PList ((fun ap => Appuntamento.to_dict (self ap))
                                   <$> appuntamenti w))) w
   | WriteFails e after => set_status (ErroreSalvataggio e) (set_disk after w)
   end).
Proof. unfold _save, write_file. mred. now destruct wr. Qed.

Lemma save_frame wr w :
  fst (_save wr w) = Ret tt
  /\ appuntamenti (snd (_save wr w)) = appuntamenti w
  /\ next_id (snd (_save wr w)) = next_id w
  /\ lst (snd (_save wr w)) = lst w
  /\ shown (snd (_save wr w)) = shown w.
Proof. rewrite save_spec. now destruct wr. Qed.

(** *** [_refresh_list] *)

Lemma fill_lst_frame l w :
  appuntamenti (snd (fill_lst l w)) = appuntamenti w
  /\ next_id (snd (fill_lst l w)) = next_id w
  /\ disk (snd (fill_lst l w)) = disk w
  /\ shown (snd (fill_lst l w)) = shown w.
Proof.
  revert w. induction l as [|x l IH]; intros w; simpl; [auto|].
  mred. destruct (Appuntamento.__str__ (self x)) as [row|e]; simpl; [|auto].
  destruct (IH (set_lst (lst w ++ [row]) w)) as (-> & -> & -> & ->). auto.
Qed.

Lemma refresh_spec w :
  let w' := snd (_refresh_list w) in
  next_id w' = next_id w /\ disk w' = disk w /\ shown w' = shown w
  /\ match sort_by_start (appuntamenti w) with
     | Ret l => appuntamenti w' = l
     | Raise e => w' = w /\ fst (_refresh_list w) = Raise e
     end.
Proof.
  unfold _refresh_list. mred.
  destruct (sort_by_start (appuntamenti w)) as [l|e]; simpl; [|auto].
  set (w1 := set_lst [] (set_appuntamenti l w)).
  destruct (fill_lst_frame l w1) as (-> & -> & -> & ->). auto.
Qed.

Lemma refresh_perm w :
  appuntamenti w ≡ₚ appuntamenti (snd (_refresh_list w)).
Proof.
  destruct (refresh_spec w) as (_ & _ & _ & H).
  destruct (sort_by_start (appuntamenti w)) as [l|e] eqn:E.
  - rewrite H. now apply sort_perm.
  - destruct H as [-> _]. reflexivity.
Qed.

(** *** [_parse_form] *)

Lemma of_str_raises s e : PyInt.of_str s = Raise e -> e = ValueError.
Proof.
  unfold PyInt.of_str.
  destruct (match PyInt.rskip (PyInt.lskip s) with
            | String "+"%char u => PyInt.unsigned u
            | String "-"%char u => Z.opp <$> PyInt.unsigned u
            | _ => PyInt.unsigned (PyInt.rskip (PyInt.lskip s))
            end); [discriminate | now intros [= <-]].
Qed.

Lemma parse_duration_raises s e : parse_duration s = Raise e -> e = ValueError.
Proof.
  unfold parse_duration. destruct (PyInt.of_str s) as [n|e'] eqn:E; simpl.
  - destruct (n <=? 0); [now intros [= <-] | discriminate].
  - intros [= <-]. eapply of_str_raises; eauto.
Qed.

(** The outcomes of [_parse_form]: it never raises; it shows one error box
    and returns [None], or allocates one appointment. *)
Lemma parse_form_spec w :
  _parse_form w =
  if form_empty w then (Ret None, add_shown ErrCompila w)
  else match parse_duration (PyStr.strip (ent_duration w)) with
       | Raise _ => (Ret None, add_shown ErrDurata w)
       | Ret n =>
           match parse_start (cal_date w) (PyStr.strip (cmb_time w)) with
           | Raise _ => (Ret None, add_shown ErrDataOra w)
           | Ret dt =>
               (Ret (Some (Obj (next_id w)
                             (Appuntamento.Make (PyStr.strip (ent_title w)) dt n))),
                bump_id w)
           end
       end.
Proof.
  unfold _parse_form, form_empty. mred.
  destruct (_ || _ || _)%bool; [reflexivity|].
  destruct (parse_duration _) as [n|e] eqn:E.
  - destruct (parse_start _ _) as [dt|e']; [|reflexivity].
    unfold Appuntamento.__init__. simpl. now rewrite strip_idemp.
  - apply parse_duration_raises in E. now subst e.
Qed.

Lemma parse_start_valid d s dt :
  parse_start d s = Ret dt -> valid dt = true /\ tzinfo dt = None.
Proof.
  unfold parse_start.
  destruct (PyStr.split ":" s) as [|a [|b [|? ?]]]; try discriminate.
  destruct (PyInt.of_str a) as [hh|]; [|discriminate]. simpl.
  destruct (PyInt.of_str b) as [mm|]; [|discriminate]. simpl.
  intros H. now apply new_valid in H.
Qed.

Lemma parse_form_frame w :
  appuntamenti (snd (_parse_form w)) = appuntamenti w
  /\ disk (snd (_parse_form w)) = disk w
  /\ (next_id w <= next_id (snd (_parse_form w)))%nat
  /\ exists r, fst (_parse_form w) = Ret r
     /\ forall ap, r = Some ap ->
          oid ap = next_id w
          /\ snd (_parse_form w) = bump_id w
          /\ good false ap
          /\ PyStr.strip (Appuntamento.titolo (self ap)) = Appuntamento.titolo (self ap).
Proof.
  rewrite parse_form_spec. destruct (form_empty w).
  { simpl. repeat split; try lia. eexists; split; [reflexivity|discriminate]. }
  destruct (parse_duration _) as [n|e].
  2:{ simpl. repeat split; try lia. eexists; split; [reflexivity|discriminate]. }
  destruct (parse_start _ _) as [dt|e] eqn:E.
  2:{ simpl. repeat split; try lia. eexists; split; [reflexivity|discriminate]. }
  simpl. repeat split; try lia. eexists; split; [reflexivity|].
  intros ap [= <-]. simpl. apply parse_start_valid in E. destruct E as [Hv Hn].
  repeat split; try assumption.
  - unfold aware, start. simpl. now rewrite Hn.
  - apply strip_idemp.
Qed.

End GestoreFacts.

(** ** The callbacks as case distinctions *)

Module CallbackFacts.
Import Tactics PyDatetime GestoreAppuntamenti Notions OrderFacts SortFacts
  AppuntamentoFacts PyStrFacts GestoreFacts.

(** *** [_find_overlap] *)

Lemma overlaps_Ret_kind new_ap ap b :
  overlaps new_ap ap = Ret b ->
  aware (Appuntamento.data_ora new_ap) = aware (Appuntamento.data_ora ap).
Proof.
  unfold overlaps.
  destruct (Appuntamento.fine ap) as [e|] eqn:E; [|discriminate]. simpl.
  unfold lt. destruct (_cmp (Appuntamento.data_ora new_ap) e) as [c|] eqn:Ec;
    [|discriminate].
  intros _. apply cmp_Ret_kind in Ec. rewrite Ec.
  unfold aware. now rewrite (fine_tzinfo _ _ E).
Qed.

Lemma find_overlap_Ret_kind new_ap y l c :
  find_overlap_in new_ap (y :: l) = Ret c ->
  aware (Appuntamento.data_ora new_ap) = aware (start y).
Proof.
  simpl. destruct (overlaps new_ap (self y)) as [b|] eqn:E; [|discriminate].
  intros _. eapply overlaps_Ret_kind; eauto.
Qed.


Lemma find_overlap_None new_ap l :
  find_overlap_in new_ap l = Ret None <->
  Forall (fun x => overlaps new_ap (self x) = Ret false) l.
Proof.
  induction l as [|y l IH]; simpl.
  - split; auto.
  - destruct (overlaps new_ap (self y)) as [[]|] eqn:E; simpl.
    + split; [discriminate|]. intros H. apply Forall_cons in H. destruct H; congruence.
    + rewrite IH. split; [now constructor|]. intros H. now apply Forall_cons in H.
    + split; [discriminate|]. intros H. apply Forall_cons in H. destruct H; congruence.
Qed.

(** *** [_add_appointment] *)

Lemma add_spec yes wr w :
  _add_appointment yes wr w =
  match _parse_form w with
  | (Ret None, w1) => (Ret tt, w1)
  | (Ret (Some ap), w1) =>
      match find_overlap_in (self ap) (appuntamenti w1) with
      | Raise e => (Raise e, w1)
      | Ret None =>
          commit_add wr (set_appuntamenti (appuntamenti w1 ++ [ap]) w1)
      | Ret (Some c) =>
          let w2 := add_shown (ask_overlap c) w1 in
          if yes then
            commit_add wr (set_appuntamenti (appuntamenti w2 ++ [ap]) w2)
          else (Ret tt, set_status AggiuntaAnnullata w2)
      end
  | (Raise e, w1) => (Raise e, w1)
  end.
Proof.
  unfold _add_appointment, _find_overlap, commit_add. mred.
  destruct (_parse_form w) as [[[ap|]|e] w1]; try reflexivity.
  destruct (find_overlap_in (self ap) (appuntamenti w1)) as [[c|]|e];
    try reflexivity.
  now destruct yes.
Qed.

Lemma clear_form_spec w :
  _clear_form w = (Ret tt, set_form "" (cal_date w) "" "" w).
Proof. reflexivity. Qed.

Lemma commit_add_frame wr w :
  appuntamenti (snd (commit_add wr w)) = appuntamenti (snd (_refresh_list w))
  /\ next_id (snd (commit_add wr w)) = next_id w
  /\ shown (snd (commit_add wr w)) = shown w.
Proof.
  unfold commit_add. cbv [bind].
  destruct (refresh_spec w) as (Hn & _ & Hs & _). cbv zeta in Hn, Hs.
  destruct (_refresh_list w) as [[[]|e] w1]; simpl in *; [|auto].
  rewrite save_spec. destruct wr; simpl; auto.
Qed.

Lemma commit_delete_frame wr w :
  appuntamenti (snd (commit_delete wr w)) = appuntamenti (snd (_refresh_list w))
  /\ next_id (snd (commit_delete wr w)) = next_id w
  /\ shown (snd (commit_delete wr w)) = shown w.
Proof.
  unfold commit_delete. cbv [bind].
  destruct (refresh_spec w) as (Hn & _ & Hs & _). cbv zeta in Hn, Hs.
  destruct (_refresh_list w) as [[[]|e] w1]; simpl in *; [|auto].
  rewrite save_spec. destruct wr; simpl; auto.
Qed.

(** *** [_delete_selected] *)

Lemma delete_spec sel yes wr w :
  _delete_selected sel yes wr w =
  match sel with
  | [] => (Ret tt, add_shown InfoSeleziona w)
  | idx :: _ =>
      match appuntamenti w !! idx with
      | None => (Raise IndexError, w)
      | Some ap =>
          let w1 := add_shown (AskCancellare (Appuntamento.titolo (self ap))) w in
          if yes then
            commit_delete wr (set_appuntamenti (delete idx (appuntamenti w1)) w1)
          else (Ret tt, w1)
      end
  end.
Proof.
  unfold _delete_selected, commit_delete. mred.
  destruct sel as [|idx sel]; [reflexivity|].
  destruct (appuntamenti w !! idx) as [ap|]; [|reflexivity].
  now destruct yes.
Qed.

End CallbackFacts.

(** ** [_load] *)

Module LoadFacts.
Import Tactics PyDatetime GestoreAppuntamenti Notions OrderFacts SortFacts
  AppuntamentoFacts PyStrFacts GestoreFacts CallbackFacts.

Section WithParser.
Context `{iso : Fromisoformat}.

Lemma load_all_frame l w :
  appuntamenti (snd (load_all l w)) = appuntamenti w
  /\ shown (snd (load_all l w)) = shown w
  /\ disk (snd (load_all l w)) = disk w
  /\ lst (snd (load_all l w)) = lst w
  /\ (next_id w <= next_id (snd (load_all l w)))%nat.
Proof.
  revert w. induction l as [|d l IH]; intros w; simpl; [auto|].
  mred. destruct (Appuntamento.from_dict d) as [a|e]; simpl; [|auto].
  specialize (IH (bump_id w)).
  destruct (load_all l (bump_id w)) as [[r|e] w']; simpl in *;
    destruct IH as (-> & -> & -> & -> & ?); repeat split; lia.
Qed.

Lemma load_all_Ret l w aps w' :
  load_all l w = (Ret aps, w') ->
  Forall2 (fun d ap => Appuntamento.from_dict d = Ret (self ap)) l aps
  /\ Forall (fun ap => (next_id w <= oid ap < next_id w')%nat) aps
  /\ NoDup (oid <$> aps).
Proof.
  revert w aps w'. induction l as [|d l IH]; intros w aps w'; simpl.
  - mred. intros [= <- <-]. repeat constructor.
  - mred. destruct (Appuntamento.from_dict d) as [a|e] eqn:Ed; [|discriminate].
    pose proof (load_all_frame l (bump_id w)) as (_ & _ & _ & _ & Hn).
    destruct (load_all l (bump_id w)) as [[r|e] w1] eqn:E; [|discriminate].
    intros [= <- <-]. destruct (IH _ _ _ E) as (H1 & H2 & H3).
    simpl in Hn. split; [|split].
    + now constructor.
    + constructor; [simpl; lia|].
      eapply Forall_impl; [exact H2|]. simpl. intros; lia.
    + simpl. apply NoDup_cons. split; [|exact H3].
      intros Hin. apply list_elem_of_fmap in Hin. destruct Hin as (x & Hx & Hin).
      rewrite Forall_forall in H2. specialize (H2 x Hin). simpl in H2. lia.
Qed.

Lemma load_all_Raise l w d :
  d ∈ l -> raises (Appuntamento.from_dict d) ->
  exists e, fst (load_all l w) = Raise e.
Proof.
  intros Hin [e He]. revert w. induction l as [|d' l IH]; intros w.
  - inversion Hin.
  - simpl. mred. destruct (Appuntamento.from_dict d') as [a|e'] eqn:Ed; [|eauto].
    apply elem_of_cons in Hin. destruct Hin as [->|Hin]; [congruence|].
    destruct (IH Hin (bump_id w)) as [e1 H1].
    destruct (load_all l (bump_id w)) as [[r|e2] w1]; simpl in *; [discriminate|eauto].
Qed.

(** [_load] never raises and never touches the file. *)
Lemma load_spec w :
  fst (_load w) = Ret tt /\ disk (snd (_load w)) = disk w
  /\ match disk w with
     | Missing => snd (_load w) = w
     | Unreadable e => snd (_load w) = add_shown (AvvisoCaricamento e) w
     | Content data =>
         match iter data with
         | Raise e => snd (_load w) = add_shown (AvvisoCaricamento e) w
         | Ret l =>
             match load_all l w with
             | (Ret aps, w1) => snd (_load w) = set_appuntamenti aps w1
             | (Raise e, w1) => snd (_load w) = add_shown (AvvisoCaricamento e) w1
             end
         end
     end.
Proof.
  unfold _load. mred. destruct (disk w) as [|e|data] eqn:Ed; simpl; auto.
  destruct (iter data) as [l|e]; simpl; [|auto].
  pose proof (load_all_frame l w) as (_ & _ & Hd & _).
  destruct (load_all l w) as [[aps|e] w1]; simpl in *; rewrite Hd; auto.
Qed.

End WithParser.

End LoadFacts.

(** ** The invariant of the running window *)

Module InvariantFacts.
Import Tactics PyDatetime GestoreAppuntamenti Notions OrderFacts SortFacts
  AppuntamentoFacts PyStrFacts GestoreFacts CallbackFacts LoadFacts.

Section WithParser.
Context `{iso : Fromisoformat}.

Lemma insert_Ret_kind x y r l' :
  insert_by_start x (y :: r) = Ret l' -> aware (start x) = aware (start y).
Proof.
  simpl. fold (start y) (start x). unfold lt.
  destruct (_cmp (start y) (start x)) as [c|] eqn:E; [|discriminate].
  intros _. symmetry. eapply cmp_Ret_kind; eauto.
Qed.

(** A sort that returns has compared values of one kind only. *)
Lemma sort_Ret_kind l l' :
  sort_by_start l = Ret l' ->
  exists k, Forall (fun x => aware (start x) = k) l.
Proof.
  revert l'. induction l as [|x l IH]; intros l'; simpl.
  - intros _. exists true. constructor.
  - destruct (sort_by_start l) as [r|] eqn:E; [|discriminate]. simpl.
    intros Hi. destruct (IH r eq_refl) as [k Hk].
    destruct r as [|y r].
    + apply sort_perm in E. apply Permutation_nil_r in E. subst l.
      exists (aware (start x)). repeat constructor.
    + exists k. constructor; [|exact Hk].
      rewrite (insert_Ret_kind _ _ _ _ Hi).
      pose proof (sort_perm _ _ E) as Hp. rewrite Hp in Hk.
      apply Forall_cons in Hk. tauto.
Qed.

(** After [_refresh_list] on valid starts the list is sorted, whenever the
    sort returned; the other components of the invariant follow the
    permutation. *)
Lemma refresh_inv w k :
  Forall (good k) (appuntamenti w) ->
  Forall trimmed (appuntamenti w) ->
  NoDup (oid <$> appuntamenti w) ->
  Forall (fun x => (oid x < next_id w)%nat) (appuntamenti w) ->
  inv (snd (_refresh_list w)).
Proof.
  intros Hg Ht Hn Hf.
  pose proof (refresh_perm w) as Hp.
  destruct (refresh_spec w) as (Hid & _ & _ & Hs). cbv zeta in Hid.
  destruct (sort_sorted k _ Hg) as (l' & Hl & Hsl & _).
  rewrite Hl in Hs.
  split.
  - exists k. now rewrite <- Hp.
  - now rewrite Hs.
  - now rewrite <- Hp.
  - now rewrite <- Hp.
  - rewrite Hid. now rewrite <- Hp.
Qed.

Lemma inv_frame w w' :
  appuntamenti w' = appuntamenti w -> (next_id w <= next_id w')%nat ->
  inv w -> inv w'.
Proof.
  intros Ha Hn [Hk Hs Ht Hd Hf]. split; rewrite ?Ha; try assumption.
  eapply Forall_impl; [exact Hf|]. simpl. intros; lia.
Qed.

Lemma inv_commit_add wr w k :
  Forall (good k) (appuntamenti w) ->
  Forall trimmed (appuntamenti w) ->
  NoDup (oid <$> appuntamenti w) ->
  Forall (fun x => (oid x < next_id w)%nat) (appuntamenti w) ->
  inv (snd (commit_add wr w)).
Proof.
  intros Hg Ht Hn Hf.
  destruct (commit_add_frame wr w) as (Ha & Hid & _).
  pose proof (refresh_inv w k Hg Ht Hn Hf) as Hi.
  destruct (refresh_spec w) as (Hid' & _). cbv zeta in Hid'.
  eapply inv_frame; [exact Ha | lia | exact Hi].
Qed.

Lemma inv_commit_delete wr w k :
  Forall (good k) (appuntamenti w) ->
  Forall trimmed (appuntamenti w) ->
  NoDup (oid <$> appuntamenti w) ->
  Forall (fun x => (oid x < next_id w)%nat) (appuntamenti w) ->
  inv (snd (commit_delete wr w)).
Proof.
  intros Hg Ht Hn Hf.
  destruct (commit_delete_frame wr w) as (Ha & Hid & _).
  pose proof (refresh_inv w k Hg Ht Hn Hf) as Hi.
  destruct (refresh_spec w) as (Hid' & _). cbv zeta in Hid'.
  eapply inv_frame; [exact Ha | lia | exact Hi].
Qed.

Lemma NoDup_fmap_delete {A B} (f : A -> B) (l : list A) i :
  NoDup (f <$> l) -> NoDup (f <$> delete i l).
Proof.
  intros H. rewrite list_fmap_delete.
  exact (sublist_NoDup _ _ H (sublist_delete _ _)).
Qed.

Lemma inv_append wr w w2 l ap c :
  inv w -> good false ap -> trimmed ap -> oid ap = next_id w ->
  find_overlap_in (self ap) (appuntamenti w) = Ret c ->
  l = appuntamenti w ++ [ap] -> next_id w2 = S (next_id w) ->
  inv (snd (commit_add wr (set_appuntamenti l w2))).
Proof.
  intros [[k Hk] Hs Ht Hd Hf] Hgood Htrim Hoid Hc Ha2 Hn2.
  assert (Hk' : Forall (good false) (appuntamenti w)).
  { destruct (appuntamenti w) as [|y l0] eqn:El; [constructor|].
    pose proof (find_overlap_Ret_kind _ _ _ _ Hc) as Hk1.
    destruct Hgood as [_ Hk2]. unfold start in Hk2. rewrite Hk2 in Hk1.
    pose proof Hk as Hk3. apply Forall_cons in Hk3. destruct Hk3 as [[_ Hy] _].
    rewrite Hy in Hk1. now subst k. }
  apply (inv_commit_add _ _ false); simpl; rewrite ?Ha2.
  - apply Forall_app. split; [exact Hk'|now apply Forall_singleton].
  - apply Forall_app. split; [exact Ht|now apply Forall_singleton].
  - rewrite fmap_app. apply NoDup_app. split; [exact Hd|]. split.
    + intros x Hx Hx'. apply list_elem_of_fmap in Hx. destruct Hx as (y & -> & Hy).
      rewrite Forall_forall in Hf. specialize (Hf y Hy).
      simpl in Hx'. apply list_elem_of_singleton in Hx'. lia.
    + simpl. apply NoDup_singleton.
  - rewrite Hn2. apply Forall_app. split.
    + eapply Forall_impl; [exact Hf|]. simpl. intros; lia.
    + apply Forall_singleton. lia.
Qed.

Lemma inv_add yes wr w : inv w -> inv (snd (_add_appointment yes wr w)).
Proof.
  intros Hi. rewrite add_spec.
  destruct (parse_form_frame w) as (Ha & _ & Hn & r & Hr & Hap).
  destruct (_parse_form w) as [r0 w1]. simpl in *. subst r0.
  destruct r as [ap|]; [|now apply (inv_frame w)].
  destruct (Hap ap eq_refl) as (Hoid & -> & Hgood & Htrim). clear Hap.
  destruct (find_overlap_in (self ap) (appuntamenti (bump_id w)))
    as [[c|]|e] eqn:Hc; change (appuntamenti (bump_id w)) with (appuntamenti w) in Hc.
  - cbv zeta. destruct yes.
    + now apply (inv_append wr w _ _ ap (Some c)).
    + simpl. now apply (inv_frame w); [|simpl; lia|].
  - now apply (inv_append wr w _ _ ap None).
  - simpl. now apply (inv_frame w); [|simpl; lia|].
Qed.

Lemma inv_delete sel yes wr w : inv w -> inv (snd (_delete_selected sel yes wr w)).
Proof.
  intros Hi. rewrite delete_spec.
  destruct sel as [|idx sel]; [now apply (inv_frame w)|].
  destruct (appuntamenti w !! idx) as [ap|]; [|exact Hi].
  cbv zeta. destruct yes; [|now apply (inv_frame w)].
  destruct Hi as [[k Hk] Hs Ht Hd Hf].
  apply (inv_commit_delete _ _ k); simpl.
  - now apply Forall_delete.
  - now apply Forall_delete.
  - now apply NoDup_fmap_delete.
  - now apply Forall_delete.
Qed.

Lemma inv_handle ev w : inv w -> inv (handle ev w).
Proof.
  intros Hi. destruct ev as [title d time duration|yes wr|sel yes wr|wr]; simpl.
  - now apply (inv_frame w).
  - now apply inv_add.
  - now apply inv_delete.
  - unfold _on_close. destruct (save_frame wr w) as (_ & Ha & Hn & _).
    apply (inv_frame w); [exact Ha | lia | exact Hi].
Qed.

Lemma inv_init today on_disk w :
  __init__ today on_disk = (Ret tt, w) -> inv w.
Proof.
  unfold __init__. cbv [bind]. set (w0 := built today on_disk).
  destruct (load_spec w0) as (Hr & _ & Hl).
  destruct (_load w0) as [r w1]. simpl in Hr, Hl. subst r.
  intros Hw.
  assert (Hw' : w = snd (_refresh_list w1)) by now rewrite Hw.
  assert (Hret : fst (_refresh_list w1) = Ret tt) by now rewrite Hw.
  clear Hw. subst w.
  assert (Hloaded :
    Forall (fun x => valid (start x) = true) (appuntamenti w1)
    /\ Forall trimmed (appuntamenti w1)
    /\ NoDup (oid <$> appuntamenti w1)
    /\ Forall (fun x => (oid x < next_id w1)%nat) (appuntamenti w1)).
  { assert (Hempty : forall w2, appuntamenti w2 = [] ->
      Forall (fun x => valid (start x) = true) (appuntamenti w2)
      /\ Forall trimmed (appuntamenti w2)
      /\ NoDup (oid <$> appuntamenti w2)
      /\ Forall (fun x => (oid x < next_id w2)%nat) (appuntamenti w2)).
    { intros w2 ->. repeat split; constructor. }
    simpl in Hl. destruct on_disk as [|e|data]; simpl in Hl.
    - subst w1. now apply Hempty.
    - subst w1. now apply Hempty.
    - destruct (iter data) as [l|e]; [|subst w1; now apply Hempty].
      pose proof (load_all_frame l w0) as (Ha & _).
      destruct (load_all l w0) as [[aps|e] w2] eqn:E; simpl in Ha;
        [|subst w1; now apply Hempty].
      subst w1. simpl. destruct (load_all_Ret _ _ _ _ E) as (H1 & H2 & H3).
      repeat split.
      + clear -H1. induction H1 as [|d ap l aps Hd _ IH]; constructor; [|exact IH].
        eapply from_dict_valid; eauto.
      + clear -H1. induction H1 as [|d ap l aps Hd _ IH]; constructor; [|exact IH].
        eapply from_dict_trimmed; eauto.
      + exact H3.
      + eapply Forall_impl; [exact H2|]. simpl. intros; lia. }
  destruct Hloaded as (Hv & Ht & Hd & Hf).
  destruct (refresh_spec w1) as (_ & _ & _ & Hs). cbv zeta in Hs.
  destruct (sort_by_start (appuntamenti w1)) as [l'|e] eqn:Es.
  2:{ destruct Hs as [_ Hs]. congruence. }
  destruct (sort_Ret_kind _ _ Es) as [k Hk].
  apply (refresh_inv w1 k); try assumption.
  rewrite Forall_forall in Hv, Hk |- *. intros x Hx. split; auto.
Qed.

(** The invariant holds in every state of a running window. *)
Lemma reachable_inv w : reachable w -> inv w.
Proof.
  induction 1 as [today on_disk w H|ev w _ IH].
  - eapply inv_init; eauto.
  - now apply inv_handle.
Qed.

End WithParser.

End InvariantFacts.

(** ** Further facts used by the claims *)

Module MoreFacts.
Import Tactics PyDatetime GestoreAppuntamenti Notions OrderFacts SortFacts
  AppuntamentoFacts PyStrFacts GestoreFacts CallbackFacts LoadFacts
  InvariantFacts.

Section WithParser.
Context `{iso : Fromisoformat}.

(** Sorting a sorted list changes nothing. *)
Lemma sort_sorted_id k l :
  Forall (good k) l -> StronglySorted by_start l -> sort_by_start l = Ret l.
Proof.
  induction l as [|x l IH]; intros Hg Hs; [reflexivity|].
  apply Forall_cons in Hg. destruct Hg as [Hx Hg].
  apply StronglySorted_cons in Hs. destruct Hs as [Hxl Hs].
  simpl. rewrite (IH Hg Hs). simpl.
  destruct l as [|y l]; [reflexivity|]. simpl. fold (start y) (start x).
  apply Forall_cons in Hg, Hxl. destruct Hg as [Hy _], Hxl as [Hxy _].
  apply (by_start_instant k) in Hxy; [|assumption..].
  destruct Hx as [Vx Kx], Hy as [Vy Ky].
  rewrite lt_instant by congruence. simpl.
  destruct (Z.ltb_spec (instant (start y)) (instant (start x))); [lia|reflexivity].
Qed.

Lemma NoDup_fmap_lookup_delete {A B} (f : A -> B) (l : list A) i x :
  NoDup (f <$> l) -> l !! i = Some x -> x ∉ delete i l.
Proof.
  intros Hn Hi Hin.
  pose proof (take_drop_middle l i x Hi) as Hl.
  rewrite delete_take_drop in Hin. rewrite <- Hl in Hn.
  rewrite fmap_app, fmap_cons in Hn.
  apply NoDup_app in Hn. destruct Hn as (_ & H1 & H2).
  apply NoDup_cons in H2. destruct H2 as [H2 _].
  apply elem_of_app in Hin. destruct Hin as [Hin|Hin].
  - apply (H1 (f x)); [now apply list_elem_of_fmap_2 | left].
  - apply H2. now apply list_elem_of_fmap_2.
Qed.

Lemma of_str_empty : PyInt.of_str EmptyString = Raise ValueError.
Proof. reflexivity. Qed.

Lemma time_slots_ok t : t ∈ _time_slots 30 -> slot_ok t = true.
Proof.
  intros Hin. apply list_elem_of_In in Hin. revert t Hin.
  apply forallb_forall. vm_compute. reflexivity.
Qed.

Lemma slot_parse d t :
  slot_ok t = true ->
  _check_date_fields (d_year d) (d_month d) (d_day d) = true ->
  PyStr.strip t = t /\ t <> EmptyString
  /\ exists hh mm,
       parse_start d t
       = Ret (Datetime (d_year d) (d_month d) (d_day d) hh mm 0 0 None).
Proof.
  unfold slot_ok, parse_start. intros H Hd.
  apply andb_prop in H. destruct H as [H H3].
  apply andb_prop in H. destruct H as [H1 H2].
  apply String.eqb_eq in H1.
  split; [exact H1|]. split.
  { intros ->. discriminate. }
  destruct (PyStr.split ":" t) as [|a [|b [|? ?]]]; try discriminate.
  destruct (PyInt.of_str a) as [hh|]; [|discriminate].
  destruct (PyInt.of_str b) as [mm|]; [|discriminate].
  exists hh, mm. simpl. unfold new. now rewrite Hd, H3.
Qed.

Lemma empty_window_reachable : reachable empty_window.
Proof. apply (reach_init today Missing). reflexivity. Qed.

Lemma submit_all_reachable l w : reachable w -> reachable (submit_all l w).
Proof.
  revert w. induction l as [|[[title time] duration] l IH]; intros w Hw; [exact Hw|].
  apply IH. unfold submit. now do 2 apply reach_step.
Qed.

Lemma StronglySorted_delete {A} (R : relation A) (l : list A) i :
  StronglySorted R l -> StronglySorted R (delete i l).
Proof.
  intros H. revert i. induction H as [|x l Hs IH Hx]; intros [|i]; simpl.
  - constructor.
  - constructor.
  - exact Hs.
  - constructor; [apply IH | now apply Forall_delete].
Qed.

Lemma find_first new_ap l :
  Exists (fun x => overlaps new_ap (self x) = Ret true) l ->
  Forall (fun x => is_Ret (overlaps new_ap (self x)) = true) l ->
  exists c, find_overlap_in new_ap l = Ret (Some c).
Proof.
  induction l as [|y l IH]; intros He Hf; [inversion He|].
  apply Forall_cons in Hf. destruct Hf as [Hy Hf]. simpl.
  destruct (overlaps new_ap (self y)) as [[]|] eqn:E; [eauto| |discriminate].
  simpl. apply IH; [|exact Hf].
  apply Exists_cons in He. destruct He as [He|He]; [congruence|exact He].
Qed.



(** The record of the dentist, with any title and duration. *)
Lemma from_dict_record t x n :
  PyInt.int x = Ret n ->
  Appuntamento.from_dict
    (PDict (<["titolo" := PStr t]>
            (<["data_ora" := PStr "2024-03-15T09:00:00"]>
             (<["durata" := x]> ∅))))
  = Ret (Appuntamento.Make (PyStr.strip t) (at_time 9 0) n).
Proof.
  intros Hn. apply from_dict_Ret.
  eexists _, t, "2024-03-15T09:00:00"%string, x, (at_time 9 0), n.
  split; [reflexivity|]. split; [reflexivity|]. split; [reflexivity|].
  split; [reflexivity|]. split; [|split; [exact Hn|reflexivity]].
  change "2024-03-15T09:00:00"%string with (isoformat (at_time 9 0)).
  now apply fromisoformat_str_isoformat.
Qed.


End WithParser.

End MoreFacts.

(** ** The numerals [int] accepts *)

Module IntFacts.
Import Tactics PyStr Notions PyStrFacts IsoFacts.

(** The pattern match of [of_str] on the sign, as a test of the first
    character. *)
Lemma sign_match {A} (c : ascii) (u : string) (f g : string -> A) (h : A) :
  match String c u with
  | String "+" v => f v
  | String "-" v => g v
  | _ => h
  end
  = if Ascii.eqb c "+" then f u else if Ascii.eqb c "-" then g u else h.
Proof. destruct c as [[] [] [] [] [] [] [] []]; reflexivity. Qed.

Lemma blank_isspace c : blank c <-> PyInt.isspace c = true.
Proof.
  unfold blank, PyInt.isspace. cbv zeta.
  set (n := Z.of_N (N_of_ascii c)). clearbody n.
  destruct (Z.leb_spec 9 n), (Z.leb_spec n 13), (Z.eqb_spec n 32),
    (Z.eqb_spec n 133), (Z.eqb_spec n 160); simpl; split; intros;
    try lia; try reflexivity; try discriminate.
Qed.

Lemma decimal_digit c : decimal c <-> exists d, digit c = Some d.
Proof.
  unfold decimal, digit. cbv zeta.
  set (n := Z.of_N (N_of_ascii c)). clearbody n. split.
  - intros H. exists (n - 48).
    destruct (Z.leb_spec 48 n), (Z.leb_spec n 57); simpl; try lia; reflexivity.
  - intros [d H].
    destruct (Z.leb_spec 48 n), (Z.leb_spec n 57); simpl in H; try discriminate; lia.
Qed.

Lemma decimal_not_blank c : decimal c -> PyInt.isspace c = false.
Proof.
  intros H. destruct (PyInt.isspace c) eqn:E; [|reflexivity].
  apply blank_isspace in E. unfold decimal, blank in *. cbv zeta in E. lia.
Qed.

Lemma decimal_not_sign c :
  decimal c -> Ascii.eqb c "+" = false /\ Ascii.eqb c "-" = false.
Proof.
  intros H. split.
  - destruct (Ascii.eqb_spec c "+") as [->|]; [|reflexivity].
    unfold decimal in H. simpl in H. lia.
  - destruct (Ascii.eqb_spec c "-") as [->|]; [|reflexivity].
    unfold decimal in H. simpl in H. lia.
Qed.

Lemma underscore_not_decimal : digit "_" = None.
Proof. reflexivity. Qed.

(** *** Skipping the blanks *)

Lemma lskip_split s : exists pre, s = pre +:+ PyInt.lskip s /\ blanks pre.
Proof.
  induction s as [|c s IH]; simpl.
  - exists EmptyString. now split.
  - destruct (PyInt.isspace c) eqn:E.
    + destruct IH as (pre & Hs & Hb). exists (String c pre). split.
      * simpl. now rewrite <- Hs.
      * split; [now apply blank_isspace|exact Hb].
    + exists EmptyString. now split.
Qed.

Lemma rskip_split s : exists post, s = PyInt.rskip s +:+ post /\ blanks post.
Proof.
  induction s as [|c s IH]; simpl.
  - exists EmptyString. now split.
  - destruct IH as (post & Hs & Hb).
    destruct (PyInt.rskip s) as [|c' r] eqn:Er.
    + simpl in Hs. subst s. destruct (PyInt.isspace c) eqn:E.
      * exists (String c post). split; [reflexivity|].
        split; [now apply blank_isspace|exact Hb].
      * exists post. now split.
    + exists post. split; [|exact Hb].
      change (String c s = String c (String c' r +:+ post)). now rewrite <- Hs.
Qed.

Lemma lskip_blanks pre s : blanks pre -> PyInt.lskip (pre +:+ s) = PyInt.lskip s.
Proof.
  induction pre as [|c pre IH]; simpl; [reflexivity|].
  intros [Hc Hp]. apply blank_isspace in Hc. rewrite Hc. now apply IH.
Qed.

Lemma rskip_blanks post : blanks post -> PyInt.rskip post = EmptyString.
Proof.
  induction post as [|c post IH]; simpl; [reflexivity|].
  intros [Hc Hp]. rewrite (IH Hp). apply blank_isspace in Hc. now rewrite Hc.
Qed.

Lemma blanks_app a b : blanks a -> blanks b -> blanks (a +:+ b).
Proof.
  induction a as [|c a IH]; simpl; [auto|]. intros [Hc Ha] Hb. auto.
Qed.

Lemma rskip_empty s : PyInt.rskip s = EmptyString -> blanks s.
Proof.
  intros E. destruct (rskip_split s) as (p & Hs & Hp).
  rewrite E in Hs. simpl in Hs. now subst.
Qed.

Lemma rskip_app s post :
  blanks post -> PyInt.rskip s <> EmptyString ->
  PyInt.rskip (s +:+ post) = PyInt.rskip s.
Proof.
  intros Hb. induction s as [|c s IH]; simpl; [congruence|].
  destruct (PyInt.rskip s) as [|c' r] eqn:Er.
  - destruct (PyInt.isspace c) eqn:E; [congruence|]. intros _.
    rewrite (rskip_blanks (s +:+ post)).
    + reflexivity.
    + apply blanks_app; [now apply rskip_empty|exact Hb].
  - intros _. rewrite IH by discriminate. reflexivity.
Qed.

(** *** The digits *)

Lemma scan_tail s m :
  digits_tail s m ->
  forall acc k, exists v, PyInt.scan s acc k = Some (v, (k + m)%nat).
Proof.
  induction 1 as [|c s n Hc _ IH|c s n Hc _ IH]; intros acc k.
  - exists acc. simpl. now rewrite Nat.add_0_r.
  - apply decimal_digit in Hc. destruct Hc as [d Hd]. simpl. rewrite Hd.
    destruct (IH (10 * acc + d) (S k)) as [v Hv]. exists v. rewrite Hv.
    now rewrite Nat.add_succ_r.
  - apply decimal_digit in Hc. destruct Hc as [d Hd].
    cbn [PyInt.scan]. rewrite underscore_not_decimal.
    change (Ascii.eqb "_" "_") with true. cbv iota. rewrite Hd.
    destruct (IH (10 * acc + d) (S k)) as [v Hv]. exists v. rewrite Hv.
    now rewrite Nat.add_succ_r.
Qed.

Lemma scan_Some b : forall s,
  (String.length s <= b)%nat ->
  forall acc k v n,
    PyInt.scan s acc k = Some (v, n) ->
    exists m, digits_tail s m /\ n = (k + m)%nat.
Proof.
  induction b as [|b IH]; intros s Hl acc k v n.
  - destruct s; [|simpl in Hl; lia]. simpl. intros [= _ <-].
    exists 0%nat. split; [constructor|lia].
  - destruct s as [|c s]; simpl.
    { intros [= _ <-]. exists 0%nat. split; [constructor|lia]. }
    simpl in Hl. destruct (digit c) as [d|] eqn:Hd.
    + intros H. apply IH in H; [|lia]. destruct H as (m & Hm & ->).
      exists (S m). split; [|lia]. constructor; [|exact Hm].
      apply decimal_digit. eauto.
    + destruct (Ascii.eqb_spec c "_") as [->|]; [|discriminate].
      destruct s as [|c2 s]; [discriminate|].
      destruct (digit c2) as [d|] eqn:Hd2; [|discriminate].
      intros H. apply IH in H; [|simpl in Hl; lia]. destruct H as (m & Hm & ->).
      exists (S m). split; [|lia]. apply tail_under; [|exact Hm].
      apply decimal_digit. eauto.
Qed.

Lemma unsigned_digits s :
  is_Some (PyInt.unsigned s) <-> exists n, digits s n /\ (n <= 4300)%nat.
Proof.
  unfold PyInt.unsigned, PyInt.max_str_digits. split.
  - destruct s as [|c s]; [intros [v [=]]|].
    destruct (digit c) as [d|] eqn:Hd; [|intros [v [=]]].
    destruct (PyInt.scan s d 1) as [[v n]|] eqn:Hs; [|intros [v' [=]]].
    destruct (Nat.leb_spec n 4300) as [Hn|]; [|intros [v' [=]]]. intros _.
    destruct (scan_Some (String.length s) s (le_n _) _ _ _ _ Hs) as (m & Hm & ->).
    exists (S m). split; [|lia]. exists c, s, m.
    split; [reflexivity|]. split; [apply decimal_digit; eauto|].
    split; [exact Hm|reflexivity].
  - intros (n & (c & s' & m & -> & Hc & Hm & ->) & Hn).
    apply decimal_digit in Hc. destruct Hc as [d Hd]. rewrite Hd.
    destruct (scan_tail _ _ Hm d 1%nat) as [v Hv]. rewrite Hv.
    destruct (Nat.leb_spec (1 + m) 4300); [eauto|lia].
Qed.

Lemma rskip_cons c s :
  PyInt.rskip s <> EmptyString -> PyInt.rskip (String c s) = String c (PyInt.rskip s).
Proof. simpl. destruct (PyInt.rskip s); congruence. Qed.

Lemma rskip_digits c s m :
  decimal c -> digits_tail s m -> PyInt.rskip (String c s) = String c s.
Proof.
  intros Hc Hm. revert c Hc.
  induction Hm as [|c' s n Hc' _ IH|c' s n Hc' _ IH]; intros c Hc.
  - simpl. now rewrite (decimal_not_blank c Hc).
  - rewrite rskip_cons; rewrite (IH c' Hc'); [reflexivity|discriminate].
  - rewrite rskip_cons; rewrite rskip_cons; rewrite (IH c' Hc');
      try reflexivity; discriminate.
Qed.

(** *** [int] on a string and on a value *)

(** [int] converts a string exactly when it is a decimal numeral. *)
Lemma of_str_numeral s : is_Ret (PyInt.of_str s) = true <-> numeral s.
Proof.
  unfold PyInt.of_str. cbv zeta. split.
  - destruct (lskip_split s) as (pre & Hs & Hpre).
    destruct (rskip_split (PyInt.lskip s)) as (post & Ht & Hpost).
    destruct (PyInt.rskip (PyInt.lskip s)) as [|c u] eqn:Et; [discriminate|].
    pose proof (sign_match c u PyInt.unsigned
                  (fun v => Z.opp <$> PyInt.unsigned v)
                  (PyInt.unsigned (String c u))) as Em.
    cbv beta in Em. rewrite Em. clear Em. intros H.
    assert (Hbody : forall sign body,
      String c u = sign +:+ body ->
      sign = EmptyString \/ sign = "+"%string \/ sign = "-"%string ->
      is_Some (PyInt.unsigned body) -> numeral s).
    { intros sign body E Hsign Hu. apply unsigned_digits in Hu.
      destruct Hu as (n & Hd & Hn).
      exists pre, sign, body, post, n.
      split; [|auto 10]. rewrite Hs, Ht, E. now rewrite <- !append_assoc. }
    destruct (Ascii.eqb_spec c "+") as [->|].
    { apply (Hbody "+"%string u); [reflexivity|auto|].
      destruct (PyInt.unsigned u); [eauto|discriminate]. }
    destruct (Ascii.eqb_spec c "-") as [->|].
    { apply (Hbody "-"%string u); [reflexivity|auto|].
      destruct (PyInt.unsigned u); [eauto|discriminate]. }
    apply (Hbody EmptyString (String c u)); [reflexivity|auto|].
    destruct (PyInt.unsigned (String c u)); [eauto|discriminate].
  - intros (pre & sign & body & post & n & -> & Hpre & Hpost & Hsign & Hd & Hn).
    assert (Hu : is_Some (PyInt.unsigned body)) by (apply unsigned_digits; eauto).
    destruct Hd as (c & b & m & -> & Hc & Hm & _).
    pose proof (rskip_digits c b m Hc Hm) as Hr.
    pose proof (decimal_not_blank c Hc) as Hnb.
    destruct (decimal_not_sign c Hc) as [Hp Hmi].
    rewrite lskip_blanks by exact Hpre.
    assert (Hl : PyInt.lskip (sign +:+ String c b +:+ post)
                 = (sign +:+ String c b) +:+ post).
    { destruct Hsign as [->|[->| ->]]; simpl; rewrite ?Hnb; reflexivity. }
    assert (Hrs : PyInt.rskip (sign +:+ String c b) = sign +:+ String c b).
    { destruct Hsign as [->|[->| ->]]; [exact Hr| |].
      - change ("+" +:+ String c b) with (String "+" (String c b)).
        rewrite rskip_cons; rewrite Hr; [reflexivity|discriminate].
      - change ("-" +:+ String c b) with (String "-" (String c b)).
        rewrite rskip_cons; rewrite Hr; [reflexivity|discriminate]. }
    rewrite Hl, rskip_app; [|exact Hpost|].
    2:{ rewrite Hrs. destruct Hsign as [->|[->| ->]]; discriminate. }
    rewrite Hrs. destruct Hu as [v Hv].
    destruct Hsign as [->|[->| ->]].
    + change (EmptyString +:+ String c b) with (String c b).
      pose proof (sign_match c b PyInt.unsigned
                    (fun v => Z.opp <$> PyInt.unsigned v)
                    (PyInt.unsigned (String c b))) as Em.
      cbv beta in Em. cbv iota. rewrite Em, Hp, Hmi, Hv. reflexivity.
    + change ("+" +:+ String c b) with (String "+" (String c b)).
      cbv iota. rewrite Hv. reflexivity.
    + change ("-" +:+ String c b) with (String "-" (String c b)).
      cbv iota. rewrite Hv. reflexivity.
Qed.

(** [int] converts a value exactly when it is an integer, a boolean, a
    finite float or a decimal numeral. *)
Lemma int_accepted x : is_Ret (PyInt.int x) = true <-> durata_accepted x.
Proof.
  destruct x as [|b|z|f|s|l|m]; simpl.
  - split; [discriminate|contradiction].
  - split; auto.
  - split; auto.
  - destruct f; simpl; split; auto; try discriminate; contradiction.
  - apply of_str_numeral.
  - split; [discriminate|contradiction].
  - split; [discriminate|contradiction].
Qed.

End IntFacts.

(** * The claims of the specification *)

Module Claims.
Import Tactics PyDatetime GestoreAppuntamenti Notions OrderFacts FineFacts SortFacts
  AppuntamentoFacts PyStrFacts GestoreFacts CallbackFacts LoadFacts
  InvariantFacts MoreFacts IntFacts.

(** The examples and the witnesses are evaluated with the documented
    grammar as the parser; the theorems hold for every parser. *)
#[local] Existing Instance documented.

(** ** C1: the overlap test *)


(** The three pairs of the specification: 09:00-10:00 against 09:30-10:30,
    10:00-11:00 and 08:00-09:00. *)
Example overlap_examples :
  let A := Appuntamento.Make "A" (at_time 9 0) 60 in
  overlaps (Appuntamento.Make "B" (at_time 9 30) 60) A = Ret true
  /\ overlaps (Appuntamento.Make "C" (at_time 10 0) 60) A = Ret false
  /\ overlaps (Appuntamento.Make "D" (at_time 8 0) 60) A = Ret false.
Proof. vm_compute. auto. Qed.

(** ** C2: the round trip through a record *)

(** C2.  For an appointment [a] whose start is a [datetime] and whose title
    is trimmed, [from_dict (to_dict a)] returns an appointment with the
    title, the start and the duration of [a], hence with its end.  (The
    title need not be non-empty nor the duration positive.) *)
Theorem C2_roundtrip `{iso : Fromisoformat} (a : Appuntamento.t) :
  valid (Appuntamento.data_ora a) = true ->
  PyStr.strip (Appuntamento.titolo a) = Appuntamento.titolo a ->
  exists b,
    Appuntamento.from_dict (Appuntamento.to_dict a) = Ret b
    /\ Appuntamento.titolo b = Appuntamento.titolo a
    /\ Appuntamento.data_ora b = Appuntamento.data_ora a
    /\ Appuntamento.durata b = Appuntamento.durata a
    /\ Appuntamento.fine b = Appuntamento.fine a.
Proof.
  intros Hv Ht. exists a. rewrite from_dict_to_dict by exact Hv.
  rewrite Ht. now destruct a.
Qed.

(** The round trip of the dentist's appointment. *)
Lemma C2_roundtrip_witness :
  exists b,
    Appuntamento.from_dict (Appuntamento.to_dict dentist) = Ret b
    /\ Appuntamento.titolo b = Appuntamento.titolo dentist
    /\ Appuntamento.data_ora b = Appuntamento.data_ora dentist
    /\ Appuntamento.durata b = Appuntamento.durata dentist
    /\ Appuntamento.fine b = Appuntamento.fine dentist.
Proof. apply (C2_roundtrip dentist); reflexivity. Defined.

(** ** C3: the list is sorted *)

(** C3.  In every state of a running window the appointments are in
    ascending order of start, and they are so again after any further event
    (an addition, forced or not, a deletion, the closing of the window).  In
    particular the starts 10:00, 08:00 and 09:00, submitted in any order to
    an empty window, are listed as 08:00, 09:00, 10:00. *)
Theorem C3_sorted_after_mutation `{iso : Fromisoformat} (w : World) :
  reachable w ->
  StronglySorted by_start (appuntamenti w)
  /\ (forall ev, StronglySorted by_start (appuntamenti (handle ev w)))
  /\ Forall (fun order =>
               start <$> appuntamenti (submit_all order empty_window)
               = [at_time 8 0; at_time 9 0; at_time 10 0])
            (permutations three).
Proof.
  intros Hr. split; [|split].
  - apply reachable_inv, Hr.
  - intros ev. apply reachable_inv. now constructor.
  - let l := eval vm_compute in (permutations three) in
    change (permutations three) with l.
    repeat (apply Forall_cons; split; [vm_compute; reflexivity|]).
    constructor.
Qed.

(** The window after the three submissions is sorted. *)
Lemma C3_sorted_after_mutation_witness :
  StronglySorted by_start (appuntamenti (submit_all three empty_window)).
Proof.
  apply (proj1 (C3_sorted_after_mutation (submit_all three empty_window)
                  (submit_all_reachable three empty_window
                     empty_window_reachable))).
Defined.

(** ** C4: the conflict and the forced addition *)


(** What the code does there: the press of the button raises
    [OverflowError], asks nothing and leaves the three appointments. *)
Example long_window_example :
  fst (_add_appointment false Written long_window) = Raise OverflowError
  /\ shown (snd (_add_appointment false Written long_window)) = shown long_window
  /\ Appuntamento.titolo ∘ self
       <$> appuntamenti (snd (_add_appointment false Written long_window))
     = ["A"; "Long"; "X"]%string.
Proof. vm_compute. auto. Qed.



(** In the busy window the conflict reported is the appointment of
    09:00, the first in the list that overlaps 09:30-10:30, though the one
    of 10:00 overlaps too. *)
Example conflict_example :
  shown (snd (_add_appointment false Written busy_window))
  = [AskSovrapposizione "nine" "15/03 09:00"].
Proof. vm_compute. reflexivity. Qed.

(** ** C5: the validation of the form *)

(** C5.  Let the time of the form be one of the slots of the combo box and
    the date a date.  Then [_parse_form] yields no appointment exactly when
    the trimmed title is empty, or the trimmed duration is not the text of
    an integer, or it is an integer not above zero; it then shows one of its
    two error boxes and leaves the state otherwise as it was.  In the other
    case it yields an appointment with the trimmed title, the start of the
    form and the duration.  (The validation is that of [_parse_form]: the
    constructor of [Appuntamento] itself accepts any title and duration.) *)
Theorem C5_create_validation (w : World) :
  cmb_time w ∈ _time_slots 30 ->
  _check_date_fields (d_year (cal_date w)) (d_month (cal_date w))
    (d_day (cal_date w)) = true ->
  let title := PyStr.strip (ent_title w) in
  let duration := PyInt.of_str (PyStr.strip (ent_duration w)) in
  let invalid :=
    title = EmptyString \/ raises duration
    \/ exists n, duration = Ret n /\ n <= 0 in
  (fst (_parse_form w) = Ret None <-> invalid)
  /\ (invalid ->
      exists d, _parse_form w = (Ret None, add_shown d w)
                /\ (d = ErrCompila \/ d = ErrDurata))
  /\ (forall n, title <> EmptyString -> duration = Ret n -> 0 < n ->
      exists hh mm,
        _parse_form w
        = (Ret (Some (Obj (next_id w)
                        (Appuntamento.Make title
                           (Datetime (d_year (cal_date w)) (d_month (cal_date w))
                              (d_day (cal_date w)) hh mm 0 0 None) n))),
           bump_id w)).
Proof.
  intros Hslot Hdate title duration invalid.
  destruct (slot_parse (cal_date w) (cmb_time w) (time_slots_ok _ Hslot) Hdate)
    as (Hst & Hne & hh & mm & Hps).
  assert (Hform :
    _parse_form w =
    if String.eqb title "" then (Ret None, add_shown ErrCompila w)
    else if String.eqb (PyStr.strip (ent_duration w)) ""
         then (Ret None, add_shown ErrCompila w)
         else match duration with
              | Ret n =>
                  if n <=? 0 then (Ret None, add_shown ErrDurata w)
                  else (Ret (Some (Obj (next_id w)
                          (Appuntamento.Make title
                             (Datetime (d_year (cal_date w)) (d_month (cal_date w))
                                (d_day (cal_date w)) hh mm 0 0 None) n))),
                        bump_id w)
              | Raise _ => (Ret None, add_shown ErrDurata w)
              end).
  { rewrite parse_form_spec. unfold form_empty. rewrite Hst. fold title.
    destruct (String.eqb_spec (cmb_time w) "") as [E|_]; [contradiction|].
    rewrite orb_false_r.
    destruct (String.eqb title ""); [reflexivity|]. simpl orb.
    destruct (String.eqb (PyStr.strip (ent_duration w)) ""); [reflexivity|].
    unfold parse_duration. fold duration.
    destruct duration as [n|e]; simpl; [|reflexivity].
    destruct (n <=? 0); [reflexivity|]. now rewrite Hps. }
  assert (Hinv : invalid ->
    exists d, _parse_form w = (Ret None, add_shown d w)
              /\ (d = ErrCompila \/ d = ErrDurata)).
  { intros Hi. rewrite Hform.
    destruct (String.eqb_spec title "") as [E|E]; [eauto|].
    destruct (String.eqb (PyStr.strip (ent_duration w)) ""); [eauto|].
    destruct Hi as [Hi|[[e Hi]|(n & Hi & Hn)]]; [contradiction| |].
    - rewrite Hi. eauto.
    - rewrite Hi. destruct (Z.leb_spec n 0); [eauto|lia]. }
  split; [|split].
  - split; [|intros Hi; destruct (Hinv Hi) as (d & -> & _); reflexivity].
    rewrite Hform.
    destruct (String.eqb_spec title "") as [E|E]; [now left|].
    destruct (String.eqb_spec (PyStr.strip (ent_duration w)) "") as [E'|E'].
    { intros _. right. left. exists ValueError. unfold duration.
      rewrite E'. exact of_str_empty. }
    subst invalid. destruct duration as [n|e].
    + destruct (Z.leb_spec n 0); [eauto|discriminate].
    + intros _. right. left. now exists e.
  - exact Hinv.
  - intros n Ht Hd Hn. exists hh, mm. rewrite Hform.
    destruct (String.eqb_spec title "") as [E|E]; [contradiction|].
    destruct (String.eqb_spec (PyStr.strip (ent_duration w)) "") as [E'|E'].
    { unfold duration in Hd. rewrite E', of_str_empty in Hd. discriminate. }
    rewrite Hd. destruct (Z.leb_spec n 0); [lia|reflexivity].
Qed.

(** The filled form yields the dentist's appointment. *)
Lemma C5_create_validation_witness :
  fst (_parse_form filled_window) = Ret (Some (Obj 0 dentist))
  /\ (fst (_parse_form filled_window) = Ret None <->
      PyStr.strip (ent_title filled_window) = EmptyString
      \/ raises (PyInt.of_str (PyStr.strip (ent_duration filled_window)))
      \/ exists n, PyInt.of_str (PyStr.strip (ent_duration filled_window)) = Ret n
                   /\ n <= 0).
Proof.
  split; [vm_compute; reflexivity|].
  apply (C5_create_validation filled_window).
  - apply list_elem_of_In. vm_compute. tauto.
  - reflexivity.
Defined.

(** The four rejected inputs of the specification, and what the constructor
    alone does with a blank title and a negative duration. *)
Example validation_examples :
  let try_form title duration :=
    fst (_parse_form (handle (Edit title today "09:00" duration) empty_window)) in
  try_form "   " "30" = Ret None
  /\ try_form "Dentist" "0" = Ret None
  /\ try_form "Dentist" "-5" = Ret None
  /\ try_form "Dentist" "12.5" = Ret None
  /\ Appuntamento.__init__ (PStr "   ") (at_time 9 0) (PInt (-5))
     = Ret (Appuntamento.Make "" (at_time 9 0) (-5)).
Proof. vm_compute. repeat split. Qed.

(** [int] does not skip the separators U+001C to U+001F, which [str.strip]
    removes: a time whose minutes start with U+001C is rejected; a duration
    that starts with it is trimmed first, and accepted. *)
Example separator_examples :
  let fs := String (Ascii.ascii_of_nat 28) "30" in
  PyInt.of_str fs = Raise ValueError
  /\ PyStr.strip fs = "30"%string
  /\ fst (_parse_form (handle (Edit "Dentist" today ("09:" +:+ fs) "30")
                         empty_window))
     = Ret None
  /\ fst (_parse_form (handle (Edit "Dentist" today "09:00" fs) empty_window))
     = Ret (Some (Obj 0 dentist)).
Proof. vm_compute. repeat split. Qed.

(** ** C6: loading *)

(** C6.  With no file, the window starts with no appointment and no message,
    and [_load] returns leaving the state as it was.  With a file that cannot
    be read or decoded, or whose content is not a sequence of records that
    [from_dict] accepts, [_load] returns after one warning, and the list of
    appointments and the file are what they were. *)
Theorem C6_load `{iso : Fromisoformat} (today : date) :
  __init__ today Missing = (Ret tt, built today Missing)
  /\ (forall w, disk w = Missing -> _load w = (Ret tt, w))
  /\ (forall w e, disk w = Unreadable e ->
        _load w = (Ret tt, add_shown (AvvisoCaricamento e) w))
  /\ (forall w data, disk w = Content data -> undecodable data ->
        exists e w',
          _load w = (Ret tt, w')
          /\ appuntamenti w' = appuntamenti w
          /\ disk w' = disk w
          /\ shown w' = shown w ++ [AvvisoCaricamento e]).
Proof.
  split; [reflexivity|]. split; [|split].
  - intros w Hd. destruct (load_spec w) as (Hr & _ & Hs). rewrite Hd in Hs.
    destruct (_load w) as [r w']. simpl in *. congruence.
  - intros w e Hd. destruct (load_spec w) as (Hr & _ & Hs). rewrite Hd in Hs.
    destruct (_load w) as [r w']. simpl in *. congruence.
  - intros w data Hd Hu. destruct (load_spec w) as (Hr & Hk & Hs).
    rewrite Hd in Hs.
    destruct (_load w) as [r w'] eqn:El. simpl in Hr, Hk, Hs. subst r.
    destruct Hu as [[e He]|(l & d & Hl & Hin & Hraise)].
    + rewrite He in Hs. exists e, w'. subst w'. auto.
    + rewrite Hl in Hs.
      destruct (load_all_Raise l w d Hin Hraise) as [e He].
      pose proof (load_all_frame l w) as (Ha & Hsh & _).
      destruct (load_all l w) as [[aps|e'] w1]; simpl in He, Ha, Hsh;
        [discriminate|].
      exists e', w'. subst w'. simpl. rewrite Ha, Hsh. auto.
Qed.

(** A file holding broken JSON, and a file holding a record without
    duration: both leave an empty window with one warning. *)
Example load_examples :
  appuntamenti (snd (__init__ today (Unreadable ValueError))) = []
  /\ shown (snd (__init__ today (Unreadable ValueError)))
     = [AvvisoCaricamento ValueError]
  /\ let incomplete := PDict (<["titolo" := PStr "x"]> ∅) in
     appuntamenti (snd (__init__ today (Content (PList [incomplete])))) = []
     /\ shown (snd (__init__ today (Content (PList [incomplete]))))
        = [AvvisoCaricamento KeyError].
Proof. vm_compute. auto. Qed.

(** ** C7: deletion *)

(** C7.  In a state of a running window, deleting at a position beyond the
    list raises [IndexError] and changes nothing; deleting at a position of
    the list, once confirmed, leaves the list without the element of that
    position and in the same order: it is one shorter and the object that
    was there is no longer in it. *)
Theorem C7_remove `{iso : Fromisoformat} (w : World) (idx : nat) (others : list nat)
    (wr : write_result) :
  reachable w ->
  ((length (appuntamenti w) <= idx)%nat ->
   forall yes, _delete_selected (idx :: others) yes wr w = (Raise IndexError, w))
  /\ (forall x, appuntamenti w !! idx = Some x ->
      let w' := snd (_delete_selected (idx :: others) true wr w) in
      appuntamenti w' = delete idx (appuntamenti w)
      /\ S (length (appuntamenti w')) = length (appuntamenti w)
      /\ x ∉ appuntamenti w').
Proof.
  intros Hr. apply reachable_inv in Hr. destruct Hr as [[k Hk] Hs Ht Hd Hf].
  split.
  - intros Hlen yes. rewrite delete_spec.
    now rewrite (lookup_ge_None_2 _ _ Hlen).
  - intros x Hx. cbv zeta. rewrite delete_spec, Hx. cbv zeta.
    set (w1 := add_shown (AskCancellare (Appuntamento.titolo (self x))) w).
    set (w2 := set_appuntamenti (delete idx (appuntamenti w1)) w1).
    destruct (commit_delete_frame wr w2) as (-> & _).
    destruct (refresh_spec w2) as (_ & _ & _ & Hsort). cbv zeta in Hsort.
    assert (Hid : sort_by_start (appuntamenti w2) = Ret (appuntamenti w2)).
    { apply (sort_sorted_id k); simpl.
      - now apply Forall_delete.
      - now apply StronglySorted_delete. }
    rewrite Hid in Hsort. rewrite Hsort. simpl.
    split; [reflexivity|]. split.
    + rewrite length_delete by (rewrite Hx; eauto).
      apply lookup_lt_Some in Hx. lia.
    + eapply NoDup_fmap_lookup_delete; eauto.
Qed.

(** With three appointments, position 7 raises and position 1 removes the
    second. *)
Lemma C7_remove_witness :
  let w := submit_all three empty_window in
  _delete_selected [7%nat] true Written w = (Raise IndexError, w)
  /\ (oid <$> appuntamenti (snd (_delete_selected [1%nat] true Written w)))
     = [1%nat; 0%nat].
Proof.
  cbv zeta. split.
  - apply (C7_remove (submit_all three empty_window) 7 [] Written
             (submit_all_reachable three empty_window empty_window_reachable)).
    vm_compute. lia.
  - vm_compute. reflexivity.
Defined.

(** ** C8: saving *)

(** C8.  [_save] returns, whether the write succeeds or fails, and leaves
    the list of appointments as it was; so does the closing of the window.
    The list after an addition or a deletion does not depend on the outcome
    of the write. *)
Theorem C8_save_keeps_collection (w : World) (wr : write_result) :
  fst (_save wr w) = Ret tt
  /\ appuntamenti (snd (_save wr w)) = appuntamenti w
  /\ appuntamenti (snd (_on_close wr w)) = appuntamenti w
  /\ (forall yes,
        appuntamenti (snd (_add_appointment yes wr w))
        = appuntamenti (snd (_add_appointment yes Written w)))
  /\ (forall sel yes,
        appuntamenti (snd (_delete_selected sel yes wr w))
        = appuntamenti (snd (_delete_selected sel yes Written w))).
Proof.
  destruct (save_frame wr w) as (Hr & Ha & _).
  split; [exact Hr|]. split; [exact Ha|]. split; [exact Ha|]. split.
  - intros yes. rewrite !add_spec.
    destruct (_parse_form w) as [[[ap|]|e] w1]; try reflexivity.
    destruct (find_overlap_in (self ap) (appuntamenti w1)) as [[c|]|e];
      try reflexivity.
    + cbv zeta. destruct yes; [|reflexivity].
      now rewrite !(proj1 (commit_add_frame _ _)).
    + now rewrite !(proj1 (commit_add_frame _ _)).
  - intros sel yes. rewrite !delete_spec.
    destruct sel as [|idx sel]; [reflexivity|].
    destruct (appuntamenti w !! idx) as [ap|]; [|reflexivity].
    cbv zeta. destruct yes; [|reflexivity].
    now rewrite !(proj1 (commit_delete_frame _ _)).
Qed.

(** A failed write after an addition: the appointment stays in the list,
    and the status bar ends on the text of the addition. *)
Example save_failure_example :
  let w := handle (ClickAdd false (WriteFails OSError Missing)) filled_window in
  self <$> appuntamenti w = [dentist] /\ disk w = Missing
  /\ status w = Aggiunto.
Proof. vm_compute. auto. Qed.

(** ** C9: the failures of [from_dict] *)

(** C9, as the specification states it, does not hold: the record whose
    duration is the string ["30"] has a field of the wrong type, and
    [from_dict] accepts it. *)
Lemma C9_counterexample :
  ~ (forall d, raises (Appuntamento.from_dict d) <-> ~ spec_record_ok d).
Proof.
  intros H. destruct (H (record (PStr "30"))) as [_ H'].
  destruct H' as [e He].
  - intros (m & t & s & n & Hd & _ & _ & Hn & _).
    inversion Hd; subst m. vm_compute in Hn. discriminate.
  - vm_compute in He. discriminate.
Qed.

(** C9, amended.  [from_dict] raises exactly when its argument is not a
    mapping with the three keys, or the title is not a string, or the start
    is not a string that [fromisoformat] parses, or the duration is [None],
    a list, a mapping, not-a-number, an infinity, or a string that is not a
    decimal numeral (blanks, an optional sign, at most 4300 digits with
    single underscores between them, blanks).  Every string that
    [isoformat] writes for a [datetime] is parsed; an integer, a boolean, a
    finite float and a decimal numeral are accepted as the duration. *)
Theorem C9_from_dict_failure `{iso : Fromisoformat} (d : pyval) :
  (raises (Appuntamento.from_dict d) <-> ~ record_accepted d)
  /\ (forall dt, valid dt = true ->
        is_Ret (fromisoformat_str (isoformat dt)) = true)
  /\ (forall z, durata_accepted (PInt z))
  /\ (forall b, durata_accepted (PBool b))
  /\ (forall m e, durata_accepted (PFloat (FFinite m e)))
  /\ (forall s, durata_accepted (PStr s) <-> numeral s)
  /\ (forall x, durata_accepted x ->
        (exists z, x = PInt z) \/ (exists b, x = PBool b)
        \/ (exists m e, x = PFloat (FFinite m e)) \/ (exists s, x = PStr s)).
Proof.
  split; [|split; [|split; [|split; [|split; [|split]]]]].
  - split.
    + intros [e He] (m & t & s & x & Hd & H1 & H2 & H3 & H4 & H5).
      destruct (fromisoformat_str s) as [dt|] eqn:Es; [|discriminate].
      apply int_accepted in H5.
      destruct (PyInt.int x) as [n|] eqn:En; [|discriminate].
      assert (Appuntamento.from_dict d
              = Ret (Appuntamento.Make (PyStr.strip t) dt n)).
      { apply from_dict_Ret. exists m, t, s, x, dt, n. auto 10. }
      congruence.
    + intros Hn. destruct (Appuntamento.from_dict d) as [a|e] eqn:E; [|now exists e].
      exfalso. apply Hn. apply from_dict_Ret in E.
      destruct E as (m & t & s & x & dt & n & Hd & H1 & H2 & H3 & H4 & H5 & _).
      exists m, t, s, x. rewrite H4.
      assert (durata_accepted x) by (apply int_accepted; now rewrite H5).
      auto 10.
  - intros dt Hv. now rewrite fromisoformat_str_isoformat.
  - intros z. exact I.
  - intros b. exact I.
  - intros m e. exact I.
  - intros s. reflexivity.
  - intros [|b|z|[| |m e]|s|l|m] H; try contradiction; eauto 10.
Qed.

(** The records of the dentist with the duration [30], ["30"], [" +3_0 "],
    [30.5], [True]: all are accepted.  With the duration [None], ["thirty"],
    ["3__0"], a not-a-number, or with the start ["tomorrow"]: none is. *)
Example accepted_examples :
  let dentist_at (s : string) (x : pyval) :=
    PDict (<["titolo" := PStr "Dentist"]>
           (<["data_ora" := PStr s]> (<["durata" := x]> ∅))) in
  let accepted (d : pyval) := is_Ret (Appuntamento.from_dict d) in
  accepted (record (PInt 30)) = true
  /\ accepted (record (PStr "30")) = true
  /\ accepted (record (PStr " +3_0 ")) = true
  /\ accepted (record (PFloat (FFinite 61 (-1)))) = true
  /\ accepted (record (PBool true)) = true
  /\ accepted (record PNone) = false
  /\ accepted (record (PStr "thirty")) = false
  /\ accepted (record (PStr "3__0")) = false
  /\ accepted (record (PFloat FNan)) = false
  /\ accepted (dentist_at "tomorrow" (PInt 30)) = false.
Proof. vm_compute. repeat split. Qed.

(** What [int] makes of the duration of a record: an integer, a numeric
    string, a float and a boolean are converted; [None] and a string that is
    no number are not. *)
Example from_dict_examples :
  Appuntamento.from_dict (record (PInt 30)) = Ret dentist
  /\ Appuntamento.from_dict (record (PStr " 30 ")) = Ret dentist
  /\ Appuntamento.from_dict (record (PFloat (FFinite 61 (-1)))) = Ret dentist
  /\ Appuntamento.from_dict (record (PBool true))
     = Ret (Appuntamento.Make "Dentist" (at_time 9 0) 1)
  /\ Appuntamento.from_dict (record PNone) = Raise TypeError
  /\ Appuntamento.from_dict (record (PStr "thirty")) = Raise ValueError
  /\ Appuntamento.from_dict (PDict ∅) = Raise KeyError
  /\ Appuntamento.from_dict (PList []) = Raise TypeError.
Proof. vm_compute. repeat split. Qed.

(** ** C10: titles are trimmed *)

(** C10.  The title of an appointment that [from_dict] returns is trimmed,
    whatever the record holds; so is the title of an appointment that
    [_parse_form] returns; and in every state of a running window every
    appointment of the list has a trimmed title.  A record with the title
    ["  Dentist  "] deserializes to the appointment titled ["Dentist"]. *)
Theorem C10_titles_trimmed `{iso : Fromisoformat} :
  (forall d a, Appuntamento.from_dict d = Ret a ->
               PyStr.strip (Appuntamento.titolo a) = Appuntamento.titolo a)
  /\ (forall w ap w', _parse_form w = (Ret (Some ap), w') -> trimmed ap)
  /\ (forall w, reachable w -> Forall trimmed (appuntamenti w))
  /\ Appuntamento.from_dict
       (PDict (<["titolo" := PStr "  Dentist  "]>
               (<["data_ora" := PStr "2024-03-15T09:00:00"]>
                (<["durata" := PInt 30]> ∅))))
     = Ret dentist.
Proof.
  split; [exact from_dict_trimmed|]. split; [|split].
  - intros w ap w' H.
    destruct (parse_form_frame w) as (_ & _ & _ & r & Hr & Hap).
    rewrite H in Hr. simpl in Hr. injection Hr as <-.
    now apply Hap.
  - intros w Hr. now apply reachable_inv.
  - now rewrite (from_dict_record "  Dentist  " (PInt 30) 30).
Qed.

End Claims.

(** * Further properties of the code

    Lemmas first, then the properties themselves ([Extras]). *)

(** ** The end of an appointment, as a value *)

Module EndFacts.
Import Tactics PyDatetime GestoreAppuntamenti Notions MoreNotions IsoFacts CalendarFacts
  OrderFacts FineFacts AppuntamentoFacts.

Lemma toordinal_range s :
  valid s = true -> 1 <= toordinal s <= _MAXORDINAL.
Proof.
  intros Hv. destruct (valid_fields _ Hv) as ((Hy & Hm & Hd) & _).
  unfold toordinal, _ymd2ord, _MAXORDINAL.
  pose proof (day_of_year_bound _ _ _ Hm Hd).
  pose proof (days_before_year_mono 1 (year s) ltac:(lia)) as H1.
  pose proof (days_before_year_mono (year s + 1) 10000 ltac:(lia)) as H2.
  pose proof (days_before_year_succ (year s)) as H3.
  change (_days_before_year 1) with 0 in H1.
  change (_days_before_year 10000) with 3652059 in H2. lia.
Qed.

(** [fine] raises nothing but [OverflowError]. *)
Lemma fine_raises a x : Appuntamento.fine a = Raise x -> x = OverflowError.
Proof.
  unfold Appuntamento.fine, td_minutes, add, td_add, td_new.
  destruct (_ >? _); [now intros [= <-]|]. cbn [res_bind].
  destruct (_ >? _); [now intros [= <-]|]. cbn [res_bind].
  destruct (_ >? _); [now intros [= <-]|]. cbn [res_bind].
  destruct (_ && _)%bool; [|now intros [= <-]].
  destruct (_ord2ymd _) as [[y m] d]. discriminate.
Qed.

(** The value of [fine]: the day and the time of day of the end. *)
Lemma fine_value a :
  valid (Appuntamento.data_ora a) = true ->
  if (1 <=? end_day a) && (end_day a <=? _MAXORDINAL) then
    exists e,
      Appuntamento.fine a = Ret e
      /\ toordinal e = end_day a
      /\ time_of_day e = end_seconds a `mod` 86400
      /\ microsecond e = microsecond (Appuntamento.data_ora a)
  else Appuntamento.fine a = Raise OverflowError.
Proof.
  intros Hv. pose proof (toordinal_range _ Hv) as Hord.
  destruct (valid_fields _ Hv) as ((Hy & Hm & Hd) & (Hh & Hmi & Hs & Hu) & Htz).
  unfold end_day, end_seconds, time_of_day.
  set (s := Appuntamento.data_ora a) in *. set (mins := Appuntamento.durata a).
  unfold Appuntamento.fine, td_minutes, td_new. fold s mins.
  change (0 `div` 1000000) with 0. change (0 `mod` 1000000) with 0.
  rewrite Z.add_0_r, Z.add_0_l.
  set (secs := hour s * 3600 + minute s * 60 + second s).
  assert (Hsecs : 0 <= secs < 86400) by (subst secs; lia).
  set (es := toordinal s * 86400 + secs + mins * 60).
  unfold _MAXORDINAL in *.
  destruct (Z.gtb_spec (Z.abs ((mins * 60) `div` 86400)) 999999999) as [Hbig|Hsmall].
  { cbn [res_bind].
    destruct (Z.leb_spec 1 (es `div` 86400)), (Z.leb_spec (es `div` 86400) 3652059);
      cbn [andb]; try reflexivity.
    exfalso. subst es. clearbody secs. dlia. }
  cbn [res_bind]. unfold add, td_new, td_add, td_new.
  assert (Hus : microsecond s `div` 1000000 = 0 /\ microsecond s `mod` 1000000 = microsecond s)
    by dlia.
  destruct Hus as [Hus1 Hus2]. rewrite Hus1, Hus2, Z.add_0_r.
  fold secs.
  assert (Hsecs' : secs `div` 86400 = 0 /\ secs `mod` 86400 = secs) by dlia.
  destruct Hsecs' as [Hs1 Hs2]. rewrite Hs1, Hs2, Z.add_0_r.
  destruct (Z.abs (toordinal s) >? 999999999) eqn:Eabs; [lia|].
  cbn [res_bind days seconds microseconds].
  rewrite Z.add_0_r, Hus1, Hus2, Z.add_0_r.
  set (total := secs + (mins * 60) `mod` 86400).
  set (dd := toordinal s + (mins * 60) `div` 86400 + total `div` 86400).
  assert (Hdd : es `div` 86400 = dd /\ es `mod` 86400 = total `mod` 86400).
  { subst es dd total. clearbody secs. dlia. }
  destruct Hdd as [Hdd Hrest]. rewrite Hdd, Hrest.
  destruct (Z.gtb_spec (Z.abs dd) 999999999) as [Hbig|Hsmall'].
  { cbn [res_bind].
    destruct (Z.leb_spec 1 dd), (Z.leb_spec dd 3652059); cbn [andb]; try reflexivity.
    lia. }
  cbn [res_bind days seconds microseconds].
  unfold _MAXORDINAL.
  replace (0 <? dd) with (1 <=? dd) by (destruct (Z.leb_spec 1 dd), (Z.ltb_spec 0 dd); lia).
  destruct ((1 <=? dd) && (dd <=? 3652059)) eqn:Er; [|reflexivity].
  apply andb_prop in Er. destruct Er as [Er1 Er2].
  apply Z.leb_le in Er1, Er2.
  pose proof (ord2ymd_spec dd ltac:(lia)) as Hspec.
  destruct (_ord2ymd dd) as [[y m] d].
  destruct Hspec as (Hy1 & Hm1 & Hd1 & Ho).
  eexists. split; [reflexivity|].
  unfold toordinal. cbn [year month day hour minute second microsecond].
  split; [exact Ho|]. split; [|reflexivity].
  set (rest := total `mod` 86400).
  assert (Hr : 0 <= rest < 86400) by (subst rest; dlia).
  clearbody rest. dlia.
Qed.

End EndFacts.

(** ** The overlap test on the time line *)

Module OverlapFacts.
Import Tactics PyDatetime GestoreAppuntamenti Notions MoreNotions OrderFacts FineFacts
  AppuntamentoFacts CallbackFacts EndFacts.

Lemma interval_overlap_sym a b : interval_overlap a b -> interval_overlap b a.
Proof. unfold interval_overlap. tauto. Qed.

(** The test of [_find_overlap] on valid starts, on the time line. *)
Lemma overlaps_true new_ap ap :
  valid (Appuntamento.data_ora new_ap) = true ->
  valid (Appuntamento.data_ora ap) = true ->
  overlaps new_ap ap = Ret true <->
  is_Ret (Appuntamento.fine new_ap) = true
  /\ is_Ret (Appuntamento.fine ap) = true
  /\ aware (Appuntamento.data_ora new_ap) = aware (Appuntamento.data_ora ap)
  /\ interval_overlap new_ap ap.
Proof.
  intros Vn Va. unfold interval_overlap. split.
  - intros H. pose proof (overlaps_Ret_kind _ _ _ H) as K.
    unfold overlaps in H.
    destruct (Appuntamento.fine ap) as [e1|] eqn:Fa; [|discriminate].
    destruct (fine_instant _ _ Va Fa) as (V1 & K1 & I1).
    cbn [res_bind] in H. rewrite lt_instant in H by congruence.
    cbn [res_bind] in H.
    destruct (Z.ltb_spec (instant (Appuntamento.data_ora new_ap)) (instant e1))
      as [Hlt|Hge]; [|discriminate].
    destruct (Appuntamento.fine new_ap) as [e2|] eqn:Fn; [|discriminate].
    destruct (fine_instant _ _ Vn Fn) as (V2 & K2 & I2).
    cbn [res_bind] in H. rewrite gt_instant in H by congruence.
    injection H as H. apply Z.ltb_lt in H.
    repeat split; try assumption; lia.
  - intros (Fn & Fa & K & H1 & H2). unfold overlaps.
    destruct (Appuntamento.fine ap) as [e1|] eqn:Ea; [|discriminate].
    destruct (Appuntamento.fine new_ap) as [e2|] eqn:En; [|discriminate].
    destruct (fine_instant _ _ Va Ea) as (V1 & K1 & I1).
    destruct (fine_instant _ _ Vn En) as (V2 & K2 & I2).
    cbn [res_bind]. rewrite lt_instant by congruence. cbn [res_bind].
    destruct (Z.ltb_spec (instant (Appuntamento.data_ora new_ap)) (instant e1))
      as [Hlt|Hge]; [|lia].
    rewrite gt_instant by congruence. f_equal. apply Z.ltb_lt. lia.
Qed.

(** A test that answers [False] has seen two intervals that do not meet. *)
Lemma overlaps_false new_ap ap :
  valid (Appuntamento.data_ora new_ap) = true ->
  valid (Appuntamento.data_ora ap) = true ->
  overlaps new_ap ap = Ret false -> ~ interval_overlap new_ap ap.
Proof.
  intros Vn Va H. pose proof (overlaps_Ret_kind _ _ _ H) as K.
  unfold interval_overlap. unfold overlaps in H.
  destruct (Appuntamento.fine ap) as [e1|] eqn:Fa; [|discriminate].
  destruct (fine_instant _ _ Va Fa) as (V1 & K1 & I1).
  cbn [res_bind] in H. rewrite lt_instant in H by congruence.
  cbn [res_bind] in H.
  destruct (Z.ltb_spec (instant (Appuntamento.data_ora new_ap)) (instant e1))
    as [Hlt|Hge]; [|lia].
  destruct (Appuntamento.fine new_ap) as [e2|] eqn:Fn; [|discriminate].
  destruct (fine_instant _ _ Vn Fn) as (V2 & K2 & I2).
  cbn [res_bind] in H. rewrite gt_instant in H by congruence.
  injection H as H. apply Z.ltb_ge in H. lia.
Qed.

End OverlapFacts.

(** ** The place of a new element in the sorted list *)

Module PositionFacts.
Import Tactics PyDatetime GestoreAppuntamenti Notions MoreNotions OrderFacts FineFacts
  SortFacts AppuntamentoFacts GestoreFacts CallbackFacts InvariantFacts MoreFacts.

Section WithParser.
Context `{iso : Fromisoformat}.

(** An element not after any element of the list is inserted at its head. *)
Lemma insert_head k x l :
  good k x -> Forall (good k) l -> Forall (by_start x) l ->
  insert_by_start x l = Ret (x :: l).
Proof.
  intros Hx Hl Hb. destruct l as [|y l]; [reflexivity|].
  apply Forall_cons in Hl, Hb. destruct Hl as [Hy _], Hb as [Hxy _].
  apply (by_start_instant k) in Hxy; [|assumption..].
  simpl. fold (start y) (start x). destruct Hx as [Vx Kx], Hy as [Vy Ky].
  rewrite lt_instant by congruence. simpl.
  destruct (Z.ltb_spec (instant (start y)) (instant (start x))); [lia|reflexivity].
Qed.

(** The sort of a sorted list with one more element at its end puts the
    element after those that start no later and before those that start
    later. *)
Lemma sort_snoc k l x :
  Forall (good k) l -> good k x -> StronglySorted by_start l ->
  exists l1 l2,
    l = l1 ++ l2
    /\ Forall (fun y => instant (start y) <= instant (start x)) l1
    /\ Forall (fun y => instant (start x) < instant (start y)) l2
    /\ sort_by_start (l ++ [x]) = Ret (l1 ++ x :: l2).
Proof.
  intros Hl Hx. induction l as [|a l IH]; intros Hs.
  - exists [], []. repeat split; constructor.
  - apply Forall_cons in Hl. destruct Hl as [Ha Hl].
    apply StronglySorted_cons in Hs. destruct Hs as [Hal Hs].
    destruct (IH Hl Hs) as (l1 & l2 & El & H1 & H2 & Hsort).
    simpl. rewrite Hsort. cbn [res_bind].
    destruct (Z_le_gt_dec (instant (start a)) (instant (start x))) as [Hle|Hgt].
    + exists (a :: l1), l2. split; [now rewrite El|].
      split; [now constructor|]. split; [exact H2|].
      simpl. apply (insert_head k); [exact Ha| |].
      * rewrite El in Hl. apply Forall_app in Hl. destruct Hl as [Hl1 Hl2].
        apply Forall_app. split; [exact Hl1|]. now constructor.
      * rewrite El in Hal. apply Forall_app in Hal. destruct Hal as [Hal1 Hal2].
        apply Forall_app. split; [exact Hal1|]. constructor; [|exact Hal2].
        now apply (by_start_instant k).
    + assert (El1 : l1 = []).
      { destruct l1 as [|y l1]; [reflexivity|exfalso].
        apply Forall_cons in H1. destruct H1 as [Hy _].
        rewrite El in Hal, Hl. apply Forall_cons in Hal, Hl.
        destruct Hal as [Hay _], Hl as [Hgy _].
        apply (by_start_instant k) in Hay; [lia|assumption..]. }
      subst l1. simpl in El. subst l2.
      exists [], (a :: l). split; [reflexivity|]. split; [constructor|].
      split; [constructor; [lia|exact H2]|].
      simpl. fold (start x) (start a). destruct Hx as [Vx Kx], Ha as [Va Ka].
      rewrite lt_instant by congruence. cbn [res_bind].
      destruct (Z.ltb_spec (instant (start x)) (instant (start a))); [|lia].
      rewrite (insert_head k); [reflexivity|now split|exact Hl|exact Hal].
Qed.

(** The starts of the list and of a candidate the search has accepted are
    naive. *)
Lemma append_good w ap c :
  inv w -> good false ap ->
  find_overlap_in (self ap) (appuntamenti w) = Ret c ->
  Forall (good false) (appuntamenti w).
Proof.
  intros [[k Hk] _ _ _ _] Hgood Hc.
  destruct (appuntamenti w) as [|y l0] eqn:El; [constructor|].
  pose proof (find_overlap_Ret_kind _ _ _ _ Hc) as Hk1.
  destruct Hgood as [_ Hk2]. unfold start in Hk2. rewrite Hk2 in Hk1.
  pose proof Hk as Hk3. apply Forall_cons in Hk3. destruct Hk3 as [[_ Hy] _].
  rewrite Hy in Hk1. now subst k.
Qed.

(** The list after an addition that goes through. *)
Lemma add_commits yes wr w ap w1 c :
  _parse_form w = (Ret (Some ap), w1) ->
  find_overlap_in (self ap) (appuntamenti w) = Ret c ->
  c = None \/ yes = true ->
  exists w2,
    appuntamenti w2 = appuntamenti w ++ [ap]
    /\ lst w2 = lst w
    /\ disk w2 = disk w
    /\ next_id w2 = S (next_id w)
    /\ shown w2 = shown w ++ match c with
                             | Some x => [ask_overlap x]
                             | None => []
                             end
    /\ cal_date w2 = cal_date w
    /\ _add_appointment yes wr w = commit_add wr w2.
Proof.
  intros Hp Hc Hgo. rewrite add_spec.
  destruct (parse_form_frame w) as (Ha & _ & _ & r & Hr & Hap).
  rewrite Hp in *. simpl in Ha, Hr, Hap. injection Hr as <-.
  destruct (Hap ap eq_refl) as (_ & Hw1 & _). clear Hap. subst w1.
  change (appuntamenti (bump_id w)) with (appuntamenti w). rewrite Hc.
  destruct c as [x|].
  - destruct Hgo as [Hgo|Hgo]; [discriminate|]. subst yes. cbv zeta.
    eexists. split; [|split; [|split; [|split; [|split; [|split; [|reflexivity]]]]]];
      reflexivity.
  - eexists. split; [|split; [|split; [|split; [|split; [|split; [|reflexivity]]]]]];
      try reflexivity. simpl. now rewrite app_nil_r.
Qed.

End WithParser.

End PositionFacts.

(** ** The rows of the list box *)

Module RowFacts.
Import Tactics PyDatetime GestoreAppuntamenti Notions MoreNotions OrderFacts FineFacts
  SortFacts AppuntamentoFacts GestoreFacts CallbackFacts LoadFacts InvariantFacts
  MoreFacts EndFacts PositionFacts.

Section WithParser.
Context `{iso : Fromisoformat}.

(** [__str__] raises what [fine] raises. *)
Lemma str_raises a e :
  Appuntamento.__str__ a = Raise e -> Appuntamento.fine a = Raise e.
Proof.
  unfold Appuntamento.__str__. destruct (Appuntamento.fine a); simpl; congruence.
Qed.

Lemma str_Ret a :
  is_Ret (Appuntamento.__str__ a) = is_Ret (Appuntamento.fine a).
Proof. unfold Appuntamento.__str__. now destruct (Appuntamento.fine a). Qed.

Lemma str_title a row :
  Appuntamento.__str__ a = Ret row ->
  Appuntamento.l_titolo row = Appuntamento.titolo a.
Proof.
  unfold Appuntamento.__str__. destruct (Appuntamento.fine a); simpl; [|discriminate].
  now intros [= <-].
Qed.

(** The loop that fills the list box: it appends the rows of the
    appointments up to the first one without an end, at which it raises. *)
Lemma fill_lst_rows l : forall w,
  exists l1 l2 rows,
    l = l1 ++ l2 /\ Forall2 row_of rows l1
    /\ lst (snd (fill_lst l w)) = lst w ++ rows
    /\ match l2 with
       | [] => fst (fill_lst l w) = Ret tt
       | x :: _ => fst (fill_lst l w) = Raise OverflowError
                   /\ Appuntamento.fine (self x) = Raise OverflowError
       end.
Proof.
  induction l as [|x l IH]; intros w.
  - exists [], [], []. simpl. rewrite app_nil_r. repeat split. constructor.
  - simpl. mred. destruct (Appuntamento.__str__ (self x)) as [row|e] eqn:E.
    + destruct (IH (set_lst (lst w ++ [row]) w)) as (l1 & l2 & rows & -> & H1 & H2 & H3).
      exists (x :: l1), l2, (row :: rows).
      split; [reflexivity|]. split; [now constructor|].
      split; [|exact H3]. rewrite H2. simpl. now rewrite <- app_assoc.
    + exists [], (x :: l), []. simpl. rewrite app_nil_r.
      apply str_raises in E. pose proof (fine_raises _ _ E). subst e.
      repeat split; auto.
Qed.

(** The loop on appointments that all have an end. *)
Lemma fill_lst_all l : forall w rows,
  Forall2 row_of rows l ->
  fill_lst l w = (Ret tt, set_lst (lst w ++ rows) w).
Proof.
  induction l as [|x l IH]; intros w rows H.
  - apply Forall2_nil_inv_r in H. subst rows. simpl. mred.
    rewrite app_nil_r. now destruct w.
  - apply Forall2_cons_inv_r in H. destruct H as (row & rows' & Hrow & Hrows & ->).
    simpl. mred. unfold row_of in Hrow. rewrite Hrow.
    rewrite (IH _ rows' Hrows). f_equal. unfold set_lst. simpl.
    now rewrite <- app_assoc.
Qed.

Lemma cmp_raises a b e : _cmp a b = Raise e -> e = TypeError.
Proof.
  unfold _cmp. destruct (tzinfo a), (tzinfo b); try congruence.
  destruct (_ =? _); discriminate.
Qed.

Lemma insert_raises x l e : insert_by_start x l = Raise e -> e = TypeError.
Proof.
  induction l as [|y l IH]; simpl; [discriminate|].
  unfold lt. destruct (_cmp _ _) as [c|e'] eqn:Ec; simpl.
  - destruct c; try discriminate.
    destruct (insert_by_start x l); simpl; [discriminate|].
    intros [= <-]. now apply IH.
  - intros [= <-]. eapply cmp_raises; eauto.
Qed.

Lemma sort_raises l e : sort_by_start l = Raise e -> e = TypeError.
Proof.
  induction l as [|x l IH]; simpl; [discriminate|].
  destruct (sort_by_start l) as [r|e']; simpl.
  - apply insert_raises.
  - intros [= <-]. now apply IH.
Qed.

(** [_refresh_list] where the sort returns. *)
Lemma refresh_rows w l :
  sort_by_start (appuntamenti w) = Ret l ->
  exists l1 l2 rows,
    l = l1 ++ l2 /\ Forall2 row_of rows l1
    /\ appuntamenti (snd (_refresh_list w)) = l
    /\ lst (snd (_refresh_list w)) = rows
    /\ match l2 with
       | [] => fst (_refresh_list w) = Ret tt
       | x :: _ => fst (_refresh_list w) = Raise OverflowError
                   /\ Appuntamento.fine (self x) = Raise OverflowError
       end.
Proof.
  intros Hs. unfold _refresh_list. mred. rewrite Hs.
  set (w1 := set_lst [] (set_appuntamenti l w)).
  destruct (fill_lst_rows l w1) as (l1 & l2 & rows & El & H1 & H2 & H3).
  destruct (fill_lst_frame l w1) as (Ha & _).
  exists l1, l2, rows. repeat split; assumption.
Qed.

(** What [_refresh_list] raises. *)
Lemma refresh_raises w e :
  fst (_refresh_list w) = Raise e -> e = TypeError \/ e = OverflowError.
Proof.
  destruct (sort_by_start (appuntamenti w)) as [l|e'] eqn:Hs.
  - destruct (refresh_rows w l Hs) as (l1 & [|x l2] & rows & _ & _ & _ & _ & H).
    + congruence.
    + destruct H as [-> _]. intros [= <-]. now right.
  - destruct (refresh_spec w) as (_ & _ & _ & H). rewrite Hs in H.
    destruct H as [_ ->]. intros [= <-]. left. eapply sort_raises; eauto.
Qed.

Lemma refresh_rows_ok w l :
  sort_by_start (appuntamenti w) = Ret l -> rows_ok (snd (_refresh_list w)).
Proof.
  intros Hs. destruct (refresh_rows w l Hs) as (l1 & l2 & rows & El & H1 & Ha & Hl & _).
  exists l1, l2. rewrite Ha, Hl. auto.
Qed.

Lemma rows_ok_view w w' :
  appuntamenti w' = appuntamenti w -> lst w' = lst w -> rows_ok w -> rows_ok w'.
Proof. unfold rows_ok. intros -> ->. auto. Qed.

Lemma commit_add_view wr w :
  appuntamenti (snd (commit_add wr w)) = appuntamenti (snd (_refresh_list w))
  /\ lst (snd (commit_add wr w)) = lst (snd (_refresh_list w))
  /\ fst (commit_add wr w) = fst (_refresh_list w).
Proof.
  unfold commit_add. cbv [bind].
  destruct (_refresh_list w) as [[[]|e] w1]; simpl; [|auto].
  rewrite save_spec. destruct wr; simpl; auto.
Qed.

Lemma commit_delete_view wr w :
  appuntamenti (snd (commit_delete wr w)) = appuntamenti (snd (_refresh_list w))
  /\ lst (snd (commit_delete wr w)) = lst (snd (_refresh_list w))
  /\ fst (commit_delete wr w) = fst (_refresh_list w).
Proof.
  unfold commit_delete. cbv [bind].
  destruct (_refresh_list w) as [[[]|e] w1]; simpl; [|auto].
  rewrite save_spec. destruct wr; simpl; auto.
Qed.

(** [_parse_form] touches neither the list nor the list box. *)
Lemma parse_form_view w :
  appuntamenti (snd (_parse_form w)) = appuntamenti w
  /\ lst (snd (_parse_form w)) = lst w.
Proof.
  rewrite parse_form_spec. destruct (form_empty w); [auto|].
  destruct (parse_duration _); [|auto]. destruct (parse_start _ _); auto.
Qed.

Lemma rows_ok_add yes wr w :
  inv w -> rows_ok w -> rows_ok (snd (_add_appointment yes wr w)).
Proof.
  intros Hi Hr.
  destruct (parse_form_view w) as (Ha & Hl).
  destruct (parse_form_frame w) as (_ & _ & _ & r & Hres & Hap).
  destruct (_parse_form w) as [r0 w1] eqn:Hp. simpl in Ha, Hl, Hres, Hap. subst r0.
  destruct r as [ap|].
  2:{ rewrite add_spec, Hp. simpl. now apply (rows_ok_view w). }
  destruct (Hap ap eq_refl) as (_ & _ & Hgood & _).
  destruct (find_overlap_in (self ap) (appuntamenti w)) as [c|e] eqn:Hc.
  2:{ rewrite add_spec, Hp, Ha, Hc. simpl. now apply (rows_ok_view w). }
  assert (Hgo : (c = None \/ yes = true) \/ (exists x, c = Some x) /\ yes = false).
  { destruct c, yes; eauto. }
  destruct Hgo as [Hgo|[[x ->] ->]].
  - destruct (add_commits yes wr w ap w1 c Hp Hc Hgo) as (w2 & Ha2 & _ & _ & _ & _ & _ & ->).
    assert (Hg : Forall (good false) (appuntamenti w2)).
    { rewrite Ha2. apply Forall_app. split; [|now apply Forall_singleton].
      eapply append_good; eauto. }
    destruct (sort_sorted false _ Hg) as (l' & Hs & _).
    destruct (commit_add_view wr w2) as (Ea & El & _).
    apply (rows_ok_view (snd (_refresh_list w2))); [exact Ea|exact El|].
    eapply refresh_rows_ok; eauto.
  - rewrite add_spec, Hp, Ha, Hc. simpl. now apply (rows_ok_view w).
Qed.

Lemma rows_ok_delete sel yes wr w :
  inv w -> rows_ok w -> rows_ok (snd (_delete_selected sel yes wr w)).
Proof.
  intros Hi Hr. rewrite delete_spec.
  destruct sel as [|idx sel]; [now apply (rows_ok_view w)|].
  destruct (appuntamenti w !! idx) as [ap|]; [|exact Hr].
  cbv zeta. destruct yes; [|now apply (rows_ok_view w)].
  destruct Hi as [[k Hk] _ _ _ _].
  set (w2 := set_appuntamenti _ _).
  assert (Hg : Forall (good k) (appuntamenti w2)) by (simpl; now apply Forall_delete).
  destruct (sort_sorted k _ Hg) as (l' & Hs & _).
  destruct (commit_delete_view wr w2) as (Ea & El & _).
  apply (rows_ok_view (snd (_refresh_list w2))); [exact Ea|exact El|].
  eapply refresh_rows_ok; eauto.
Qed.

Lemma rows_ok_handle ev w : inv w -> rows_ok w -> rows_ok (handle ev w).
Proof.
  intros Hi Hr. destruct ev as [title d time duration|yes wr|sel yes wr|wr]; simpl.
  - now apply (rows_ok_view w).
  - now apply rows_ok_add.
  - now apply rows_ok_delete.
  - unfold _on_close. destruct (save_frame wr w) as (_ & Ha & _ & Hl & _).
    now apply (rows_ok_view w).
Qed.

Lemma rows_ok_init today on_disk w :
  __init__ today on_disk = (Ret tt, w) -> rows_ok w.
Proof.
  unfold __init__. cbv [bind]. set (w0 := built today on_disk).
  destruct (load_spec w0) as (Hr & _).
  destruct (_load w0) as [r w1]. simpl in Hr. subst r. intros Hw.
  assert (Hw' : w = snd (_refresh_list w1)) by now rewrite Hw.
  assert (Hret : fst (_refresh_list w1) = Ret tt) by now rewrite Hw.
  subst w. destruct (sort_by_start (appuntamenti w1)) as [l|e] eqn:Hs.
  - eapply refresh_rows_ok; eauto.
  - destruct (refresh_spec w1) as (_ & _ & _ & H). rewrite Hs in H.
    destruct H as [_ H]. congruence.
Qed.

(** In every state of a running window the list box shows the first
    appointments of the list, row by row. *)
Lemma reachable_rows w : reachable w -> rows_ok w.
Proof.
  induction 1 as [today on_disk w H|ev w Hr IH].
  - eapply rows_ok_init; eauto.
  - apply rows_ok_handle; [now apply reachable_inv|exact IH].
Qed.

End WithParser.

End RowFacts.

(** ** The file written by [_save], read by [_load] *)

Module PersistFacts.
Import Tactics PyDatetime GestoreAppuntamenti Notions MoreNotions OrderFacts FineFacts
  SortFacts AppuntamentoFacts GestoreFacts CallbackFacts LoadFacts InvariantFacts
  MoreFacts EndFacts PositionFacts RowFacts.

Section WithParser.
Context `{iso : Fromisoformat}.

(** [load_all] where every record is accepted. *)
Lemma load_all_accepts l : forall w,
  Forall (fun d => is_Ret (Appuntamento.from_dict d) = true) l ->
  exists aps w', load_all l w = (Ret aps, w').
Proof.
  induction l as [|d l IH]; intros w H; simpl; mred; [eauto|].
  apply Forall_cons in H. destruct H as [Hd Hl].
  destruct (Appuntamento.from_dict d) as [a|]; [|discriminate].
  destruct (IH (bump_id w) Hl) as (aps & w' & ->). eauto.
Qed.

(** The records [_save] writes are accepted, and give the attributes
    back. *)
Lemma load_all_saved l w :
  Forall (fun x => valid (start x) = true) l -> Forall trimmed l ->
  exists aps w',
    load_all ((fun ap => Appuntamento.to_dict (self ap)) <$> l) w = (Ret aps, w')
    /\ same_attributes aps l.
Proof.
  intros Hv Ht.
  assert (Hrec : Forall2 (fun d x => Appuntamento.from_dict d = Ret (self x))
                   ((fun ap => Appuntamento.to_dict (self ap)) <$> l) l).
  { apply Forall2_fmap_l. apply Forall_Forall2_diag.
    rewrite Forall_forall in Hv, Ht |- *. intros x Hx. simpl.
    rewrite from_dict_to_dict by (apply Hv, Hx).
    specialize (Ht x Hx). unfold trimmed in Ht. rewrite Ht. now destruct (self x). }
  destruct (load_all_accepts ((fun ap => Appuntamento.to_dict (self ap)) <$> l) w)
    as (aps & w' & E).
  { clear -Hrec. induction Hrec as [|d x ds xs Hd _ IH]; constructor; [|exact IH].
    now rewrite Hd. }
  exists aps, w'. split; [exact E|].
  apply load_all_Ret in E. destruct E as (E & _).
  unfold same_attributes. clear -E Hrec. revert aps E.
  induction Hrec as [|d x ds xs Hd _ IH]; intros aps E.
  - apply Forall2_nil_inv_l in E. now subst.
  - apply Forall2_cons_inv_l in E. destruct E as (a & aps' & Ha & Haps & ->).
    simpl. f_equal; [congruence|now apply IH].
Qed.

(** Properties of the attributes carry over to a list with the same
    attributes. *)
Lemma same_attributes_Forall (P : Appuntamento.t -> Prop) l1 l2 :
  same_attributes l1 l2 ->
  Forall (fun x => P (self x)) l2 -> Forall (fun x => P (self x)) l1.
Proof.
  unfold same_attributes. intros E H.
  apply (Forall_fmap self P) in H. apply (Forall_fmap self P). now rewrite E.
Qed.

Lemma same_attributes_sorted l1 l2 :
  same_attributes l1 l2 ->
  StronglySorted by_start l2 -> StronglySorted by_start l1.
Proof.
  unfold same_attributes. revert l2.
  induction l1 as [|x l1 IH]; intros [|y l2] E Hs; try discriminate; [constructor|].
  simpl in E. injection E as Ex E.
  apply StronglySorted_cons in Hs. destruct Hs as [Hy Hs].
  apply StronglySorted_cons. split; [|eapply IH; eauto].
  unfold by_start, start in *. rewrite Ex.
  apply (same_attributes_Forall
           (fun a => le (Appuntamento.data_ora (self y)) (Appuntamento.data_ora a)
                     = Ret true) l1 l2 E Hy).
Qed.

(** The start of a window on the file a save has written. *)
Lemma init_saved today w :
  inv w ->
  exists w1,
    same_attributes (appuntamenti w1) (appuntamenti w)
    /\ shown w1 = [] /\ lst w1 = []
    /\ sort_by_start (appuntamenti w1) = Ret (appuntamenti w1)
    /\ __init__ today (saved (appuntamenti w)) = _refresh_list w1.
Proof.
  intros [[k Hk] Hs Ht _ _].
  assert (Hv : Forall (fun x => valid (start x) = true) (appuntamenti w)).
  { eapply Forall_impl; [exact Hk|]. now intros x [? ?]. }
  unfold __init__. cbv [bind].
  set (w0 := built today (saved (appuntamenti w))).
  destruct (load_all_saved (appuntamenti w) w0 Hv Ht) as (aps & w' & E & Hsame).
  destruct (load_spec w0) as (Hr & _ & Hl).
  pose proof (load_all_frame ((fun ap => Appuntamento.to_dict (self ap))
                                <$> appuntamenti w) w0) as (_ & Hsh & _ & Hlst & _).
  change (disk w0) with (saved (appuntamenti w)) in Hl. unfold saved in Hl.
  simpl in Hl. rewrite E in Hl, Hsh, Hlst. simpl in Hsh, Hlst.
  destruct (_load w0) as [r w1]. simpl in Hr, Hl. subst r w1.
  exists (set_appuntamenti aps w'). simpl.
  split; [exact Hsame|]. split; [exact Hsh|]. split; [exact Hlst|].
  split; [|reflexivity].
  apply (sort_sorted_id k).
  - apply (same_attributes_Forall
             (fun a => valid (Appuntamento.data_ora a) = true
                       /\ aware (Appuntamento.data_ora a) = k) _ _ Hsame Hk).
  - eapply same_attributes_sorted; eauto.
Qed.

End WithParser.

End PersistFacts.

(** ** Schedules without conflicts; what the form has checked *)

Module ScheduleFacts.
Import Tactics PyDatetime GestoreAppuntamenti Notions MoreNotions OrderFacts FineFacts
  SortFacts AppuntamentoFacts GestoreFacts CallbackFacts LoadFacts InvariantFacts
  MoreFacts EndFacts OverlapFacts PositionFacts RowFacts.

Section WithParser.
Context `{iso : Fromisoformat}.

Lemma conflict_free_sub l l' :
  (forall x, x ∈ l' -> x ∈ l) -> conflict_free l -> conflict_free l'.
Proof. unfold conflict_free. intros Hsub H x y Hx Hy. apply H; auto. Qed.

Lemma conflict_free_snoc l ap :
  conflict_free l ->
  Forall (fun x => ~ interval_overlap (self ap) (self x)) l ->
  conflict_free (l ++ [ap]).
Proof.
  intros Hl Hap x y Hx Hy Hne. rewrite Forall_forall in Hap.
  apply elem_of_app in Hx, Hy.
  destruct Hx as [Hx|Hx], Hy as [Hy|Hy].
  - now apply Hl.
  - apply list_elem_of_singleton in Hy. subst y.
    intros H. apply interval_overlap_sym in H. now apply (Hap x).
  - apply list_elem_of_singleton in Hx. subst x. now apply Hap.
  - apply list_elem_of_singleton in Hx, Hy. congruence.
Qed.

(** What the form has checked of the appointment it returns. *)
Lemma parse_form_checked w ap w1 :
  _parse_form w = (Ret (Some ap), w1) ->
  validated ap
  /\ (year (start ap), month (start ap), day (start ap))
     = (d_year (cal_date w), d_month (cal_date w), d_day (cal_date w))
  /\ second (start ap) = 0 /\ microsecond (start ap) = 0.
Proof.
  rewrite parse_form_spec. unfold form_empty, validated.
  destruct (String.eqb_spec (PyStr.strip (ent_title w)) "") as [|Ht];
    [discriminate|]. cbn [orb].
  destruct (_ || _)%bool; [discriminate|].
  unfold parse_duration.
  destruct (PyInt.of_str _) as [n|]; [|discriminate]. cbn [res_bind].
  destruct (Z.leb_spec n 0) as [|Hn]; [discriminate|].
  unfold parse_start.
  destruct (PyStr.split ":" _) as [|a [|b [|? ?]]]; try discriminate.
  destruct (PyInt.of_str a) as [hh|]; [|discriminate]. cbn [res_bind].
  destruct (PyInt.of_str b) as [mm|]; [|discriminate]. cbn [res_bind].
  unfold new. destruct (_ && _)%bool; [|discriminate].
  intros [= <- _]. simpl. auto.
Qed.

Lemma conflict_free_add wr w :
  inv w -> conflict_free (appuntamenti w) ->
  conflict_free (appuntamenti (snd (_add_appointment false wr w))).
Proof.
  intros Hi Hcf.
  destruct (parse_form_view w) as (Ha & _).
  destruct (parse_form_frame w) as (_ & _ & _ & r & Hres & Hap).
  destruct (_parse_form w) as [r0 w1] eqn:Hp. simpl in Ha, Hres, Hap. subst r0.
  destruct r as [ap|].
  2:{ rewrite add_spec, Hp. simpl. now rewrite Ha. }
  destruct (Hap ap eq_refl) as (_ & _ & Hgood & _).
  destruct (find_overlap_in (self ap) (appuntamenti w)) as [[c|]|e] eqn:Hc.
  - rewrite add_spec, Hp, Ha, Hc. simpl. now rewrite Ha.
  - destruct (add_commits false wr w ap w1 None Hp Hc (or_introl eq_refl))
      as (w2 & Ha2 & _ & _ & _ & _ & _ & ->).
    destruct (commit_add_view wr w2) as (-> & _).
    apply (conflict_free_sub (appuntamenti w ++ [ap])).
    { intros x Hx. rewrite <- Ha2. now rewrite (refresh_perm w2). }
    apply conflict_free_snoc; [exact Hcf|].
    apply find_overlap_None in Hc.
    destruct Hi as [[k Hk] _ _ _ _].
    rewrite Forall_forall in Hc, Hk |- *. intros x Hx.
    apply overlaps_false; [apply Hgood|apply (Hk x Hx)|now apply Hc].
  - rewrite add_spec, Hp, Ha, Hc. simpl. now rewrite Ha.
Qed.

Lemma delete_sub sel yes wr w x :
  x ∈ appuntamenti (snd (_delete_selected sel yes wr w)) -> x ∈ appuntamenti w.
Proof.
  rewrite delete_spec. destruct sel as [|idx sel]; [auto|].
  destruct (appuntamenti w !! idx) as [ap|]; [|auto].
  cbv zeta. destruct yes; [|auto].
  set (w2 := set_appuntamenti _ _).
  destruct (commit_delete_view wr w2) as (-> & _).
  rewrite <- (refresh_perm w2). simpl.
  apply list_elem_of_delete_inv.
Qed.

Lemma validated_add yes wr w :
  Forall validated (appuntamenti w) ->
  Forall validated (appuntamenti (snd (_add_appointment yes wr w))).
Proof.
  intros Hv. rewrite add_spec.
  destruct (parse_form_view w) as (Ha & _).
  destruct (_parse_form w) as [[[ap|]|e] w1] eqn:Hp; simpl in Ha |- *;
    rewrite ?Ha; try exact Hv.
  destruct (parse_form_checked _ _ _ Hp) as (Hap & _).
  assert (Hcommit : forall l w2,
    l = appuntamenti w ++ [ap] ->
    Forall validated (appuntamenti (snd (commit_add wr (set_appuntamenti l w2))))).
  { intros l w2 ->.
    destruct (commit_add_view wr (set_appuntamenti (appuntamenti w ++ [ap]) w2))
      as (-> & _).
    rewrite <- (refresh_perm _). simpl.
    apply Forall_app. split; [exact Hv|now apply Forall_singleton]. }
  destruct (find_overlap_in (self ap) (appuntamenti w)) as [[c|]|e]; simpl.
  - destruct yes; simpl; [now apply Hcommit|now rewrite Ha].
  - now apply Hcommit.
  - now rewrite Ha.
Qed.

End WithParser.

End ScheduleFacts.

(** ** The slots of the combo box *)

Module SlotFacts.
Import Tactics PyStr PyDatetime GestoreAppuntamenti Notions MoreNotions.

Lemma minutes_read_spec h fuel : forall m k,
  minutes_read fuel h m = true -> m <= k < m + Z.of_nat fuel ->
  slot_reads h k = true.
Proof.
  induction fuel as [|f IH]; intros m k H Hk; [lia|].
  simpl in H. apply andb_prop in H. destruct H as [H1 H2].
  destruct (Z.eq_dec k m) as [->|Hne]; [exact H1|].
  apply (IH (m + 1)); [exact H2|lia].
Qed.

Lemma hours_read_spec fuel : forall h k m,
  hours_read fuel h = true -> h <= k < h + Z.of_nat fuel -> 0 <= m < 60 ->
  slot_reads k m = true.
Proof.
  induction fuel as [|f IH]; intros h k m H Hk Hm; [lia|].
  simpl in H. apply andb_prop in H. destruct H as [H1 H2].
  destruct (Z.eq_dec k h) as [->|Hne].
  - apply (minutes_read_spec h 60 0); [exact H1|lia].
  - apply (IH (h + 1)); [exact H2|lia|exact Hm].
Qed.

(** Every hour and minute of the day, written as a slot, reads back. *)
Lemma slot_reads_day h m : 0 <= h < 24 -> 0 <= m < 60 -> slot_reads h m = true.
Proof.
  intros Hh Hm. apply (hours_read_spec 24 0); [|lia|exact Hm].
  vm_compute. reflexivity.
Qed.

Lemma slot_parse_back d h m :
  0 <= h < 24 -> 0 <= m < 60 ->
  _check_date_fields (d_year d) (d_month d) (d_day d) = true ->
  strip (slot_text h m) = slot_text h m
  /\ slot_text h m <> EmptyString
  /\ parse_start d (slot_text h m)
     = Ret (Datetime (d_year d) (d_month d) (d_day d) h m 0 0 None).
Proof.
  intros Hh Hm Hd. pose proof (slot_reads_day h m Hh Hm) as H.
  unfold slot_reads in H.
  apply andb_prop in H. destruct H as [H H3].
  apply andb_prop in H. destruct H as [H1 H2].
  apply String.eqb_eq in H1. split; [exact H1|]. split.
  { intros E. rewrite E in H2. discriminate. }
  unfold parse_start.
  destruct (split ":" (slot_text h m)) as [|a [|b [|? ?]]]; try discriminate.
  destruct (PyInt.of_str a) as [hh|]; [|discriminate].
  destruct (PyInt.of_str b) as [mm|]; [|discriminate].
  apply andb_prop in H3. destruct H3 as [Eh Em].
  apply Z.eqb_eq in Eh, Em. subst hh mm. cbn [res_bind]. unfold new. rewrite Hd.
  unfold _check_time_fields.
  replace (0 <=? h) with true by (symmetry; apply Z.leb_le; lia).
  replace (h <=? 23) with true by (symmetry; apply Z.leb_le; lia).
  replace (0 <=? m) with true by (symmetry; apply Z.leb_le; lia).
  replace (m <=? 59) with true by (symmetry; apply Z.leb_le; lia).
  reflexivity.
Qed.

(** The multiples of a positive step below a bound. *)
Lemma elem_of_range_step stop step m :
  0 < step ->
  m ∈ range_step stop step <-> 0 <= m < stop /\ m `mod` step = 0.
Proof.
  intros Hs. unfold range_step. rewrite list_elem_of_fmap.
  setoid_rewrite elem_of_seqZ. split.
  - intros (i & -> & Hi). split; [|apply Z_mod_mult].
    assert ((stop + step - 1) `div` step * step <= stop + step - 1)
      by (rewrite Z.mul_comm; apply Z.mul_div_le; lia).
    nia.
  - intros [Hm Hz]. exists (m `div` step).
    assert (Em : m = step * (m `div` step)) by (apply Z_div_exact_full_2; lia).
    split; [lia|]. split; [apply Z.div_pos; lia|].
    rewrite Z.add_0_l. apply Z.div_lt_upper_bound; [lia|].
    assert (stop + step - 1 < step * ((stop + step - 1) `div` step) + step).
    { pose proof (Z.mod_pos_bound (stop + step - 1) step Hs).
      pose proof (Z.div_mod (stop + step - 1) step ltac:(lia)). lia. }
    assert (m `div` step < (stop + step - 1) `div` step \/
            (stop + step - 1) `div` step <= m `div` step) as [|Hge] by lia;
      [nia|].
    nia.
Qed.

(** The slots of the combo box. *)
Lemma elem_of_time_slots step t :
  0 < step ->
  t ∈ _time_slots step <->
  exists h m, 0 <= h < 24 /\ 0 <= m < 60 /\ m `mod` step = 0 /\ t = slot_text h m.
Proof.
  intros Hs. unfold _time_slots. rewrite list_elem_of_bind. split.
  - intros (h & Ht & Hh). apply list_elem_of_bind in Ht.
    destruct Ht as (m & Ht & Hm).
    apply list_elem_of_singleton in Ht. apply elem_of_seqZ in Hh.
    apply elem_of_range_step in Hm; [|exact Hs].
    exists h, m. repeat split; try lia; tauto.
  - intros (h & m & Hh & Hm & Hz & ->). exists h. split; [|apply elem_of_seqZ; lia].
    apply list_elem_of_bind. exists m. split; [now apply list_elem_of_singleton|].
    apply elem_of_range_step; auto.
Qed.

End SlotFacts.

(** ** The properties *)

Module Extras.
Import Tactics PyDatetime GestoreAppuntamenti Notions MoreNotions OrderFacts FineFacts
  SortFacts AppuntamentoFacts PyStrFacts GestoreFacts CallbackFacts LoadFacts
  InvariantFacts MoreFacts EndFacts OverlapFacts PositionFacts RowFacts
  PersistFacts ScheduleFacts SlotFacts.

(** The witnesses are evaluated with the documented grammar as the parser;
    the theorems hold for every parser. *)
#[local] Existing Instance documented.

(** ** X1: the file restores the list *)

(** X1.  In a running window, closing with a write that succeeds leaves in
    the file the records of the list, in order.  A window started on that
    file holds appointments with the same titles, starts and durations in
    the same order and shows no warning; its start returns exactly when
    every appointment has an end. *)
Theorem X1_saved_file_restores `{iso : Fromisoformat} (w : World) (today : date) :
  reachable w ->
  disk (snd (_on_close Written w)) = saved (appuntamenti w)
  /\ (let r := __init__ today (saved (appuntamenti w)) in
      same_attributes (appuntamenti (snd r)) (appuntamenti w)
      /\ shown (snd r) = []
      /\ (fst r = Ret tt <->
          Forall (fun x => is_Ret (Appuntamento.fine (self x)) = true)
                 (appuntamenti w))).
Proof.
  intros Hr. apply reachable_inv in Hr. split.
  { unfold _on_close. now rewrite save_spec. }
  destruct (init_saved today w Hr) as (w1 & Hsame & Hsh & _ & Hs & ->).
  cbv zeta.
  destruct (refresh_rows w1 _ Hs) as (l1 & l2 & rows & El & Hrows & Ha & _ & Hfst).
  destruct (refresh_spec w1) as (_ & _ & Hshown & _). cbv zeta in Hshown.
  split; [now rewrite Ha|]. split; [now rewrite Hshown|].
  assert (Hiff : Forall (fun x => is_Ret (Appuntamento.fine (self x)) = true)
                   (appuntamenti w)
                 <-> Forall (fun x => is_Ret (Appuntamento.fine (self x)) = true)
                       (appuntamenti w1)).
  { split; apply (same_attributes_Forall
                    (fun a => is_Ret (Appuntamento.fine a) = true));
      [exact Hsame | symmetry; exact Hsame]. }
  rewrite Hiff, El. destruct l2 as [|x l2].
  - rewrite Hfst, app_nil_r. split; [intros _|reflexivity].
    clear -Hrows. induction Hrows as [|row x rows l Hx _ IH]; constructor; [|exact IH].
    rewrite <- str_Ret. unfold row_of in Hx. now rewrite Hx.
  - destruct Hfst as [-> Hx]. split; [discriminate|].
    intros H. apply Forall_app in H. destruct H as [_ H].
    apply Forall_cons in H. destruct H as [H _]. rewrite Hx in H. discriminate.
Qed.

(** The three appointments survive closing and starting again. *)
Lemma X1_saved_file_restores_witness :
  same_attributes
    (appuntamenti
       (snd (__init__ today (saved (appuntamenti (submit_all three empty_window))))))
    (appuntamenti (submit_all three empty_window)).
Proof.
  apply (X1_saved_file_restores (submit_all three empty_window) today
           (submit_all_reachable three empty_window empty_window_reachable)).
Defined.

(** ** X2: the slots of the combo box *)

(** X2.  For a positive step the slots of [_time_slots] are the texts
    [HH:MM] of the hours 0 to 23 and of the minutes below 60 that are
    multiples of the step; each is trimmed, not empty, and is read back by
    the parser of the form, on a date of the calendar, as the start at that
    hour and minute. *)
Theorem X2_time_slots_read_back (step : Z) (d : date) (t : string) :
  0 < step ->
  _check_date_fields (d_year d) (d_month d) (d_day d) = true ->
  t ∈ _time_slots step <->
  exists h m,
    0 <= h < 24 /\ 0 <= m < 60 /\ m `mod` step = 0
    /\ t = slot_text h m
    /\ PyStr.strip t = t /\ t <> EmptyString
    /\ parse_start d t
       = Ret (Datetime (d_year d) (d_month d) (d_day d) h m 0 0 None).
Proof.
  intros Hs Hd. rewrite elem_of_time_slots by exact Hs. split.
  - intros (h & m & Hh & Hm & Hz & ->). exists h, m.
    destruct (slot_parse_back d h m Hh Hm Hd) as (H1 & H2 & H3). auto 10.
  - intros (h & m & Hh & Hm & Hz & -> & _). exists h, m. auto.
Qed.

(** The slot 09:30 of the half-hour grid. *)
Lemma X2_time_slots_read_back_witness :
  "09:30"%string ∈ _time_slots 30 <->
  exists h m,
    0 <= h < 24 /\ 0 <= m < 60 /\ m `mod` 30 = 0
    /\ "09:30"%string = slot_text h m
    /\ PyStr.strip "09:30" = "09:30"%string /\ "09:30"%string <> EmptyString
    /\ parse_start today "09:30"
       = Ret (Datetime (d_year today) (d_month today) (d_day today) h m 0 0 None).
Proof.
  apply (X2_time_slots_read_back 30 today "09:30"); [lia|reflexivity].
Defined.

(** ** X3: where a new appointment is listed *)

(** X3.  In a running window, when the form yields the appointment [ap] and
    the addition goes through (no conflict, or the user accepts it), the new
    list is the old one with [ap] inserted after the appointments that start
    at the same time or earlier and before those that start later. *)
Theorem X3_added_after_earlier `{iso : Fromisoformat} (w w1 : World) (ap : obj) (c : option obj)
    (yes : bool) (wr : write_result) :
  reachable w ->
  _parse_form w = (Ret (Some ap), w1) ->
  find_overlap_in (self ap) (appuntamenti w) = Ret c ->
  c = None \/ yes = true ->
  exists l1 l2,
    appuntamenti w = l1 ++ l2
    /\ Forall (fun y => instant (start y) <= instant (start ap)) l1
    /\ Forall (fun y => instant (start ap) < instant (start y)) l2
    /\ appuntamenti (snd (_add_appointment yes wr w)) = l1 ++ ap :: l2.
Proof.
  intros Hr Hp Hc Hgo. apply reachable_inv in Hr.
  destruct (parse_form_frame w) as (_ & _ & _ & r & Hres & Hap).
  rewrite Hp in Hres, Hap. simpl in Hres, Hap. injection Hres as <-.
  destruct (Hap ap eq_refl) as (_ & _ & Hgood & _).
  pose proof (append_good w ap c Hr Hgood Hc) as Hg.
  destruct (sort_snoc false (appuntamenti w) ap Hg Hgood (inv_sorted _ Hr))
    as (l1 & l2 & El & H1 & H2 & Hs).
  destruct (add_commits yes wr w ap w1 c Hp Hc Hgo) as (w2 & Ha2 & _ & _ & _ & _ & _ & ->).
  exists l1, l2. split; [exact El|]. split; [exact H1|]. split; [exact H2|].
  destruct (commit_add_view wr w2) as (-> & _).
  destruct (refresh_spec w2) as (_ & _ & _ & H). now rewrite Ha2, Hs in H.
Qed.

(** In the busy window the appointment of 09:30, forced through the
    conflict, is listed between those of 09:00 and 10:00. *)
Lemma X3_added_after_earlier_witness :
  exists l1 l2,
    appuntamenti busy_window = l1 ++ l2
    /\ appuntamenti (snd (_add_appointment true Written busy_window))
       = l1 ++ Obj (next_id busy_window) (Appuntamento.Make "D" (at_time 9 30) 60)
               :: l2.
Proof.
  destruct (X3_added_after_earlier busy_window (bump_id busy_window)
              (Obj (next_id busy_window) (Appuntamento.Make "D" (at_time 9 30) 60))
              (Some (Obj 2 (Appuntamento.Make "nine" (at_time 9 0) 60)))
              true Written)
    as (l1 & l2 & El & _ & _ & Ha).
  - apply reach_step. apply submit_all_reachable. exact empty_window_reachable.
  - vm_compute. reflexivity.
  - vm_compute. reflexivity.
  - right. reflexivity.
  - exists l1, l2. split; [exact El|exact Ha].
Defined.

(** ** X4: the rows of the list box *)

(** X4.  In a running window every row of the list box is the text of the
    appointment at the same position of the list.  So a selected row always
    designates an appointment: [_delete_selected] on it asks about the title
    the row shows and never raises [IndexError]. *)
Theorem X4_row_is_appointment `{iso : Fromisoformat} (w : World) (i : nat) (row : Appuntamento.label) :
  reachable w ->
  lst w !! i = Some row ->
  exists x,
    appuntamenti w !! i = Some x
    /\ Appuntamento.__str__ (self x) = Ret row
    /\ forall rest yes wr,
         shown (snd (_delete_selected (i :: rest) yes wr w))
         = shown w ++ [AskCancellare (Appuntamento.l_titolo row)]
         /\ fst (_delete_selected (i :: rest) yes wr w) <> Raise IndexError.
Proof.
  intros Hr Hrow. destruct (reachable_rows w Hr) as (l1 & l2 & El & H2).
  destruct (Forall2_lookup_l _ _ _ _ _ H2 Hrow) as (x & Hx & Hstr).
  exists x. assert (Hi : appuntamenti w !! i = Some x).
  { rewrite El. now apply lookup_app_l_Some. }
  split; [exact Hi|]. split; [exact Hstr|].
  intros rest yes wr. rewrite delete_spec, Hi. cbv zeta.
  rewrite (str_title _ _ Hstr). destruct yes; [|split; [reflexivity|discriminate]].
  set (w2 := set_appuntamenti _ _).
  destruct (commit_delete_frame wr w2) as (_ & _ & ->).
  split; [reflexivity|].
  destruct (commit_delete_view wr w2) as (_ & _ & ->).
  intros H. apply refresh_raises in H. destruct H; discriminate.
Qed.

(** The second row of the window with the three appointments. *)
Lemma X4_row_is_appointment_witness :
  exists x,
    appuntamenti (submit_all three empty_window) !! 1%nat = Some x
    /\ Appuntamento.__str__ (self x)
       = Ret (Appuntamento.Label "nine" "15/03 09:00" "10:00" 60).
Proof.
  destruct (X4_row_is_appointment (submit_all three empty_window) 1
              (Appuntamento.Label "nine" "15/03 09:00" "10:00" 60))
    as (x & Hx & Hs & _).
  - apply submit_all_reachable. exact empty_window_reachable.
  - vm_compute. reflexivity.
  - exists x. split; [exact Hx|exact Hs].
Defined.

(** ** X5: the end of an appointment *)

(** X5.  For an appointment with a valid start, [fine] returns exactly when
    the day on which the appointment ends is a day of the years 1 to 9999,
    and raises [OverflowError] otherwise.  The end it returns is a valid
    value on that day, at the time of day of the start plus the duration
    modulo one day, with the microseconds and the offset of the start. *)
Theorem X5_fine_exists_iff (a : Appuntamento.t) :
  valid (Appuntamento.data_ora a) = true ->
  (is_Ret (Appuntamento.fine a) = true <-> 1 <= end_day a <= _MAXORDINAL)
  /\ (forall x, Appuntamento.fine a = Raise x -> x = OverflowError)
  /\ (forall e, Appuntamento.fine a = Ret e ->
        valid e = true
        /\ toordinal e = end_day a
        /\ time_of_day e
           = (time_of_day (Appuntamento.data_ora a) + Appuntamento.durata a * 60)
               `mod` 86400
        /\ microsecond e = microsecond (Appuntamento.data_ora a)
        /\ tzinfo e = tzinfo (Appuntamento.data_ora a)).
Proof.
  intros Hv. pose proof (fine_value a Hv) as H.
  split; [|split].
  - destruct (Z.leb_spec 1 (end_day a)), (Z.leb_spec (end_day a) _MAXORDINAL);
      cbn [andb] in H.
    + destruct H as (e & -> & _). simpl. split; [lia|reflexivity].
    + rewrite H. simpl. split; [discriminate|lia].
    + rewrite H. simpl. split; [discriminate|lia].
    + rewrite H. simpl. split; [discriminate|lia].
  - apply fine_raises.
  - intros e He. destruct (fine_spec a e Hv He) as (Ve & Tz & _).
    destruct ((1 <=? end_day a) && (end_day a <=? _MAXORDINAL)); [|congruence].
    destruct H as (e' & He' & Ho & Ht & Hu). rewrite He in He'.
    injection He' as <-. repeat split; try assumption.
    rewrite Ht. unfold end_seconds.
    rewrite <- Z.add_assoc, Z.add_comm, Z_mod_plus_full. reflexivity.
Qed.

(** The dentist's appointment has an end: it ends within the calendar. *)
Lemma X5_fine_exists_iff_witness :
  is_Ret (Appuntamento.fine dentist) = true
  <-> 1 <= end_day dentist <= _MAXORDINAL.
Proof.
  apply (X5_fine_exists_iff dentist). reflexivity.
Defined.

(** ** X6: the overlap test is symmetric *)

(** X6.  On valid starts the test of [_find_overlap] answers [True] exactly
    when both ends exist, the two starts are of one kind (both naive or both
    aware) and the two half-open intervals meet on the time line.  Hence it
    answers [True] for a candidate against an appointment exactly when it
    does with the two exchanged. *)
Theorem X6_overlap_symmetric (a b : Appuntamento.t) :
  valid (Appuntamento.data_ora a) = true ->
  valid (Appuntamento.data_ora b) = true ->
  (overlaps a b = Ret true <->
   is_Ret (Appuntamento.fine a) = true /\ is_Ret (Appuntamento.fine b) = true
   /\ aware (Appuntamento.data_ora a) = aware (Appuntamento.data_ora b)
   /\ interval_overlap a b)
  /\ (overlaps a b = Ret true <-> overlaps b a = Ret true).
Proof.
  intros Va Vb. split; [now apply overlaps_true|].
  rewrite (overlaps_true a b Va Vb), (overlaps_true b a Vb Va).
  unfold interval_overlap. split; intros (H1 & H2 & H3 & H4 & H5); auto.
Qed.

(** The appointments of 09:00 and of 09:30, one hour each. *)
Lemma X6_overlap_symmetric_witness :
  overlaps (Appuntamento.Make "A" (at_time 9 0) 60)
           (Appuntamento.Make "B" (at_time 9 30) 60) = Ret true
  <-> overlaps (Appuntamento.Make "B" (at_time 9 30) 60)
               (Appuntamento.Make "A" (at_time 9 0) 60) = Ret true.
Proof.
  apply (X6_overlap_symmetric (Appuntamento.Make "A" (at_time 9 0) 60)
           (Appuntamento.Make "B" (at_time 9 30) 60)); reflexivity.
Defined.

(** ** X7: a schedule without conflicts stays so *)

(** X7.  In a running window whose appointments do not meet one another,
    they still do not after any event other than an addition the user
    forces through a conflict: additions that are declined on a conflict,
    deletions, edits of the form and the closing of the window keep the
    schedule free of conflicts. *)
Theorem X7_conflict_free_kept `{iso : Fromisoformat} (w : World) (ev : event) :
  reachable w ->
  conflict_free (appuntamenti w) ->
  unforced ev ->
  conflict_free (appuntamenti (handle ev w)).
Proof.
  intros Hr Hcf Hev. apply reachable_inv in Hr.
  destruct ev as [title d time duration|yes wr|sel yes wr|wr]; simpl.
  - exact Hcf.
  - destruct yes; [contradiction|]. now apply conflict_free_add.
  - eapply conflict_free_sub; [|exact Hcf]. intros x. apply delete_sub.
  - unfold _on_close. destruct (save_frame wr w) as (_ & -> & _). exact Hcf.
Qed.

(** The three appointments, back to back, and one more request for 09:30
    that the user declines. *)
Lemma X7_conflict_free_kept_witness :
  conflict_free
    (appuntamenti (handle (ClickAdd false Written) busy_window)).
Proof.
  apply (X7_conflict_free_kept busy_window (ClickAdd false Written)).
  - apply reach_step. apply submit_all_reachable. exact empty_window_reachable.
  - eval_term (appuntamenti busy_window).
    intros x y Hx Hy Hne [H1 H2].
    repeat (apply elem_of_cons in Hx; destruct Hx as [->|Hx]);
      try (now apply elem_of_nil in Hx);
      repeat (apply elem_of_cons in Hy; destruct Hy as [->|Hy]);
      try (now apply elem_of_nil in Hy);
      try (now apply Hne);
      vm_compute in H1, H2; discriminate.
  - exact I.
Defined.

(** ** X8: what the form returns *)

(** X8.  [_parse_form] never raises.  Either it shows exactly one of its
    three error boxes and changes nothing else, or it shows none and
    returns a new object with a title that is trimmed and not empty, a
    positive duration, and a valid naive start on the date of the calendar
    with seconds and microseconds zero. *)
Theorem X8_parse_form_outcome (w : World) :
  exists r,
    fst (_parse_form w) = Ret r
    /\ match r with
       | None =>
           exists d, d ∈ [ErrCompila; ErrDurata; ErrDataOra]
                     /\ snd (_parse_form w) = add_shown d w
       | Some ap =>
           snd (_parse_form w) = bump_id w
           /\ oid ap = next_id w
           /\ validated ap /\ trimmed ap
           /\ valid (start ap) = true /\ tzinfo (start ap) = None
           /\ (year (start ap), month (start ap), day (start ap))
              = (d_year (cal_date w), d_month (cal_date w), d_day (cal_date w))
           /\ second (start ap) = 0 /\ microsecond (start ap) = 0
       end.
Proof.
  destruct (parse_form_frame w) as (_ & _ & _ & r & Hres & Hap).
  exists r. split; [exact Hres|]. destruct r as [ap|].
  - destruct (Hap ap eq_refl) as (Hoid & Hw & [Hv Hk] & Ht).
    destruct (_parse_form w) as [r0 w1] eqn:Hp. simpl in Hres, Hw. subst r0.
    destruct (parse_form_checked _ _ _ Hp) as (Hval & Hd & Hs & Hu).
    simpl. repeat split; try assumption; try apply Hval.
    unfold aware in Hk. now destruct (tzinfo (start ap)).
  - revert Hres. rewrite parse_form_spec. destruct (form_empty w).
    { intros _. exists ErrCompila. split; [rewrite !elem_of_cons; auto|reflexivity]. }
    destruct (parse_duration _).
    2:{ intros _. exists ErrDurata. split; [rewrite !elem_of_cons; auto|reflexivity]. }
    destruct (parse_start _ _); [discriminate|].
    intros _. exists ErrDataOra. split; [rewrite !elem_of_cons; auto|reflexivity].
Qed.

(** ** X9: an appointment without an end *)

(** X9.  Let a running window hold an appointment whose end lies beyond the
    calendar.  Then [_refresh_list] raises [OverflowError]; no press of the
    add button writes the file; and once the window is closed, a new window
    on the file it has written raises [OverflowError] at its start.  Such a
    state arises from the empty window by one submission of the form: the
    last day of the year 9999 at 23:30, for 60 minutes. *)
Theorem X9_appointment_without_end `{iso : Fromisoformat} (w : World) :
  reachable w ->
  Exists (fun x => is_Ret (Appuntamento.fine (self x)) = false) (appuntamenti w) ->
  fst (_refresh_list w) = Raise OverflowError
  /\ (forall yes wr, disk (snd (_add_appointment yes wr w)) = disk w)
  /\ (forall today,
        fst (__init__ today (disk (snd (_on_close Written w))))
        = Raise OverflowError).
Proof.
  intros Hr Hex. apply reachable_inv in Hr.
  assert (Hraise : forall w2 k,
    Forall (good k) (appuntamenti w2) ->
    Exists (fun x => is_Ret (Appuntamento.fine (self x)) = false) (appuntamenti w2) ->
    fst (_refresh_list w2) = Raise OverflowError).
  { intros w2 k Hg He. destruct (sort_sorted k _ Hg) as (l & Hs & _ & Hp).
    destruct (refresh_rows w2 l Hs) as (l1 & [|x l2] & rows & El & Hrows & _ & _ & H).
    - exfalso. rewrite app_nil_r in El. subst l1. rewrite Hp in He.
      apply Exists_exists in He. destruct He as (x & Hx & Hf).
      apply list_elem_of_lookup in Hx. destruct Hx as [i Hi].
      destruct (Forall2_lookup_r _ _ _ _ _ Hrows Hi) as (row & _ & Hrow).
      rewrite <- str_Ret in Hf. unfold row_of in Hrow. rewrite Hrow in Hf.
      discriminate.
    - apply H. }
  pose proof Hr as [[k Hk] Hsorted Htrim _ _].
  split; [now apply (Hraise w k)|]. split.
  - intros yes wr.
    destruct (parse_form_frame w) as (Ha & Hd & _ & r & Hres & Hap).
    destruct (_parse_form w) as [r0 w1] eqn:Hp. simpl in Ha, Hd, Hres, Hap.
    subst r0. destruct r as [ap|].
    2:{ rewrite add_spec, Hp. exact Hd. }
    destruct (Hap ap eq_refl) as (_ & _ & Hgood & _).
    destruct (find_overlap_in (self ap) (appuntamenti w)) as [c|e] eqn:Hc.
    2:{ rewrite add_spec, Hp, Ha, Hc. exact Hd. }
    assert (Hgo : (c = None \/ yes = true) \/ (exists x, c = Some x) /\ yes = false).
    { destruct c, yes; eauto. }
    destruct Hgo as [Hgo|[[x ->] ->]].
    + destruct (add_commits yes wr w ap w1 c Hp Hc Hgo)
        as (w2 & Ha2 & _ & Hd2 & _ & _ & _ & ->).
      assert (Hf : fst (_refresh_list w2) = Raise OverflowError).
      { apply (Hraise w2 false).
        - rewrite Ha2. apply Forall_app. split; [|now apply Forall_singleton].
          eapply append_good; eauto.
        - rewrite Ha2. apply Exists_app. now left. }
      destruct (refresh_spec w2) as (_ & Hd3 & _). cbv zeta in Hd3.
      unfold commit_add. cbv [bind].
      destruct (_refresh_list w2) as [[[]|e] w3]; simpl in Hf, Hd3 |- *;
        [discriminate|congruence].
    + rewrite add_spec, Hp, Ha, Hc. exact Hd.
  - intros today. unfold _on_close. rewrite save_spec. simpl.
    fold (saved (appuntamenti w)).
    destruct (init_saved today w Hr) as (w1 & Hsame & _ & _ & Hs & ->).
    apply (Hraise w1 k).
    + apply (same_attributes_Forall
               (fun a => valid (Appuntamento.data_ora a) = true
                         /\ aware (Appuntamento.data_ora a) = k) _ _ Hsame Hk).
    + apply Exists_exists.
      apply Exists_exists in Hex. destruct Hex as (x & Hx & Hf).
      apply list_elem_of_lookup in Hx. destruct Hx as [i Hi].
      assert (Hlook : (self <$> appuntamenti w1) !! i = Some (self x)).
      { rewrite Hsame, list_lookup_fmap, Hi. reflexivity. }
      rewrite list_lookup_fmap in Hlook.
      destruct (appuntamenti w1 !! i) as [y|] eqn:Hy; [|discriminate].
      injection Hlook as Hself. exists y. split.
      * eapply list_elem_of_lookup_2; eauto.
      * now rewrite Hself.
Qed.

(** The window with the appointment of the last evening of the year 9999
    cannot be started again once it is closed. *)
Lemma X9_appointment_without_end_witness :
  fst (__init__ today (disk (snd (_on_close Written endless_window))))
  = Raise OverflowError.
Proof.
  apply (X9_appointment_without_end endless_window).
  - do 2 apply reach_step. exact empty_window_reachable.
  - eval_term (appuntamenti endless_window).
    apply Exists_cons. left. vm_compute. reflexivity.
Defined.

(** ** X10: what the form has checked stays true *)

(** X10.  If every appointment of the list has a title that is not empty
    and a positive duration, this is so again after any event: the
    callbacks add to the list only what the form has checked. *)
Theorem X10_validated_kept (w : World) (ev : event) :
  Forall validated (appuntamenti w) ->
  Forall validated (appuntamenti (handle ev w)).
Proof.
  intros Hv. destruct ev as [title d time duration|yes wr|sel yes wr|wr]; simpl.
  - exact Hv.
  - now apply validated_add.
  - rewrite Forall_forall in Hv |- *. intros x Hx. apply Hv.
    eapply delete_sub; eauto.
  - unfold _on_close. destruct (save_frame wr w) as (_ & -> & _). exact Hv.
Qed.

(** The window with the three appointments, and one more forced in. *)
Lemma X10_validated_kept_witness :
  Forall validated (appuntamenti (handle (ClickAdd true Written) busy_window)).
Proof.
  apply (X10_validated_kept busy_window (ClickAdd true Written)).
  eval_term (appuntamenti busy_window).
  repeat (apply Forall_cons; split; [split; [discriminate|reflexivity]|]).
  constructor.
Defined.

(** ** X11: a file that loads *)

(** X11.  When the file holds a value that can be iterated and
    [from_dict] accepts each of its elements, [_load] returns, replaces the
    list by the appointments decoded, one per element and in the order of
    the file, as objects with identities of their own, and shows no
    warning. *)
Theorem X11_load_accepts `{iso : Fromisoformat} (w : World) (data : pyval) (l : list pyval) :
  disk w = Content data ->
  iter data = Ret l ->
  Forall (fun d => is_Ret (Appuntamento.from_dict d) = true) l ->
  fst (_load w) = Ret tt
  /\ Forall2 (fun d ap => Appuntamento.from_dict d = Ret (self ap))
       l (appuntamenti (snd (_load w)))
  /\ NoDup (oid <$> appuntamenti (snd (_load w)))
  /\ shown (snd (_load w)) = shown w
  /\ disk (snd (_load w)) = disk w.
Proof.
  intros Hd Hi Hl. destruct (load_spec w) as (Hr & Hdisk & H).
  rewrite Hd, Hi in H. destruct (load_all_accepts l w Hl) as (aps & w' & E).
  rewrite E in H. rewrite H. simpl.
  pose proof (load_all_frame l w) as (_ & Hs & _). rewrite E in Hs. simpl in Hs.
  destruct (load_all_Ret _ _ _ _ E) as (H1 & _ & H3).
  split; [exact Hr|]. split; [exact H1|]. split; [exact H3|].
  split; [exact Hs|]. rewrite H in Hdisk. exact Hdisk.
Qed.

(** A file with the record of the dentist, its duration written as the
    text ["30"]. *)
Lemma X11_load_accepts_witness :
  Forall2 (fun d ap => Appuntamento.from_dict d = Ret (self ap))
    [record (PStr "30")]
    (appuntamenti (snd (_load (built today (Content (PList [record (PStr "30")])))))).
Proof.
  apply (X11_load_accepts (built today (Content (PList [record (PStr "30")])))
           (PList [record (PStr "30")]) [record (PStr "30")]).
  - reflexivity.
  - reflexivity.
  - apply Forall_singleton. vm_compute. reflexivity.
Defined.

(** ** X12: an addition that completes *)

(** X12.  In a running window, when the form yields [ap], the addition goes
    through and every appointment of the new list has an end, the callback
    returns; the list box then shows one row per appointment, in the order
    of the list; the title, the time and the duration of the form are
    blank and its date is kept; the status reads "added".  If the write
    succeeds the file holds the records of the new list; if it fails the
    callback returns all the same and the status still reads "added", not
    the error. *)
Theorem X12_addition_completes `{iso : Fromisoformat} (w w1 : World) (ap : obj) (c : option obj)
    (yes : bool) (wr : write_result) :
  reachable w ->
  _parse_form w = (Ret (Some ap), w1) ->
  find_overlap_in (self ap) (appuntamenti w) = Ret c ->
  c = None \/ yes = true ->
  Forall (fun x => is_Ret (Appuntamento.fine (self x)) = true)
         (appuntamenti w ++ [ap]) ->
  let w' := snd (_add_appointment yes wr w) in
  fst (_add_appointment yes wr w) = Ret tt
  /\ Forall2 row_of (lst w') (appuntamenti w')
  /\ (ent_title w', cmb_time w', ent_duration w')
     = (EmptyString, EmptyString, EmptyString)
  /\ cal_date w' = cal_date w
  /\ status w' = Aggiunto
  /\ disk w' = match wr with
               | Written => saved (appuntamenti w')
               | WriteFails _ after => after
               end.
Proof.
  intros Hr Hp Hc Hgo Hends. apply reachable_inv in Hr.
  destruct (parse_form_frame w) as (_ & _ & _ & r & Hres & Hap).
  rewrite Hp in Hres, Hap. simpl in Hres, Hap. injection Hres as <-.
  destruct (Hap ap eq_refl) as (_ & Hw1 & Hgood & _). subst w1.
  pose proof (append_good w ap c Hr Hgood Hc) as Hg.
  destruct (add_commits yes wr w ap _ c Hp Hc Hgo)
    as (w2 & Ha2 & _ & _ & _ & _ & Hcal & ->).
  assert (Hg2 : Forall (good false) (appuntamenti w2)).
  { rewrite Ha2. apply Forall_app. split; [exact Hg|now apply Forall_singleton]. }
  destruct (sort_sorted false _ Hg2) as (l & Hs & _ & Hperm).
  destruct (refresh_rows w2 l Hs) as (l1 & l2 & rows & El & Hrows & _ & _ & H).
  destruct l2 as [|x l2].
  2:{ exfalso. destruct H as [_ Hx]. rewrite <- Ha2, Hperm, El in Hends.
      apply Forall_app in Hends. destruct Hends as [_ Hends].
      apply Forall_cons in Hends. destruct Hends as [Hends _].
      rewrite Hx in Hends. discriminate. }
  rewrite app_nil_r in El. subst l1. clear H.
  assert (Href : _refresh_list w2
                 = (Ret tt, set_lst rows (set_appuntamenti l w2))).
  { unfold _refresh_list. mred. rewrite Hs.
    rewrite (fill_lst_all l _ rows Hrows). reflexivity. }
  unfold commit_add. cbv [bind]. rewrite Href, clear_form_spec, save_spec.
  cbv zeta. destruct wr; simpl; repeat split; auto.
Qed.

(** In the busy window the appointment of 09:30, forced through the
    conflict, is added and saved. *)
Lemma X12_addition_completes_witness :
  fst (_add_appointment true Written busy_window) = Ret tt
  /\ disk (snd (_add_appointment true Written busy_window))
     = saved (appuntamenti (snd (_add_appointment true Written busy_window))).
Proof.
  assert (Hends :
    Forall (fun x => is_Ret (Appuntamento.fine (self x)) = true)
      (appuntamenti busy_window
       ++ [Obj (next_id busy_window) (Appuntamento.Make "D" (at_time 9 30) 60)])).
  { eval_term (appuntamenti busy_window). eval_term (next_id busy_window).
    cbn [app].
    repeat (apply Forall_cons; split; [vm_compute; reflexivity|]). constructor. }
  pose proof (X12_addition_completes busy_window (bump_id busy_window)
                (Obj (next_id busy_window) (Appuntamento.Make "D" (at_time 9 30) 60))
                (Some (Obj 2 (Appuntamento.Make "nine" (at_time 9 0) 60)))
                true Written
                (reach_step _ _ (submit_all_reachable three empty_window
                                   empty_window_reachable))
                ltac:(vm_compute; reflexivity) ltac:(vm_compute; reflexivity)
                (or_intror eq_refl) Hends) as H.
  cbv zeta in H. destruct H as (H1 & _ & _ & _ & _ & H2).
  split; [exact H1|exact H2].
Defined.

(** ** X13: what [from_dict] returns is stable *)

(** X13.  An appointment that [from_dict] has returned goes unchanged
    through [to_dict] and [from_dict]: the title is already trimmed, the
    start is written in a form that is read back, the duration is an
    integer. *)
Theorem X13_from_dict_stable `{iso : Fromisoformat} (d : pyval) (a : Appuntamento.t) :
  Appuntamento.from_dict d = Ret a ->
  Appuntamento.from_dict (Appuntamento.to_dict a) = Ret a.
Proof.
  intros H. rewrite from_dict_to_dict by (eapply from_dict_valid; eauto).
  rewrite (from_dict_trimmed _ _ H). now destruct a.
Qed.

(** The record of the dentist with an untrimmed title and the duration as
    a text. *)
Lemma X13_from_dict_stable_witness :
  Appuntamento.from_dict (Appuntamento.to_dict dentist) = Ret dentist.
Proof.
  apply (X13_from_dict_stable (record (PStr " 30 "))). vm_compute. reflexivity.
Defined.

End Extras.
